(** * MapKit JS ambient declarations: the declared surface and its checks

    The repository holds three revisions of one TypeScript declaration file
    ([src/mapkit.d.ts], [src/unnamed/part_000], [src/unnamed/part_001]).
    A declaration file has no statements to run: its content is the list of
    declarations it makes.  Each file is embedded as that list, declaration
    by declaration and member by member, in source order; comments are
    dropped and parentheses in types only group.  The properties below are
    stated over these lists. *)

From Stdlib Require Import String List Bool ZArith Lia.
Import ListNotations.
Open Scope string_scope.

Set Warnings "-register-all".

(** ** Types

    A [binder] is a named slot with an optional [?] mark and an optional
    annotation: a parameter [name?: T], a property [name?: T] or a field of
    an object type.  TypeScript lets the annotation be left out
    ([(error, data: GeocodeResponse) => void], [countryCode]). *)

Record binder (T : Type) : Type := Binder
  { b_name : string; b_optional : bool; b_type : option T }.

Arguments Binder {T} _ _ _.
Arguments b_name {T} _.
Arguments b_optional {T} _.
Arguments b_type {T} _.

Inductive ty : Type :=
| TNumber                                   (* number *)
| TString                                   (* string *)
| TBoolean                                  (* boolean *)
| TVoid                                     (* void *)
| TAny                                      (* any *)
| TNull                                     (* null *)
| TObjectKw                                 (* object *)
| TRef (name : string) (args : list ty)     (* Map, Map.MapTypes, MapKitEvented<T> *)
| TArray (elem : ty)                        (* T[] *)
| TTuple (elems : list ty)                  (* [T, U] *)
| TUnion (alts : list ty)                   (* T | U *)
| TFun (params : list (binder ty)) (ret : ty)   (* (x: T, y?: U) => R *)
| TLit (fields : list (binder ty))          (* { height: number, width: number } *)
| TKeyof (t : ty)                           (* keyof T *)
| TIndex (obj idx : ty).                    (* T[K] *)

Definition param := binder ty.

(** [P] holds of the annotation of a binder, when it has one. *)
Definition binder_all (P : ty -> Prop) (b : binder ty) : Prop :=
  match b_type b with
  | Some t => P t
  | None => True
  end.

Definition ref (n : string) : ty := TRef n [].
Definition req (n : string) (t : ty) : param := Binder n false (Some t).
Definition opt (n : string) (t : ty) : param := Binder n true (Some t).
Definition untyped (n : string) : param := Binder n false None.

(** ** Declarations *)

Inductive tparam : Type :=
| TParam (name : string) (constraint : option ty).   (* K extends keyof T *)

(** A call signature.  [s_ret] is the written return annotation, [s_body]
    the text of the braces after the signature when there is one. *)
Record signature : Type := Sig
  { s_tparams : list tparam;
    s_params : list param;
    s_ret : option ty;
    s_body : option string }.

Inductive member : Type :=
| MProperty (b : binder ty) (init : option string)
| MMethod (name : string) (optional : bool) (sig : signature)
| MConstructor (params : list param) (body : option string).

Definition field (n : string) (t : ty) : member := MProperty (req n t) None.
Definition field_opt (n : string) (t : ty) : member := MProperty (opt n t) None.
Definition field_untyped (n : string) : member := MProperty (untyped n) None.
Definition method (n : string) (ps : list param) (r : ty) : member :=
  MMethod n false (Sig [] ps (Some r) None).
Definition method_noret (n : string) (ps : list param) : member :=
  MMethod n false (Sig [] ps None None).
Definition ctor (ps : list param) : member := MConstructor ps None.

Inductive enum_init : Type :=
| INum (n : Z)                 (* Low = 250 *)
| IStr (s : string)            (* Hybrid = 'Hybrid' *)
| IComputed (expr : string).   (* any other initialiser expression *)

Inductive enum_member : Type :=
| EnumMember (name : string) (init : option enum_init).

Record modifiers : Type := Mods { m_export : bool; m_declare : bool }.

Inductive var_kind : Type := VLet | VConst | VVar.

Inductive decl : Type :=
| DExportAsNamespace (name : string)
| DFunction (mods : modifiers) (name : string) (sig : signature)
| DVariable (mods : modifiers) (kind : var_kind) (name : string)
            (type : option ty) (init : option string)
| DTypeAlias (mods : modifiers) (name : string) (def : ty)
| DInterface (mods : modifiers) (name : string) (extends : list ty)
             (members : list member)
| DClass (mods : modifiers) (abstract : bool) (name : string)
         (tparams : list tparam) (extends : option ty) (implements : list ty)
         (members : list member)
| DEnum (mods : modifiers) (name : string) (members : list enum_member)
| DNamespace (mods : modifiers) (name : string) (body : list decl).

(** ** The three declaration files

    [mapkit_d_ts] is [src/mapkit.d.ts]. *)

Definition mapkit_d_ts : list decl :=
  [
    DExportAsNamespace "mapkit";
    DFunction (Mods false false) "init"
      (Sig [] [req "options" (ref "MapKitInitOptions")] (Some TVoid) None);
    DFunction (Mods false false) "addEventListener"
      (Sig [] [req "type" TString; req "listener" (TFun [untyped "Event"] TVoid); opt "thisObject" TAny] None None);
    DFunction (Mods false false) "removeEventListener"
      (Sig [] [req "type" TString; req "listener" (TFun [untyped "Event"] TVoid); opt "thisObject" TAny] None None);
    DTypeAlias (Mods false false) "maps" (TTuple [ref "Map"]);
    DInterface (Mods false false) "MapKitInitOptions" []
        [ field "authorizationCallback" (TFun [req "done" (TFun [req "jwt" TString] TVoid)] TVoid);
          field_opt "language" TString ];
    DClass (Mods false false) false "Coordinate" [] None []
        [ ctor [req "latitude" TNumber; req "longitude" TNumber];
          field "latitude" TNumber;
          field "longitude" TNumber;
          method "copy" [] (ref "Coordinate");
          method "equals" [req "other" (ref "Coordinate")] TBoolean;
          method "toMapPoint" [] (ref "MapPoint");
          method "toUnwrappedMapPoint" [] (ref "MapPoint") ];
    DInterface (Mods false false) "MapConstructorOptions" []
        [ field_opt "visibleMapRect" (ref "MapRect");
          field_opt "region" (ref "CoordinateRegion");
          field_opt "center" (ref "Coordinate");
          field_opt "rotation" TNumber;
          field_opt "tintColor" TString;
          field_opt "colorScheme" (ref "Map.ColorSchemes");
          field_opt "mapType" (ref "Map.MapTypes");
          field_opt "padding" (ref "Padding");
          field_opt "showsMapTypeControl" TBoolean;
          field_opt "isRotationEnabled" TBoolean;
          field_opt "showsCompass" (ref "FeatureVisibility");
          field_opt "isZoomEnabled" TBoolean;
          field_opt "showsZoomControl" TBoolean;
          field_opt "isScrollEnabled" TBoolean;
          field_opt "showsScale" (ref "FeatureVisibility");
          field_opt "annotationForCluster" (ref "Annotation");
          field_opt "annotations" (TArray (ref "Annotation"));
          field_opt "selectedAnnotation" (TUnion [ref "Annotation"; TNull]);
          field_opt "overlays" (TArray (ref "Overlay"));
          field_opt "selectedOverlay" (TUnion [ref "Overlay"; TNull]);
          field_opt "showsPointsOfInterest" TBoolean;
          field_opt "showsUserLocation" TBoolean;
          field_opt "tracksUserLocation" TBoolean;
          field_opt "showsUserLocationControl" TBoolean ];
    DClass (Mods false false) false "Map" [] None []
        [ ctor [opt "parent" (TUnion [TString; ref "Element"]); opt "options" (ref "MapConstructorOptions")];
          method_noret "addEventListener" [req "type" TString; req "listener" (TFun [untyped "Map"] TVoid); opt "thisObject" TAny];
          method_noret "removeEventListener" [req "type" TString; req "listener" (TFun [untyped "Map"] TVoid); opt "thisObject" TAny];
          field "isRotationAvailable" TBoolean;
          field "isRotationEnabled" TBoolean;
          field "isScrollEnabled" TBoolean;
          field "isZoomEnabled" TBoolean;
          field "center" (ref "Coordinate");
          method "setCenterAnimated" [req "coordinate" (ref "Coordinate"); opt "animate" TBoolean] (ref "Map");
          field "region" (ref "CoordinateRegion");
          method "setRegionAnimated" [req "egion" (ref "CoordinateRegion"); opt "animate" TBoolean] (ref "Map");
          field "rotation" TNumber;
          method "setRotationAnimated" [req "degrees" TNumber; opt "animate" TBoolean] (ref "Map");
          field "visibleMapRect" (ref "MapRect");
          method "setVisibleMapRectAnimated" [req "mapRect" (ref "MapRect"); opt "animate" TBoolean] (ref "Map");
          field "colorScheme" (ref "Map.ColorSchemes");
          field "distances" (ref "Map.Distances");
          field "mapType" (ref "Map.MapTypes");
          field "padding" (ref "Padding");
          field "showsCompass" (ref "FeatureVisibility");
          field "showsMapTypeControl" TBoolean;
          field "showsZoomControl" TBoolean;
          field "showsUserLocationControl" TBoolean;
          field "showsPointsOfInterest" TBoolean;
          field "showsScale" (ref "FeatureVisibility");
          field "tintColor" TString;
          method_noret "showItems" [req "items" (TArray (TUnion [ref "Annotation"; ref "Overlay"])); opt "options" (ref "MapShowItemsOptions")];
          field_opt "annotationForCluster" (ref "Annotation");
          field_opt "annotations" (TArray (ref "Annotation"));
          field_opt "selectedAnnotation" (TUnion [ref "Annotation"; TNull]);
          method "annotationsInMapRect" [req "mapRect" (ref "MapRect")] (TArray (ref "Annotation"));
          method_noret "addAnnotation" [req "annotation" (ref "Annotation")];
          method_noret "addAnnotations" [req "annotations" (TArray (ref "Annotation"))];
          method_noret "removeAnnotation" [req "annotation" (ref "Annotation")];
          method_noret "removeAnnotations" [req "annotations" (TArray (ref "Annotation"))];
          field "overlays" (TArray (ref "Overlay"));
          field "selectedOverlay" (TUnion [ref "Overlay"; TNull]);
          method "overlaysAtPoint" [req "point" (ref "DOMPoint")] (TArray (ref "Overlay"));
          method_noret "addOverlay" [req "overlay" (ref "Overlay")];
          method_noret "addOverlays" [req "overlays" (TArray (ref "Overlay"))];
          method_noret "removeOverlay" [req "overlay" (ref "Overlay")];
          method_noret "removeOverlays" [req "overlays" (TArray (ref "Overlay"))];
          method "topOverlayAtPoint" [req "point" (ref "DOMPoint")] (ref "Overlay");
          field "tileOverlays" (TArray (ref "TileOverlay"));
          method_noret "addTileOverlay" [req "overlay" (ref "TileOverlay")];
          method_noret "addTileOverlays" [req "overlays" (TArray (ref "TileOverlay"))];
          method_noret "removeTileOverlay" [req "overlay" (ref "TileOverlay")];
          method_noret "removeTileOverlays" [req "overlays" (TArray (ref "TileOverlay"))];
          field "showsUserLocation" TBoolean;
          field "tracksUserLocation" TBoolean;
          field "userLocationAnnotation" (TUnion [ref "Annotation"; TNull]);
          method "convertCoordinateToPointOnPage" [req "coordinate" (ref "Coordinate")] (ref "DOMPoint");
          method "convertPointOnPageToCoordinate" [req "point" (ref "DOMPoint")] (ref "Coordinate");
          method "destroy" [] TVoid;
          field "element" (ref "Element") ];
    DNamespace (Mods false false) "Map"
        [
         DEnum (Mods false false) "MapTypes"
             [ EnumMember "Hybrid" (Some (IStr "Hybrid"));
               EnumMember "Satellite" (Some (IStr "Satellite"));
               EnumMember "Standard" (Some (IStr "Standard"));
               EnumMember "MutedStandard" (Some (IStr "MutedStandard")) ];
         DEnum (Mods false false) "ColorSchemes"
             [ EnumMember "Light" (Some (IStr "Light"));
               EnumMember "Dark" (Some (IStr "Dark")) ];
         DEnum (Mods false false) "Distances"
             [ EnumMember "Adaptive" (Some (IStr "Adaptive"));
               EnumMember "Metric" (Some (IStr "Metric"));
               EnumMember "Imperial" (Some (IStr "Imperial")) ]
        ];
    DInterface (Mods false false) "MapShowItemsOptions" []
        [ field_opt "animate" TBoolean;
          field_opt "minimumSpan" (ref "CoordinateSpan");
          field "padding" (ref "Padding") ];
    DClass (Mods false false) false "MapPoint" [] None []
        [ ctor [req "x" TNumber; req "y" TNumber];
          field "x" TNumber;
          field "y" TNumber;
          field "copy" (ref "MapPoint");
          method "equals" [req "other" (ref "MapPoint")] TBoolean;
          method "toCoordinate" [] (ref "Coordinate") ];
    DClass (Mods false false) false "MapSize" [] None []
        [ ctor [req "width" TNumber; req "height" TNumber];
          field "width" TNumber;
          field "height" TNumber ];
    DClass (Mods false false) false "MapRect" [] None []
        [ ctor [req "x" TNumber; req "y" TNumber; req "width" TNumber; req "height" TNumber];
          field "origin" (ref "MapPoint");
          field "size" (ref "MapSize");
          field "maxX" TNumber;
          field "maxY" TNumber;
          field "midX" TNumber;
          field "midY" TNumber;
          field "minX" TNumber;
          field "minY" TNumber;
          method "copy" [] (ref "MapRect");
          method "equals" [req "other" (ref "MapRect")] TBoolean;
          method_noret "scale" [req "scaleFactor" TNumber; req "scaleCenter" (ref "MapPoint")];
          method "toCoordinateRegion" [] (ref "CoordinateRegion") ];
    DClass (Mods false false) false "CoordinateRegion" [] None []
        [ ctor [req "center" (ref "Coordinate"); req "span" (ref "CoordinateSpan")];
          field "center" (ref "Coordinate");
          field "span" (ref "CoordinateSpan");
          method "copy" [] (ref "CoordinateRegion");
          method "equals" [req "other" (ref "CoordinateRegion")] TBoolean;
          method "toBoundingRegion" [] (ref "BoundingRegion");
          method "toMapRect" [] (ref "MapRect") ];
    DClass (Mods false false) false "CoordinateSpan" [] None []
        [ ctor [req "latitudeDelta" TNumber; req "longitudeDelta" TNumber];
          field "latitudeDelta" TNumber;
          field "longitudeDelta" TNumber;
          method "copy" [] (ref "CoordinateSpan");
          method "equals" [req "other" (ref "CoordinateSpan")] TBoolean ];
    DClass (Mods false false) false "BoundingRegion" [] None []
        [ ctor [req "northLatitude" TNumber; req "eastLongitude" TNumber; req "southLatitude" TNumber; req "westLongitude" TNumber];
          field "northLatitude" TNumber;
          field "eastLongitude" TNumber;
          field "southLatitude" TNumber;
          field "westLongitude" TNumber;
          method "copy" [] (ref "BoundingRegion");
          method "toCoordinateRegion" [] (ref "CoordinateRegion") ];
    DInterface (Mods false false) "PaddingConstructorOptions" []
        [ field "bottom" TNumber;
          field "left" TNumber;
          field "right" TNumber;
          field "top" TNumber ];
    DClass (Mods false false) false "Padding" [] None []
        [ ctor [opt "options" (TUnion [ref "PaddingConstructorOptions"; TArray TNumber])];
          field "bottom" TNumber;
          field "left" TNumber;
          field "right" TNumber;
          field "top" TNumber ];
    DInterface (Mods false false) "AnnotationConstructorOptions" []
        [ field_opt "data" TAny;
          field_opt "title" TString;
          field_opt "subtitle" TString;
          field_opt "anchorOffset" (ref "DOMPoint");
          field_opt "appearanceAnimation" TString;
          field_opt "displayPriority" TNumber;
          field_opt "size" (TLit [req "height" TNumber; req "width" TNumber]);
          field_opt "visible" TBoolean;
          field_opt "animates" TBoolean;
          field_opt "draggable" TBoolean;
          field_opt "enabled" TBoolean;
          field_opt "selected" TBoolean;
          field_opt "callout" (ref "AnnotationCalloutDelegate");
          field_opt "calloutEnabled" TBoolean;
          field_opt "calloutOffset" (ref "DOMPoint");
          field_opt "clusteringIdentifier" TString;
          field_opt "collisionMode" (ref "Annotation.CollisionMode");
          field_opt "accessibilityLabel" TString ];
    DClass (Mods false false) false "Annotation" [] None []
        [ ctor [req "coordinate" (ref "Coordinate"); req "factory" (ref "Function"); opt "options" (ref "AnnotationConstructorOptions")];
          method_noret "addEventListener" [req "type" TString; req "listener" (TFun [untyped "Annotation"] TVoid); opt "thisObject" TAny];
          method_noret "removeEventListener" [req "type" TString; req "listener" (TFun [untyped "Annotation"] TVoid); opt "thisObject" TAny];
          field "coordinate" (ref "Coordinate");
          field "data" TAny;
          field "title" TString;
          field "subtitle" TString;
          field "anchorOffset" (ref "DOMPoint");
          field "appearanceAnimation" TString;
          field "displayPriority" TNumber;
          field "size" (TLit [req "height" TNumber; req "width" TNumber]);
          field "visible" TBoolean;
          field "animates" TBoolean;
          field "draggable" TBoolean;
          field "selected" TBoolean;
          field "enabled" TBoolean;
          field "map" (ref "Map");
          field "element" (ref "Element");
          field "callout" (ref "AnnotationCalloutDelegate");
          field "calloutEnabled" TBoolean;
          field "calloutOffset" (ref "DOMPoint");
          field "memberAnnotations" (TArray (ref "Annotation"));
          field "clusteringIdentifier" TString;
          field "collisionMode" (ref "Annotation.CollisionMode");
          field "accessibilityLabel" TString ];
    DNamespace (Mods false true) "Annotation"
        [
         DEnum (Mods false false) "DisplayPriority"
             [ EnumMember "Low" (Some (INum 250));
               EnumMember "High" (Some (INum 750));
               EnumMember "Required" (Some (INum 1000)) ];
         DEnum (Mods false false) "CollisionMode"
             [ EnumMember "Circle" (Some (IStr "Circle"));
               EnumMember "Rectangle" (Some (IStr "Rectangle")) ]
        ];
    DInterface (Mods false false) "_DisplayAsset" []
        [ field "1" TString;
          field_opt "2" TString;
          field_opt "3" TString ];
    DClass (Mods false false) false "MarkerAnnotation" [] (Some (ref "Annotation")) []
        [ ctor [req "coordinate" (ref "Coordinate"); opt "options" (ref "MarkerAnnotationConstructorOptions")];
          field "color" TString;
          field "glyphColor" TString;
          field "glyphImage" (ref "_DisplayAsset");
          field "glyphText" TString;
          field "selectedGlyphImage" (ref "_DisplayAsset");
          field "subtitleVisibility" (ref "FeatureVisibility");
          field "titleVisibility" (ref "FeatureVisibility") ];
    DInterface (Mods false false) "MarkerAnnotationConstructorOptions" [ref "AnnotationConstructorOptions"]
        [ field_opt "color" TString;
          field_opt "glyphColor" TString;
          field_opt "glyphImage" (ref "_DisplayAsset");
          field_opt "glyphText" TString;
          field_opt "selectedGlyphImage" (ref "_DisplayAsset");
          field_opt "subtitleVisibility" (ref "FeatureVisibility");
          field_opt "titleVisibility" (ref "FeatureVisibility") ];
    DClass (Mods false false) false "ImageAnnotation" [] (Some (ref "Annotation")) []
        [ ctor [req "coordinate" (ref "Coordinate"); opt "options" (ref "ImageAnnotationConstructorOptions")];
          field "url" (ref "_DisplayAsset") ];
    DInterface (Mods false false) "ImageAnnotationConstructorOptions" [ref "AnnotationConstructorOptions"]
        [ field "url" (ref "_DisplayAsset") ];
    DEnum (Mods false false) "FeatureVisibility"
        [ EnumMember "Adaptive" (Some (IStr "Adaptive"));
          EnumMember "Hidden" (Some (IStr "Hidden"));
          EnumMember "Visible" (Some (IStr "Visible")) ];
    DInterface (Mods false false) "AnnotationCalloutDelegate" [] [];
    DClass (Mods false false) false "Overlay" [] None [] [];
    DClass (Mods false false) false "CircleOverlay" [] (Some (ref "Overlay")) [] [];
    DClass (Mods false false) false "PolylineOverlay" [] (Some (ref "Overlay")) [] [];
    DClass (Mods false false) false "PolygonOverlay" [] (Some (ref "Overlay")) [] [];
    DClass (Mods false false) false "TileOverlay" [] None [] [];
    DInterface (Mods false false) "GeocoderConstructorOptions" []
        [ field_opt "getsUserLocation" TBoolean;
          field_opt "language" TString ];
    DInterface (Mods false false) "GeocodeResponse" []
        [ field "results" (TArray (ref "Place")) ];
    DInterface (Mods false false) "GeocoderLookupOptions" []
        [ field_opt "coordinate" (ref "Coordinate");
          field_opt "language" TString;
          field_opt "limitToCountries" TString;
          field_opt "region" (ref "CoordinateRegion") ];
    DInterface (Mods false false) "GeocoderReverseLookupOptions" []
        [ field_opt "language" TString ];
    DInterface (Mods false false) "Place" []
        [ field "name" TString;
          field "formattedAddress" TString;
          field_untyped "countryCode";
          field "coordinate" (ref "Coordinate");
          field "region" (ref "CoordinateRegion") ];
    DClass (Mods false false) false "Geocoder" [] None []
        [ ctor [opt "options" (ref "GeocoderConstructorOptions")];
          field "getsUserLocation" TBoolean;
          field "language" TString;
          method "lookup" [req "place" TString; req "callback" (TFun [untyped "error"; req "data" (ref "GeocodeResponse")] TVoid); opt "options" (ref "GeocoderLookupOptions")] TNumber;
          method_noret "reverseLookup" [req "coordinate" (ref "Coordinate"); req "callback" (TFun [untyped "error"; req "data" (ref "GeocodeResponse")] TVoid); opt "options" (ref "GeocoderReverseLookupOptions")];
          method_noret "cancel" [req "id" TNumber] ];
    DInterface (Mods false false) "SearchConstructorOptions" []
        [ field_opt "coordinate" (ref "Coordinate");
          field_opt "getsUserLocation" TBoolean;
          field_opt "language" TString;
          field_opt "region" (ref "CoordinateRegion") ];
    DInterface (Mods false false) "SearchResponse" []
        [ field "places" (TArray (ref "Place"));
          field_opt "query" TString;
          field_opt "boundingRegion" (ref "CoordinateRegion") ];
    DInterface (Mods false false) "SearchOptions" []
        [ field_opt "coordinate" (ref "Coordinate");
          field_opt "language" TString;
          field_opt "region" (ref "CoordinateRegion") ];
    DInterface (Mods false false) "SearchAutocompleteResult" []
        [ field_opt "coordinate" (ref "Coordinate");
          field "displayLines" (TArray TString) ];
    DInterface (Mods false false) "SearchAutocompleteResponse" []
        [ field "query" TString;
          field "results" (TArray (ref "SearchAutocompleteResult")) ];
    DInterface (Mods false false) "SearchDelegate" []
        [ MMethod "autocompleteDidComplete" true (Sig [] [req "data" (ref "SearchAutocompleteResponse")] None None);
          MMethod "autocompleteDidError" true (Sig [] [req "error" (ref "Error")] None None);
          MMethod "searchDidComplete" true (Sig [] [req "data" (ref "SearchResponse")] None None);
          MMethod "searchDidError" true (Sig [] [req "error" (ref "Error")] None None) ];
    DClass (Mods false false) false "Search" [] None []
        [ ctor [opt "options" (ref "SearchConstructorOptions")];
          method_noret "search" [req "query" (TUnion [TString; ref "SearchAutocompleteResult"]); req "callback" (TUnion [ref "SearchDelegate"; TFun [untyped "error"; req "data" (ref "SearchResponse")] TVoid]); opt "options" (ref "SearchOptions")];
          method_noret "autocomplete" [req "query" TString; req "callback" (TUnion [ref "SearchDelegate"; TFun [untyped "error"; req "data" (ref "SearchAutocompleteResponse")] TVoid]); opt "options" (ref "SearchOptions")] ];
    DClass (Mods true false) false "DOMPoint" [] None []
        [ ctor [req "x" TNumber; req "y" TNumber];
          field "w" TNumber;
          field "x" TNumber;
          field "y" TNumber;
          field "z" TNumber ]
  ].

(** [part_000] is [src/unnamed/part_000]. *)

Definition part_000 : list decl :=
  [
    DExportAsNamespace "mapkit";
    DInterface (Mods false true) "MapKitError" []
        [ field "code" TNumber;
          field "message" TString ];
    DInterface (Mods false false) "SelectEventTypes" []
        [ field "select" (TUnion [ref "AnnotationEvent"; ref "OverlayEvent"]);
          field "deselect" (TUnion [ref "AnnotationEvent"; ref "OverlayEvent"]) ];
    DClass (Mods false true) false "MapKitEvented" [TParam "T" None] None []
        [ MMethod "addEventListener" false (Sig [TParam "K" (Some (TKeyof (ref "T")))] [req "type" (ref "K"); req "listener" (TFun [req "event" (TIndex (ref "T") (ref "K"))] TVoid); opt "thisObject" TAny] (Some TVoid) None);
          MMethod "removeEventListener" false (Sig [TParam "K" (Some (TKeyof (ref "T")))] [req "type" (ref "K"); req "listener" (TFun [req "event" (TIndex (ref "T") (ref "K"))] TVoid); opt "thisObject" TAny] (Some TVoid) None) ];
    DFunction (Mods true false) "init"
      (Sig [] [req "options" (ref "MapKitInitOptions")] (Some TVoid) None);
    DEnum (Mods false true) "MapKitInitSuccessStatus"
        [ EnumMember "initialized" (Some (IStr "Initialized"));
          EnumMember "refreshed" (Some (IStr "Refreshed")) ];
    DEnum (Mods false true) "MapKitInitFailureStatus"
        [ EnumMember "unauthorized" (Some (IStr "Unauthorized"));
          EnumMember "tooManyRequests" (Some (IStr "Too Many Requests")) ];
    DClass (Mods false true) false "MapKitInitSuccessEvent" [] (Some (ref "Event")) []
        [ field "status" (ref "MapKitInitSuccessStatus") ];
    DClass (Mods false true) false "MapKitInitFailureEvent" [] (Some (ref "Event")) []
        [ field "status" (ref "MapKitInitFailureStatus") ];
    DInterface (Mods false false) "MapKitEventTypes" []
        [ field "configuration-change" (ref "MapKitInitSuccessEvent");
          field "error" (ref "MapKitInitFailureEvent") ];
    DFunction (Mods true false) "addEventListener"
      (Sig [TParam "K" (Some (TKeyof (ref "MapKitEventTypes")))] [req "type" (ref "K"); req "listener" (TFun [req "event" (TIndex (ref "MapKitEventTypes") (ref "K"))] TVoid); opt "thisObject" TAny] (Some TVoid) None);
    DFunction (Mods true false) "removeEventListener"
      (Sig [TParam "K" (Some (TKeyof (ref "MapKitEventTypes")))] [req "type" (ref "K"); req "listener" (TFun [req "event" (TIndex (ref "MapKitEventTypes") (ref "K"))] TVoid); opt "thisObject" TAny] (Some TVoid) None);
    DVariable (Mods true false) VLet "maps" (Some (TArray (ref "Map"))) None;
    DVariable (Mods true false) VLet "language" (Some TString) None;
    DVariable (Mods true false) VConst "build" (Some TString) None;
    DInterface (Mods true false) "MapKitInitOptions" []
        [ field "authorizationCallback" (TFun [req "done" (TFun [req "jwt" TString] TVoid)] TVoid);
          field_opt "language" TString ];
    DClass (Mods true false) false "Coordinate" [] None []
        [ ctor [req "latitude" TNumber; req "longitude" TNumber];
          field "latitude" TNumber;
          field "longitude" TNumber;
          method "copy" [] (ref "Coordinate");
          method "equals" [req "other" (ref "Coordinate")] TBoolean;
          method "toMapPoint" [] (ref "MapPoint");
          method "toUnwrappedMapPoint" [] (ref "MapPoint") ];
    DInterface (Mods true false) "MapConstructorOptions" []
        [ field_opt "visibleMapRect" (ref "MapRect");
          field_opt "region" (ref "CoordinateRegion");
          field_opt "center" (ref "Coordinate");
          field_opt "rotation" TNumber;
          field_opt "tintColor" TString;
          field_opt "colorScheme" (ref "Map.ColorSchemes");
          field_opt "mapType" (ref "Map.MapTypes");
          field_opt "padding" (ref "Padding");
          field_opt "showsMapTypeControl" TBoolean;
          field_opt "isRotationEnabled" TBoolean;
          field_opt "showsCompass" (ref "FeatureVisibility");
          field_opt "isZoomEnabled" TBoolean;
          field_opt "showsZoomControl" TBoolean;
          field_opt "isScrollEnabled" TBoolean;
          field_opt "showsScale" (ref "FeatureVisibility");
          field_opt "annotationForCluster" (TFun [req "clusterAnnotation" (ref "Annotation")] (TUnion [TVoid; ref "Annotation"]));
          field_opt "annotations" (TArray (ref "Annotation"));
          field_opt "selectedAnnotation" (ref "Annotation");
          field_opt "overlays" (TArray (ref "Overlay"));
          field_opt "selectedOverlay" (ref "Overlay");
          field_opt "showsPointsOfInterest" TBoolean;
          field_opt "showsUserLocation" TBoolean;
          field_opt "tracksUserLocation" TBoolean;
          field_opt "showsUserLocationControl" TBoolean ];
    DClass (Mods false true) false "MapEvent" [] (Some (ref "Event")) [] [];
    DClass (Mods false true) false "OverlayEvent" [] (Some (ref "Event")) []
        [ field "overlay" (ref "Overlay") ];
    DClass (Mods false true) false "UserLocationChangeEvent" [] (Some (ref "Event")) []
        [ field "coordinate" (ref "Coordinate");
          field "timestamp" (ref "Date") ];
    DEnum (Mods false true) "LocationError"
        [ EnumMember "PERMISSION_DENIED" (Some (INum 1));
          EnumMember "POSITION_UNAVAILABLE" (Some (INum 2));
          EnumMember "TIMEOUT" (Some (INum 3));
          EnumMember "MAPKIT_NOT_INITIALIZED" (Some (INum 4)) ];
    DClass (Mods false true) false "UserLocationErrorEvent" [] None [ref "MapKitError"]
        [ field "code" (ref "LocationError");
          field "message" TString ];
    DInterface (Mods false false) "MapEventTypes" [ref "SelectEventTypes"; ref "AnnotationEventWithoutSelectTypes"; ref "OverlayEventWithoutSelectTypes"]
        [ field "region-change-start" (ref "MapEvent");
          field "region-change-end" (ref "MapEvent");
          field "scroll-start" (ref "MapEvent");
          field "scroll-end" (ref "MapEvent");
          field "zoom-start" (ref "MapEvent");
          field "zoom-end" (ref "MapEvent");
          field "map-type-change" (ref "MapEvent");
          field "user-location-change" (ref "UserLocationChangeEvent");
          field "user-location-error" (ref "UserLocationErrorEvent") ];
    DClass (Mods true false) false "Map" [] (Some (TRef "MapKitEvented" [ref "MapEventTypes"])) []
        [ ctor [opt "parent" (TUnion [TString; ref "HTMLElement"]); opt "options" (ref "MapConstructorOptions")];
          field "isRotationAvailable" TBoolean;
          field "isRotationEnabled" TBoolean;
          field "isScrollEnabled" TBoolean;
          field "isZoomEnabled" TBoolean;
          field "center" (ref "Coordinate");
          method "setCenterAnimated" [req "coordinate" (ref "Coordinate"); opt "animate" TBoolean] (ref "Map");
          field "region" (ref "CoordinateRegion");
          method "setRegionAnimated" [req "egion" (ref "CoordinateRegion"); opt "animate" TBoolean] (ref "Map");
          field "rotation" TNumber;
          method "setRotationAnimated" [req "degrees" TNumber; opt "animate" TBoolean] (ref "Map");
          field "visibleMapRect" (ref "MapRect");
          method "setVisibleMapRectAnimated" [req "mapRect" (ref "MapRect"); opt "animate" TBoolean] (ref "Map");
          field "colorScheme" (ref "Map.ColorSchemes");
          field "distances" (ref "Map.Distances");
          field "mapType" (ref "Map.MapTypes");
          field "padding" (ref "Padding");
          field "showsCompass" (ref "FeatureVisibility");
          field "showsMapTypeControl" TBoolean;
          field "showsZoomControl" TBoolean;
          field "showsUserLocationControl" TBoolean;
          field "showsPointsOfInterest" TBoolean;
          field "showsScale" (ref "FeatureVisibility");
          field "tintColor" TString;
          method "showItems" [req "items" (TArray (TUnion [ref "Annotation"; ref "Overlay"])); opt "options" (ref "MapShowItemsOptions")] (TArray (TUnion [ref "Annotation"; ref "Overlay"]));
          field_opt "annotationForCluster" (TFun [req "clusterAnnotation" (ref "Annotation")] (TUnion [TVoid; ref "Annotation"]));
          field_opt "annotations" (TArray (ref "Annotation"));
          field "selectedAnnotation" (TUnion [ref "Annotation"; TNull]);
          method "annotationsInMapRect" [req "mapRect" (ref "MapRect")] (TArray (ref "Annotation"));
          method "addAnnotation" [req "annotation" (ref "Annotation")] (ref "Annotation");
          method "addAnnotations" [req "annotations" (TArray (ref "Annotation"))] (TArray (ref "Annotation"));
          method "removeAnnotation" [req "annotation" (ref "Annotation")] (ref "Annotation");
          method "removeAnnotations" [req "annotations" (TArray (ref "Annotation"))] (TArray (ref "Annotation"));
          field "overlays" (TArray (ref "Overlay"));
          field "selectedOverlay" (TUnion [ref "Overlay"; TNull]);
          method "overlaysAtPoint" [req "point" (ref "DOMPoint")] (TArray (ref "Overlay"));
          method "addOverlay" [req "overlay" (ref "Overlay")] (ref "Overlay");
          method "addOverlays" [req "overlays" (TArray (ref "Overlay"))] (TArray (ref "Overlay"));
          method "removeOverlay" [req "overlay" (ref "Overlay")] (ref "Overlay");
          method "removeOverlays" [req "overlays" (TArray (ref "Overlay"))] (TArray (ref "Overlay"));
          method "topOverlayAtPoint" [req "point" (ref "DOMPoint")] (ref "Overlay");
          field "tileOverlays" (TArray (ref "TileOverlay"));
          method "addTileOverlay" [req "overlay" (ref "TileOverlay")] (ref "TileOverlay");
          method "addTileOverlays" [req "overlays" (TArray (ref "TileOverlay"))] (TArray (ref "TileOverlay"));
          method "removeTileOverlay" [req "overlay" (ref "TileOverlay")] (ref "TileOverlay");
          method "removeTileOverlays" [req "overlays" (TArray (ref "TileOverlay"))] (TArray (ref "TileOverlay"));
          field "showsUserLocation" TBoolean;
          field "tracksUserLocation" TBoolean;
          field "userLocationAnnotation" (TUnion [ref "Annotation"; TNull]);
          method "convertCoordinateToPointOnPage" [req "coordinate" (ref "Coordinate")] (ref "DOMPoint");
          method "convertPointOnPageToCoordinate" [req "point" (ref "DOMPoint")] (ref "Coordinate");
          method "destroy" [] TVoid;
          field "element" (ref "HTMLElement") ];
    DNamespace (Mods true false) "Map"
        [
         DEnum (Mods true false) "MapTypes"
             [ EnumMember "Hybrid" (Some (IStr "Hybrid"));
               EnumMember "Satellite" (Some (IStr "Satellite"));
               EnumMember "Standard" (Some (IStr "Standard"));
               EnumMember "MutedStandard" (Some (IStr "MutedStandard")) ];
         DEnum (Mods true false) "ColorSchemes"
             [ EnumMember "Light" (Some (IStr "Light"));
               EnumMember "Dark" (Some (IStr "Dark")) ];
         DEnum (Mods true false) "Distances"
             [ EnumMember "Adaptive" (Some (IStr "Adaptive"));
               EnumMember "Metric" (Some (IStr "Metric"));
               EnumMember "Imperial" (Some (IStr "Imperial")) ]
        ];
    DInterface (Mods true false) "MapShowItemsOptions" []
        [ field_opt "animate" TBoolean;
          field_opt "minimumSpan" (ref "CoordinateSpan");
          field "padding" (ref "Padding") ];
    DClass (Mods true false) false "MapPoint" [] None []
        [ ctor [req "x" TNumber; req "y" TNumber];
          field "x" TNumber;
          field "y" TNumber;
          method "copy" [] (ref "MapPoint");
          method "equals" [req "other" (ref "MapPoint")] TBoolean;
          method "toCoordinate" [] (ref "Coordinate") ];
    DClass (Mods true false) false "MapSize" [] None []
        [ ctor [req "width" TNumber; req "height" TNumber];
          field "width" TNumber;
          field "height" TNumber;
          field "copy" (ref "MapSize");
          method "equals" [req "anotherSize" (ref "MapSize")] TBoolean ];
    DClass (Mods true false) false "MapRect" [] None []
        [ ctor [req "x" TNumber; req "y" TNumber; req "width" TNumber; req "height" TNumber];
          field "origin" (ref "MapPoint");
          field "size" (ref "MapSize");
          field "maxX" TNumber;
          field "maxY" TNumber;
          field "midX" TNumber;
          field "midY" TNumber;
          field "minX" TNumber;
          field "minY" TNumber;
          method "copy" [] (ref "MapRect");
          method "equals" [req "other" (ref "MapRect")] TBoolean;
          method "scale" [req "scaleFactor" TNumber; req "scaleCenter" (ref "MapPoint")] (ref "MapRect");
          method "toCoordinateRegion" [] (ref "CoordinateRegion") ];
    DClass (Mods true false) false "CoordinateRegion" [] None []
        [ ctor [req "center" (ref "Coordinate"); req "span" (ref "CoordinateSpan")];
          field "center" (ref "Coordinate");
          field "span" (ref "CoordinateSpan");
          method "copy" [] (ref "CoordinateRegion");
          method "equals" [req "other" (ref "CoordinateRegion")] TBoolean;
          method "toBoundingRegion" [] (ref "BoundingRegion");
          method "toMapRect" [] (ref "MapRect") ];
    DClass (Mods true false) false "CoordinateSpan" [] None []
        [ ctor [req "latitudeDelta" TNumber; req "longitudeDelta" TNumber];
          field "latitudeDelta" TNumber;
          field "longitudeDelta" TNumber;
          method "copy" [] (ref "CoordinateSpan");
          method "equals" [req "other" (ref "CoordinateSpan")] TBoolean ];
    DClass (Mods true false) false "BoundingRegion" [] None []
        [ ctor [req "northLatitude" TNumber; req "eastLongitude" TNumber; req "southLatitude" TNumber; req "westLongitude" TNumber];
          field "northLatitude" TNumber;
          field "eastLongitude" TNumber;
          field "southLatitude" TNumber;
          field "westLongitude" TNumber;
          method "copy" [] (ref "BoundingRegion");
          method "toCoordinateRegion" [] (ref "CoordinateRegion") ];
    DInterface (Mods true false) "PaddingConstructorOptions" []
        [ field "bottom" TNumber;
          field "left" TNumber;
          field "right" TNumber;
          field "top" TNumber ];
    DClass (Mods true false) false "Padding" [] None []
        [ ctor [opt "options" (TUnion [ref "PaddingConstructorOptions"; TArray TNumber])];
          field "bottom" TNumber;
          field "left" TNumber;
          field "right" TNumber;
          field "top" TNumber ];
    DInterface (Mods true false) "AnnotationConstructorOptions" []
        [ field_opt "data" TAny;
          field_opt "title" TString;
          field_opt "subtitle" TString;
          field_opt "anchorOffset" (ref "DOMPoint");
          field_opt "appearanceAnimation" TString;
          field_opt "displayPriority" TNumber;
          field_opt "size" (TLit [req "height" TNumber; req "width" TNumber]);
          field_opt "visible" TBoolean;
          field_opt "animates" TBoolean;
          field_opt "draggable" TBoolean;
          field_opt "enabled" TBoolean;
          field_opt "selected" TBoolean;
          field_opt "callout" (ref "AnnotationCalloutDelegate");
          field_opt "calloutEnabled" TBoolean;
          field_opt "calloutOffset" (ref "DOMPoint");
          field_opt "clusteringIdentifier" TString;
          field_opt "collisionMode" (ref "Annotation.CollisionMode");
          field_opt "accessibilityLabel" TString ];
    DClass (Mods false true) false "AnnotationEvent" [] (Some (ref "Event")) []
        [ field "annotation" (ref "Annotation") ];
    DInterface (Mods false false) "AnnotationEventWithoutSelectTypes" []
        [ field "drag-start" (ref "AnnotationEvent");
          field "dragging" (ref "AnnotationEvent");
          field "drag-end" (ref "AnnotationEvent") ];
    DInterface (Mods false false) "AnnotationEventTypes" [ref "SelectEventTypes"; ref "AnnotationEventWithoutSelectTypes"]
        [ field "select" (ref "AnnotationEvent");
          field "deselect" (ref "AnnotationEvent") ];
    DClass (Mods true false) false "Annotation" [] (Some (TRef "MapKitEvented" [ref "AnnotationEventTypes"])) []
        [ ctor [req "coordinate" (ref "Coordinate"); req "factory" (ref "Function"); opt "options" (ref "AnnotationConstructorOptions")];
          field "coordinate" (ref "Coordinate");
          field "data" TAny;
          field "title" TString;
          field "subtitle" TString;
          field "anchorOffset" (ref "DOMPoint");
          field "appearanceAnimation" TString;
          field "displayPriority" TNumber;
          field "size" (TLit [req "height" TNumber; req "width" TNumber]);
          field "visible" TBoolean;
          field "animates" TBoolean;
          field "draggable" TBoolean;
          field "selected" TBoolean;
          field "enabled" TBoolean;
          field "map" (ref "Map");
          field "element" (ref "HTMLElement");
          field "callout" (ref "AnnotationCalloutDelegate");
          field "calloutEnabled" TBoolean;
          field "calloutOffset" (ref "DOMPoint");
          field "memberAnnotations" (TArray (ref "Annotation"));
          field "clusteringIdentifier" TString;
          field "collisionMode" (ref "Annotation.CollisionMode");
          field "accessibilityLabel" TString ];
    DNamespace (Mods true false) "Annotation"
        [
         DEnum (Mods true false) "DisplayPriority"
             [ EnumMember "Low" (Some (INum 250));
               EnumMember "High" (Some (INum 750));
               EnumMember "Required" (Some (INum 1000)) ];
         DEnum (Mods true false) "CollisionMode"
             [ EnumMember "Circle" (Some (IStr "Circle"));
               EnumMember "Rectangle" (Some (IStr "Rectangle")) ]
        ];
    DInterface (Mods false false) "_DisplayAsset" []
        [ field "1" TString;
          field_opt "2" TString;
          field_opt "3" TString ];
    DClass (Mods true false) false "MarkerAnnotation" [] (Some (ref "Annotation")) []
        [ ctor [req "coordinate" (ref "Coordinate"); opt "options" (ref "MarkerAnnotationConstructorOptions")];
          field "color" TString;
          field "glyphColor" TString;
          field "glyphImage" (ref "_DisplayAsset");
          field "glyphText" TString;
          field "selectedGlyphImage" (ref "_DisplayAsset");
          field "subtitleVisibility" (ref "FeatureVisibility");
          field "titleVisibility" (ref "FeatureVisibility") ];
    DInterface (Mods true false) "MarkerAnnotationConstructorOptions" [ref "AnnotationConstructorOptions"]
        [ field_opt "color" TString;
          field_opt "glyphColor" TString;
          field_opt "glyphImage" (ref "_DisplayAsset");
          field_opt "glyphText" TString;
          field_opt "selectedGlyphImage" (ref "_DisplayAsset");
          field_opt "subtitleVisibility" (ref "FeatureVisibility");
          field_opt "titleVisibility" (ref "FeatureVisibility") ];
    DClass (Mods true false) false "ImageAnnotation" [] (Some (ref "Annotation")) []
        [ ctor [req "coordinate" (ref "Coordinate"); opt "options" (ref "ImageAnnotationConstructorOptions")];
          field "url" (ref "_DisplayAsset") ];
    DInterface (Mods true false) "ImageAnnotationConstructorOptions" [ref "AnnotationConstructorOptions"]
        [ field "url" (ref "_DisplayAsset") ];
    DEnum (Mods true false) "FeatureVisibility"
        [ EnumMember "Adaptive" (Some (IStr "Adaptive"));
          EnumMember "Hidden" (Some (IStr "Hidden"));
          EnumMember "Visible" (Some (IStr "Visible")) ];
    DInterface (Mods true false) "AnnotationCalloutDelegate" [] [];
    DInterface (Mods false false) "OverlayEventWithoutSelectTypes" [] [];
    DInterface (Mods false false) "OverlayEventTypes" [ref "SelectEventTypes"; ref "OverlayEventWithoutSelectTypes"]
        [ field "select" (ref "OverlayEvent");
          field "deselect" (ref "OverlayEvent") ];
    DClass (Mods true false) false "Overlay" [] None [] [];
    DClass (Mods true false) false "CircleOverlay" [] (Some (ref "Overlay")) [] [];
    DClass (Mods true false) false "PolylineOverlay" [] (Some (ref "Overlay")) [] [];
    DClass (Mods true false) false "PolygonOverlay" [] (Some (ref "Overlay")) [] [];
    DClass (Mods true false) false "TileOverlay" [] None [] [];
    DInterface (Mods true false) "GeocoderConstructorOptions" []
        [ field_opt "getsUserLocation" TBoolean;
          field_opt "language" TString ];
    DInterface (Mods true false) "GeocodeResponse" []
        [ field "results" (TArray (ref "Place")) ];
    DInterface (Mods true false) "GeocoderLookupOptions" []
        [ field_opt "coordinate" (ref "Coordinate");
          field_opt "language" TString;
          field_opt "limitToCountries" TString;
          field_opt "region" (ref "CoordinateRegion") ];
    DInterface (Mods true false) "GeocoderReverseLookupOptions" []
        [ field_opt "language" TString ];
    DInterface (Mods true false) "Place" []
        [ field "name" TString;
          field "formattedAddress" TString;
          field "countryCode" TString;
          field "coordinate" (ref "Coordinate");
          field "region" (ref "CoordinateRegion") ];
    DClass (Mods true false) false "Geocoder" [] None []
        [ ctor [opt "options" (ref "GeocoderConstructorOptions")];
          field "getsUserLocation" TBoolean;
          field "language" TString;
          method "lookup" [req "place" TString; req "callback" (TFun [req "error" (ref "MapKitError"); req "data" (ref "GeocodeResponse")] TVoid); opt "options" (ref "GeocoderLookupOptions")] TNumber;
          method "reverseLookup" [req "coordinate" (ref "Coordinate"); req "callback" (TFun [req "error" (ref "MapKitError"); req "data" (ref "GeocodeResponse")] TVoid); opt "options" (ref "GeocoderReverseLookupOptions")] TNumber;
          method "cancel" [req "id" TNumber] TBoolean ];
    DInterface (Mods true false) "SearchConstructorOptions" []
        [ field_opt "coordinate" (ref "Coordinate");
          field_opt "getsUserLocation" TBoolean;
          field_opt "language" TString;
          field_opt "region" (ref "CoordinateRegion") ];
    DInterface (Mods true false) "SearchResponse" []
        [ field "places" (TArray (ref "Place"));
          field "query" TString;
          field_opt "boundingRegion" (ref "CoordinateRegion") ];
    DInterface (Mods true false) "SearchOptions" []
        [ field_opt "coordinate" (ref "Coordinate");
          field_opt "language" TString;
          field_opt "region" (ref "CoordinateRegion") ];
    DInterface (Mods true false) "SearchAutocompleteResult" []
        [ field_opt "coordinate" (ref "Coordinate");
          field "displayLines" (TArray TString) ];
    DInterface (Mods true false) "SearchAutocompleteResponse" []
        [ field "query" TString;
          field "results" (TArray (ref "SearchAutocompleteResult")) ];
    DInterface (Mods true false) "SearchDelegate" []
        [ MMethod "autocompleteDidComplete" true (Sig [] [req "data" (ref "SearchAutocompleteResponse")] (Some TVoid) None);
          MMethod "autocompleteDidError" true (Sig [] [req "error" (ref "MapKitError")] (Some TVoid) None);
          MMethod "searchDidComplete" true (Sig [] [req "data" (ref "SearchResponse")] (Some TVoid) None);
          MMethod "searchDidError" true (Sig [] [req "error" (ref "MapKitError")] (Some TVoid) None) ];
    DClass (Mods true false) false "Search" [] None []
        [ ctor [opt "options" (ref "SearchConstructorOptions")];
          method "search" [req "query" (TUnion [TString; ref "SearchAutocompleteResult"]); req "callback" (TUnion [ref "SearchDelegate"; TFun [req "error" (ref "MapKitError"); req "data" (ref "SearchResponse")] TVoid]); opt "options" (ref "SearchOptions")] TNumber;
          method "autocomplete" [req "query" TString; req "callback" (TUnion [ref "SearchDelegate"; TFun [req "error" (ref "MapKitError"); req "data" (ref "SearchAutocompleteResponse")] TVoid]); opt "options" (ref "SearchOptions")] TNumber ];
    DClass (Mods true false) false "DOMPoint" [] None []
        [ ctor [req "x" TNumber; req "y" TNumber];
          field "w" TNumber;
          field "x" TNumber;
          field "y" TNumber;
          field "z" TNumber ]
  ].

(** [part_001] is [src/unnamed/part_001]. *)

Definition part_001 : list decl :=
  [
    DExportAsNamespace "mapkit";
    DInterface (Mods false true) "MapKitError" []
        [ field "code" TNumber;
          field "message" TString ];
    DInterface (Mods false true) "SelectEventTypes" []
        [ field "select" (TUnion [ref "AnnotationEvent"; ref "OverlayEvent"]);
          field "deselect" (TUnion [ref "AnnotationEvent"; ref "OverlayEvent"]) ];
    DClass (Mods false true) false "MapKitEvented" [TParam "T" None] None []
        [ MMethod "addEventListener" false (Sig [TParam "K" (Some (TKeyof (ref "T")))] [req "type" (ref "K"); req "listener" (TFun [req "event" (TIndex (ref "T") (ref "K"))] TVoid); opt "thisObject" TAny] (Some TVoid) None);
          MMethod "removeEventListener" false (Sig [TParam "K" (Some (TKeyof (ref "T")))] [req "type" (ref "K"); req "listener" (TFun [req "event" (TIndex (ref "T") (ref "K"))] TVoid); opt "thisObject" TAny] (Some TVoid) None) ];
    DFunction (Mods true false) "init"
      (Sig [] [req "options" (ref "MapKitInitOptions")] (Some TVoid) None);
    DEnum (Mods false true) "MapKitInitSuccessStatus"
        [ EnumMember "initialized" (Some (IStr "Initialized"));
          EnumMember "refreshed" (Some (IStr "Refreshed")) ];
    DEnum (Mods false true) "MapKitInitFailureStatus"
        [ EnumMember "unauthorized" (Some (IStr "Unauthorized"));
          EnumMember "tooManyRequests" (Some (IStr "Too Many Requests")) ];
    DClass (Mods false true) false "MapKitInitSuccessEvent" [] (Some (ref "Event")) []
        [ field "status" (ref "MapKitInitSuccessStatus") ];
    DClass (Mods false true) false "MapKitInitFailureEvent" [] (Some (ref "Event")) []
        [ field "status" (ref "MapKitInitFailureStatus") ];
    DInterface (Mods false false) "MapKitEventTypes" []
        [ field "configuration-change" (ref "MapKitInitSuccessEvent");
          field "error" (ref "MapKitInitFailureEvent") ];
    DFunction (Mods true false) "addEventListener"
      (Sig [TParam "K" (Some (TKeyof (ref "MapKitEventTypes")))] [req "type" (ref "K"); req "listener" (TFun [req "event" (TIndex (ref "MapKitEventTypes") (ref "K"))] TVoid); opt "thisObject" TAny] (Some TVoid) None);
    DFunction (Mods true false) "removeEventListener"
      (Sig [TParam "K" (Some (TKeyof (ref "MapKitEventTypes")))] [req "type" (ref "K"); req "listener" (TFun [req "event" (TIndex (ref "MapKitEventTypes") (ref "K"))] TVoid); opt "thisObject" TAny] (Some TVoid) None);
    DVariable (Mods true false) VLet "maps" (Some (TArray (ref "Map"))) None;
    DVariable (Mods true false) VLet "language" (Some TString) None;
    DVariable (Mods true false) VConst "build" (Some TString) None;
    DInterface (Mods true false) "MapKitInitOptions" []
        [ field "authorizationCallback" (TFun [req "done" (TFun [req "jwt" TString] TVoid)] TVoid);
          field_opt "language" TString ];
    DClass (Mods true false) false "Coordinate" [] None []
        [ ctor [req "latitude" TNumber; req "longitude" TNumber];
          field "latitude" TNumber;
          field "longitude" TNumber;
          method "copy" [] (ref "Coordinate");
          method "equals" [req "other" (ref "Coordinate")] TBoolean;
          method "toMapPoint" [] (ref "MapPoint");
          method "toUnwrappedMapPoint" [] (ref "MapPoint") ];
    DInterface (Mods true false) "MapConstructorOptions" []
        [ field_opt "visibleMapRect" (ref "MapRect");
          field_opt "region" (ref "CoordinateRegion");
          field_opt "center" (ref "Coordinate");
          field_opt "rotation" TNumber;
          field_opt "tintColor" TString;
          field_opt "colorScheme" (ref "Map.ColorSchemes");
          field_opt "mapType" (ref "Map.MapTypes");
          field_opt "padding" (ref "Padding");
          field_opt "showsMapTypeControl" TBoolean;
          field_opt "isRotationEnabled" TBoolean;
          field_opt "showsCompass" (ref "FeatureVisibility");
          field_opt "isZoomEnabled" TBoolean;
          field_opt "showsZoomControl" TBoolean;
          field_opt "isScrollEnabled" TBoolean;
          field_opt "showsScale" (ref "FeatureVisibility");
          field_opt "annotationForCluster" (TFun [req "clusterAnnotation" (ref "Annotation")] (TUnion [TVoid; ref "Annotation"]));
          field_opt "annotations" (TArray (ref "Annotation"));
          field_opt "selectedAnnotation" (ref "Annotation");
          field_opt "overlays" (TArray (ref "Overlay"));
          field_opt "selectedOverlay" (ref "Overlay");
          field_opt "showsPointsOfInterest" TBoolean;
          field_opt "showsUserLocation" TBoolean;
          field_opt "tracksUserLocation" TBoolean;
          field_opt "showsUserLocationControl" TBoolean ];
    DClass (Mods false true) false "MapEvent" [] (Some (ref "Event")) [] [];
    DClass (Mods false true) false "OverlayEvent" [] (Some (ref "Event")) []
        [ field "overlay" (ref "Overlay") ];
    DClass (Mods false true) false "UserLocationChangeEvent" [] (Some (ref "Event")) []
        [ field "coordinate" (ref "Coordinate");
          field "timestamp" (ref "Date") ];
    DEnum (Mods false true) "LocationError"
        [ EnumMember "PERMISSION_DENIED" (Some (INum 1));
          EnumMember "POSITION_UNAVAILABLE" (Some (INum 2));
          EnumMember "TIMEOUT" (Some (INum 3));
          EnumMember "MAPKIT_NOT_INITIALIZED" (Some (INum 4)) ];
    DClass (Mods false true) false "UserLocationErrorEvent" [] None [ref "MapKitError"]
        [ field "code" (ref "LocationError");
          field "message" TString ];
    DInterface (Mods false false) "MapEventTypes" [ref "SelectEventTypes"; ref "AnnotationEventWithoutSelectTypes"; ref "OverlayEventWithoutSelectTypes"]
        [ field "region-change-start" (ref "MapEvent");
          field "region-change-end" (ref "MapEvent");
          field "scroll-start" (ref "MapEvent");
          field "scroll-end" (ref "MapEvent");
          field "zoom-start" (ref "MapEvent");
          field "zoom-end" (ref "MapEvent");
          field "map-type-change" (ref "MapEvent");
          field "user-location-change" (ref "UserLocationChangeEvent");
          field "user-location-error" (ref "UserLocationErrorEvent") ];
    DClass (Mods true false) false "Map" [] (Some (TRef "MapKitEvented" [ref "MapEventTypes"])) []
        [ ctor [opt "parent" (TUnion [TString; ref "HTMLElement"]); opt "options" (ref "MapConstructorOptions")];
          field "isRotationAvailable" TBoolean;
          field "isRotationEnabled" TBoolean;
          field "isScrollEnabled" TBoolean;
          field "isZoomEnabled" TBoolean;
          field "center" (ref "Coordinate");
          method "setCenterAnimated" [req "coordinate" (ref "Coordinate"); opt "animate" TBoolean] (ref "Map");
          field "region" (ref "CoordinateRegion");
          method "setRegionAnimated" [req "egion" (ref "CoordinateRegion"); opt "animate" TBoolean] (ref "Map");
          field "rotation" TNumber;
          method "setRotationAnimated" [req "degrees" TNumber; opt "animate" TBoolean] (ref "Map");
          field "visibleMapRect" (ref "MapRect");
          method "setVisibleMapRectAnimated" [req "mapRect" (ref "MapRect"); opt "animate" TBoolean] (ref "Map");
          field "colorScheme" (ref "Map.ColorSchemes");
          field "distances" (ref "Map.Distances");
          field "mapType" (ref "Map.MapTypes");
          field "padding" (ref "Padding");
          field "showsCompass" (ref "FeatureVisibility");
          field "showsMapTypeControl" TBoolean;
          field "showsZoomControl" TBoolean;
          field "showsUserLocationControl" TBoolean;
          field "showsPointsOfInterest" TBoolean;
          field "showsScale" (ref "FeatureVisibility");
          field "tintColor" TString;
          method "showItems" [req "items" (TArray (TUnion [ref "Annotation"; ref "Overlay"])); opt "options" (ref "MapShowItemsOptions")] (TArray (TUnion [ref "Annotation"; ref "Overlay"]));
          field_opt "annotationForCluster" (TFun [req "clusterAnnotation" (ref "Annotation")] (TUnion [TVoid; ref "Annotation"]));
          field_opt "annotations" (TArray (ref "Annotation"));
          field "selectedAnnotation" (TUnion [ref "Annotation"; TNull]);
          method "annotationsInMapRect" [req "mapRect" (ref "MapRect")] (TArray (ref "Annotation"));
          method "addAnnotation" [req "annotation" (ref "Annotation")] (ref "Annotation");
          method "addAnnotations" [req "annotations" (TArray (ref "Annotation"))] (TArray (ref "Annotation"));
          method "removeAnnotation" [req "annotation" (ref "Annotation")] (ref "Annotation");
          method "removeAnnotations" [req "annotations" (TArray (ref "Annotation"))] (TArray (ref "Annotation"));
          field "overlays" (TArray (ref "Overlay"));
          field "selectedOverlay" (TUnion [ref "Overlay"; TNull]);
          method "overlaysAtPoint" [req "point" (ref "DOMPoint")] (TArray (ref "Overlay"));
          method "addOverlay" [req "overlay" (ref "Overlay")] (ref "Overlay");
          method "addOverlays" [req "overlays" (TArray (ref "Overlay"))] (TArray (ref "Overlay"));
          method "removeOverlay" [req "overlay" (ref "Overlay")] (ref "Overlay");
          method "removeOverlays" [req "overlays" (TArray (ref "Overlay"))] (TArray (ref "Overlay"));
          method "topOverlayAtPoint" [req "point" (ref "DOMPoint")] (ref "Overlay");
          field "tileOverlays" (TArray (ref "TileOverlay"));
          method "addTileOverlay" [req "overlay" (ref "TileOverlay")] (ref "TileOverlay");
          method "addTileOverlays" [req "overlays" (TArray (ref "TileOverlay"))] (TArray (ref "TileOverlay"));
          method "removeTileOverlay" [req "overlay" (ref "TileOverlay")] (ref "TileOverlay");
          method "removeTileOverlays" [req "overlays" (TArray (ref "TileOverlay"))] (TArray (ref "TileOverlay"));
          field "showsUserLocation" TBoolean;
          field "tracksUserLocation" TBoolean;
          field "userLocationAnnotation" (TUnion [ref "Annotation"; TNull]);
          method "convertCoordinateToPointOnPage" [req "coordinate" (ref "Coordinate")] (ref "DOMPoint");
          method "convertPointOnPageToCoordinate" [req "point" (ref "DOMPoint")] (ref "Coordinate");
          method "destroy" [] TVoid;
          field "element" (ref "HTMLElement") ];
    DNamespace (Mods true false) "Map"
        [
         DEnum (Mods true false) "MapTypes"
             [ EnumMember "Hybrid" (Some (IStr "Hybrid"));
               EnumMember "Satellite" (Some (IStr "Satellite"));
               EnumMember "Standard" (Some (IStr "Standard"));
               EnumMember "MutedStandard" (Some (IStr "MutedStandard")) ];
         DEnum (Mods true false) "ColorSchemes"
             [ EnumMember "Light" (Some (IStr "Light"));
               EnumMember "Dark" (Some (IStr "Dark")) ];
         DEnum (Mods true false) "Distances"
             [ EnumMember "Adaptive" (Some (IStr "Adaptive"));
               EnumMember "Metric" (Some (IStr "Metric"));
               EnumMember "Imperial" (Some (IStr "Imperial")) ]
        ];
    DInterface (Mods true false) "MapShowItemsOptions" []
        [ field_opt "animate" TBoolean;
          field_opt "minimumSpan" (ref "CoordinateSpan");
          field "padding" (ref "Padding") ];
    DClass (Mods true false) false "MapPoint" [] None []
        [ ctor [req "x" TNumber; req "y" TNumber];
          field "x" TNumber;
          field "y" TNumber;
          method "copy" [] (ref "MapPoint");
          method "equals" [req "other" (ref "MapPoint")] TBoolean;
          method "toCoordinate" [] (ref "Coordinate") ];
    DClass (Mods true false) false "MapSize" [] None []
        [ ctor [req "width" TNumber; req "height" TNumber];
          field "width" TNumber;
          field "height" TNumber;
          field "copy" (ref "MapSize");
          method "equals" [req "anotherSize" (ref "MapSize")] TBoolean ];
    DClass (Mods true false) false "MapRect" [] None []
        [ ctor [req "x" TNumber; req "y" TNumber; req "width" TNumber; req "height" TNumber];
          field "origin" (ref "MapPoint");
          field "size" (ref "MapSize");
          field "maxX" TNumber;
          field "maxY" TNumber;
          field "midX" TNumber;
          field "midY" TNumber;
          field "minX" TNumber;
          field "minY" TNumber;
          method "copy" [] (ref "MapRect");
          method "equals" [req "other" (ref "MapRect")] TBoolean;
          method "scale" [req "scaleFactor" TNumber; req "scaleCenter" (ref "MapPoint")] (ref "MapRect");
          method "toCoordinateRegion" [] (ref "CoordinateRegion") ];
    DClass (Mods true false) false "CoordinateRegion" [] None []
        [ ctor [req "center" (ref "Coordinate"); req "span" (ref "CoordinateSpan")];
          field "center" (ref "Coordinate");
          field "span" (ref "CoordinateSpan");
          method "copy" [] (ref "CoordinateRegion");
          method "equals" [req "other" (ref "CoordinateRegion")] TBoolean;
          method "toBoundingRegion" [] (ref "BoundingRegion");
          method "toMapRect" [] (ref "MapRect") ];
    DClass (Mods true false) false "CoordinateSpan" [] None []
        [ ctor [req "latitudeDelta" TNumber; req "longitudeDelta" TNumber];
          field "latitudeDelta" TNumber;
          field "longitudeDelta" TNumber;
          method "copy" [] (ref "CoordinateSpan");
          method "equals" [req "other" (ref "CoordinateSpan")] TBoolean ];
    DClass (Mods true false) false "BoundingRegion" [] None []
        [ ctor [req "northLatitude" TNumber; req "eastLongitude" TNumber; req "southLatitude" TNumber; req "westLongitude" TNumber];
          field "northLatitude" TNumber;
          field "eastLongitude" TNumber;
          field "southLatitude" TNumber;
          field "westLongitude" TNumber;
          method "copy" [] (ref "BoundingRegion");
          method "toCoordinateRegion" [] (ref "CoordinateRegion") ];
    DInterface (Mods true false) "PaddingConstructorOptions" []
        [ field "bottom" TNumber;
          field "left" TNumber;
          field "right" TNumber;
          field "top" TNumber ];
    DClass (Mods true false) false "Padding" [] None []
        [ ctor [opt "options" (TUnion [ref "PaddingConstructorOptions"; TArray TNumber])];
          field "bottom" TNumber;
          field "left" TNumber;
          field "right" TNumber;
          field "top" TNumber ];
    DInterface (Mods true false) "AnnotationConstructorOptions" []
        [ field_opt "data" TAny;
          field_opt "title" TString;
          field_opt "subtitle" TString;
          field_opt "anchorOffset" (ref "DOMPoint");
          field_opt "appearanceAnimation" TString;
          field_opt "displayPriority" TNumber;
          field_opt "size" (TLit [req "height" TNumber; req "width" TNumber]);
          field_opt "visible" TBoolean;
          field_opt "animates" TBoolean;
          field_opt "draggable" TBoolean;
          field_opt "enabled" TBoolean;
          field_opt "selected" TBoolean;
          field_opt "callout" (ref "AnnotationCalloutDelegate");
          field_opt "calloutEnabled" TBoolean;
          field_opt "calloutOffset" (ref "DOMPoint");
          field_opt "clusteringIdentifier" TString;
          field_opt "collisionMode" (ref "Annotation.CollisionMode");
          field_opt "accessibilityLabel" TString ];
    DClass (Mods false true) false "AnnotationEvent" [] (Some (ref "Event")) []
        [ field "annotation" (ref "Annotation") ];
    DInterface (Mods false false) "AnnotationEventWithoutSelectTypes" []
        [ field "drag-start" (ref "AnnotationEvent");
          field "dragging" (ref "AnnotationEvent");
          field "drag-end" (ref "AnnotationEvent") ];
    DInterface (Mods false false) "AnnotationEventTypes" [ref "SelectEventTypes"; ref "AnnotationEventWithoutSelectTypes"]
        [ field "select" (ref "AnnotationEvent");
          field "deselect" (ref "AnnotationEvent") ];
    DClass (Mods true false) false "Annotation" [] (Some (TRef "MapKitEvented" [ref "AnnotationEventTypes"])) []
        [ ctor [req "coordinate" (ref "Coordinate"); req "factory" (ref "Function"); opt "options" (ref "AnnotationConstructorOptions")];
          field "coordinate" (ref "Coordinate");
          field "data" TAny;
          field "title" TString;
          field "subtitle" TString;
          field "anchorOffset" (ref "DOMPoint");
          field "appearanceAnimation" TString;
          field "displayPriority" TNumber;
          field "size" (TLit [req "height" TNumber; req "width" TNumber]);
          field "visible" TBoolean;
          field "animates" TBoolean;
          field "draggable" TBoolean;
          field "selected" TBoolean;
          field "enabled" TBoolean;
          field "map" (ref "Map");
          field "element" (ref "HTMLElement");
          field "callout" (ref "AnnotationCalloutDelegate");
          field "calloutEnabled" TBoolean;
          field "calloutOffset" (ref "DOMPoint");
          field "memberAnnotations" (TArray (ref "Annotation"));
          field "clusteringIdentifier" TString;
          field "collisionMode" (ref "Annotation.CollisionMode");
          field "accessibilityLabel" TString ];
    DNamespace (Mods true false) "Annotation"
        [
         DEnum (Mods true false) "DisplayPriority"
             [ EnumMember "Low" (Some (INum 250));
               EnumMember "High" (Some (INum 750));
               EnumMember "Required" (Some (INum 1000)) ];
         DEnum (Mods true false) "CollisionMode"
             [ EnumMember "Circle" (Some (IStr "Circle"));
               EnumMember "Rectangle" (Some (IStr "Rectangle")) ]
        ];
    DInterface (Mods false false) "DisplayAsset" []
        [ field "1" TString;
          field_opt "2" TString;
          field_opt "3" TString ];
    DClass (Mods true false) false "MarkerAnnotation" [] (Some (ref "Annotation")) []
        [ ctor [req "coordinate" (ref "Coordinate"); opt "options" (ref "MarkerAnnotationConstructorOptions")];
          field "color" TString;
          field "glyphColor" TString;
          field "glyphImage" (ref "DisplayAsset");
          field "glyphText" TString;
          field "selectedGlyphImage" (ref "DisplayAsset");
          field "subtitleVisibility" (ref "FeatureVisibility");
          field "titleVisibility" (ref "FeatureVisibility") ];
    DInterface (Mods true false) "MarkerAnnotationConstructorOptions" [ref "AnnotationConstructorOptions"]
        [ field_opt "color" TString;
          field_opt "glyphColor" TString;
          field_opt "glyphImage" (ref "DisplayAsset");
          field_opt "glyphText" TString;
          field_opt "selectedGlyphImage" (ref "DisplayAsset");
          field_opt "subtitleVisibility" (ref "FeatureVisibility");
          field_opt "titleVisibility" (ref "FeatureVisibility") ];
    DClass (Mods true false) false "ImageAnnotation" [] (Some (ref "Annotation")) []
        [ ctor [req "coordinate" (ref "Coordinate"); opt "options" (ref "ImageAnnotationConstructorOptions")];
          field "url" (ref "DisplayAsset") ];
    DInterface (Mods true false) "ImageAnnotationConstructorOptions" [ref "AnnotationConstructorOptions"]
        [ field "url" (ref "DisplayAsset") ];
    DEnum (Mods true false) "FeatureVisibility"
        [ EnumMember "Adaptive" (Some (IStr "Adaptive"));
          EnumMember "Hidden" (Some (IStr "Hidden"));
          EnumMember "Visible" (Some (IStr "Visible")) ];
    DInterface (Mods true false) "AnnotationCalloutDelegate" []
        [ method "calloutAnchorOffsetForAnnotation" [req "annotation" (ref "Annotation"); req "size" (TLit [req "width" TNumber; req "height" TNumber])] (ref "DOMPoint");
          method "calloutShouldAppearForAnnotation" [req "annotation" (ref "Annotation")] TBoolean;
          method "calloutShouldAnimateForAnnotation" [req "annotation" (ref "Annotation")] TBoolean;
          method "calloutAppearanceAnimationForAnnotation" [req "annotation" (ref "Annotation")] TString;
          method "calloutContentForAnnotation" [req "annotation" (ref "Annotation")] (ref "HTMLElement");
          method "calloutElementForAnnotation" [req "annotation" (ref "Annotation")] (ref "HTMLElement");
          method "calloutLeftAccessoryForAnnotation" [req "annotation" (ref "Annotation")] (ref "HTMLElement");
          method "calloutRightAccessoryForAnnotation" [req "annotation" (ref "Annotation")] (ref "HTMLElement") ];
    DEnum (Mods false true) "FillOpacityRule"
        [ EnumMember "NonZero" (Some (IStr "nonzero"));
          EnumMember "EvenOdd" (Some (IStr "evenodd")) ];
    DEnum (Mods false true) "LineCapStyle"
        [ EnumMember "Butt" (Some (IStr "butt"));
          EnumMember "Round" (Some (IStr "round"));
          EnumMember "Square" (Some (IStr "square")) ];
    DEnum (Mods false true) "LineJoinStyle"
        [ EnumMember "Miter" (Some (IStr "miter"));
          EnumMember "Round" (Some (IStr "round"));
          EnumMember "Bevel" (Some (IStr "bevel")) ];
    DInterface (Mods true false) "StyleConstructorOptions" []
        [ field_opt "fillColor" (TUnion [TString; TNull]);
          field_opt "fillOpacity" TNumber;
          field_opt "fillRule" (ref "FillOpacityRule");
          field_opt "lineCap" (ref "LineCapStyle");
          field_opt "lineDash" (TArray TNumber);
          field_opt "lineDashOffset" TNumber;
          field_opt "lineJoin" (ref "LineJoinStyle");
          field_opt "lineWidth" TNumber;
          field_opt "strokeColor" TNumber;
          field_opt "strokeOpacity" TNumber ];
    DClass (Mods true false) false "Style" [] None []
        [ ctor [opt "options" (ref "StyleConstructorOptions")];
          field "fillColor" (TUnion [TString; TNull]);
          field "fillOpacity" TNumber;
          field "fillRule" (ref "FillOpacityRule");
          field "lineCap" (ref "LineCapStyle");
          field "lineDash" (TArray TNumber);
          field "lineDashOffset" TNumber;
          field "lineJoin" (ref "LineJoinStyle");
          field "lineWidth" TNumber;
          field "strokeColor" TNumber;
          field "strokeOpacity" TNumber ];
    DInterface (Mods false false) "OverlayEventWithoutSelectTypes" [] [];
    DInterface (Mods false false) "OverlayEventTypes" [ref "SelectEventTypes"; ref "OverlayEventWithoutSelectTypes"]
        [ field "select" (ref "OverlayEvent");
          field "deselect" (ref "OverlayEvent") ];
    DClass (Mods true false) true "Overlay" [] (Some (TRef "MapKitEvented" [ref "OverlayEventTypes"])) []
        [ field "data" TAny;
          field "visible" TBoolean;
          field "enabled" TBoolean;
          field "selected" TBoolean;
          field "style" (ref "Style");
          field "map" (ref "Map") ];
    DInterface (Mods true false) "OverlayOptions" []
        [ field_opt "data" TAny;
          field_opt "enabled" TBoolean;
          field_opt "selected" TBoolean;
          field_opt "visible" TBoolean;
          field_opt "style" (ref "Style") ];
    DClass (Mods true false) false "CircleOverlay" [] (Some (ref "Overlay")) []
        [ ctor [req "coordinate" (ref "Coordinate"); req "radius" TNumber; opt "options" (ref "OverlayOptions")];
          field "coordinate" (ref "Coordinate");
          field "radius" TNumber ];
    DClass (Mods true false) false "PolylineOverlay" [] (Some (ref "Overlay")) []
        [ ctor [req "points" (TArray (ref "Coordinate")); opt "options" (ref "OverlayOptions")];
          field "points" (TArray (ref "Coordinate")) ];
    DClass (Mods true false) false "PolygonOverlay" [] (Some (ref "Overlay")) []
        [ ctor [req "points" (TArray (ref "Coordinate")); opt "options" (ref "OverlayOptions")];
          ctor [req "points" (TArray (TArray (ref "Coordinate"))); opt "options" (ref "OverlayOptions")];
          field "points" (TUnion [TArray (TArray (ref "Coordinate")); TArray (ref "Coordinate")]) ];
    DInterface (Mods true false) "TileOverlayConstructorOptions" []
        [ field "data" TAny;
          field "maximumZ" TNumber;
          field "minimumZ" TNumber;
          field "opacity" TNumber ];
    DInterface (Mods false false) "TileOverlayErrorEvent" []
        [ field "tileOverlay" (ref "TileOverlay");
          field "tileUrl" TString ];
    DInterface (Mods false false) "TileOverlayEventTypes" []
        [ field "tile-error" (ref "TileOverlayErrorEvent") ];
    DClass (Mods true false) false "TileOverlay" [] (Some (TRef "MapKitEvented" [ref "TileOverlayEventTypes"])) []
        [ ctor [req "urlTemplate" TString; opt "options" (ref "TileOverlayConstructorOptions")];
          ctor [req "urlTemplate" (TFun [req "x" TNumber; req "y" TNumber; req "z" TNumber; req "scale" TNumber; req "data" TAny] TString); opt "options" (ref "TileOverlayConstructorOptions")];
          field "urlTemplate" (TFun [req "x" TNumber; req "y" TNumber; req "z" TNumber; req "scale" TNumber; req "data" TAny] (TUnion [TString; TString]));
          field "data" TAny;
          method "reload" [] TVoid;
          field "opacity" TNumber;
          field "maximumZ" (TUnion [TNumber; TNull]);
          field "minimumZ" (TUnion [TNumber; TNull]) ];
    DInterface (Mods true false) "GeocoderConstructorOptions" []
        [ field_opt "getsUserLocation" TBoolean;
          field_opt "language" TString ];
    DInterface (Mods true false) "GeocodeResponse" []
        [ field "results" (TArray (ref "Place")) ];
    DInterface (Mods true false) "GeocoderLookupOptions" []
        [ field_opt "coordinate" (ref "Coordinate");
          field_opt "language" TString;
          field_opt "limitToCountries" TString;
          field_opt "region" (ref "CoordinateRegion") ];
    DInterface (Mods true false) "GeocoderReverseLookupOptions" []
        [ field_opt "language" TString ];
    DInterface (Mods true false) "Place" []
        [ field "name" TString;
          field "formattedAddress" TString;
          field "countryCode" TString;
          field "coordinate" (ref "Coordinate");
          field "region" (ref "CoordinateRegion") ];
    DClass (Mods true false) false "Geocoder" [] None []
        [ ctor [opt "options" (ref "GeocoderConstructorOptions")];
          field "getsUserLocation" TBoolean;
          field "language" TString;
          method "lookup" [req "place" TString; req "callback" (TFun [req "error" (ref "MapKitError"); req "data" (ref "GeocodeResponse")] TVoid); opt "options" (ref "GeocoderLookupOptions")] TNumber;
          method "reverseLookup" [req "coordinate" (ref "Coordinate"); req "callback" (TFun [req "error" (ref "MapKitError"); req "data" (ref "GeocodeResponse")] TVoid); opt "options" (ref "GeocoderReverseLookupOptions")] TNumber;
          method "cancel" [req "id" TNumber] TBoolean ];
    DInterface (Mods true false) "SearchConstructorOptions" []
        [ field_opt "coordinate" (ref "Coordinate");
          field_opt "getsUserLocation" TBoolean;
          field_opt "language" TString;
          field_opt "region" (ref "CoordinateRegion") ];
    DInterface (Mods true false) "SearchResponse" []
        [ field "places" (TArray (ref "Place"));
          field "query" TString;
          field_opt "boundingRegion" (ref "CoordinateRegion") ];
    DInterface (Mods true false) "SearchOptions" []
        [ field_opt "coordinate" (ref "Coordinate");
          field_opt "language" TString;
          field_opt "region" (ref "CoordinateRegion") ];
    DInterface (Mods true false) "SearchAutocompleteResult" []
        [ field_opt "coordinate" (ref "Coordinate");
          field "displayLines" (TArray TString) ];
    DInterface (Mods true false) "SearchAutocompleteResponse" []
        [ field "query" TString;
          field "results" (TArray (ref "SearchAutocompleteResult")) ];
    DInterface (Mods true false) "SearchDelegate" []
        [ MMethod "autocompleteDidComplete" true (Sig [] [req "data" (ref "SearchAutocompleteResponse")] (Some TVoid) None);
          MMethod "autocompleteDidError" true (Sig [] [req "error" (ref "MapKitError")] (Some TVoid) None);
          MMethod "searchDidComplete" true (Sig [] [req "data" (ref "SearchResponse")] (Some TVoid) None);
          MMethod "searchDidError" true (Sig [] [req "error" (ref "MapKitError")] (Some TVoid) None) ];
    DClass (Mods true false) false "Search" [] None []
        [ ctor [opt "options" (ref "SearchConstructorOptions")];
          method "search" [req "query" (TUnion [TString; ref "SearchAutocompleteResult"]); req "callback" (TUnion [ref "SearchDelegate"; TFun [req "error" (ref "MapKitError"); req "data" (ref "SearchResponse")] TVoid]); opt "options" (ref "SearchOptions")] TNumber;
          method "autocomplete" [req "query" TString; req "callback" (TUnion [ref "SearchDelegate"; TFun [req "error" (ref "MapKitError"); req "data" (ref "SearchAutocompleteResponse")] TVoid]); opt "options" (ref "SearchOptions")] TNumber;
          method "cancel" [req "id" TNumber] TBoolean ];
    DInterface (Mods true false) "DirectionsConstructorOptions" []
        [ field_opt "language" TString ];
    DInterface (Mods true false) "DirectionsRequest" []
        [ field "origin" (TUnion [TString; ref "Coordinate"; ref "Place"]);
          field "destination" (TUnion [TString; ref "Coordinate"; ref "Place"]);
          field "requestsAlternateRoutes" TBoolean;
          field "transportType" (ref "Directions.Transport") ];
    DInterface (Mods true false) "RouteStep" []
        [ field "path" (TArray (ref "Coordinate"));
          field "instructions" TString;
          field "distance" TNumber;
          field "transportType" (ref "Directions.Transport") ];
    DInterface (Mods true false) "Route" []
        [ field "polyline" (ref "PolylineOverlay");
          field "path" (TArray (TArray (ref "Coordinate")));
          field "steps" (TArray (ref "RouteStep"));
          field "name" TString;
          field "distance" TNumber;
          field "expectedTravelTime" TNumber;
          field "transportType" (ref "Directions.Transport") ];
    DInterface (Mods true false) "DirectionsResponse" []
        [ field "request" (ref "DirectionsRequest");
          field "routes" (TArray (ref "Route")) ];
    DClass (Mods true false) false "Directions" [] None []
        [ ctor [opt "options" (ref "DirectionsConstructorOptions")];
          method "route" [req "request" (ref "DirectionsRequest"); req "callback" (TFun [opt "error" (ref "Error"); opt "data" (ref "DirectionsResponse")] TVoid)] TNumber;
          method "cancel" [req "id" TNumber] TBoolean ];
    DNamespace (Mods true false) "Directions"
        [
         DEnum (Mods true false) "Transport"
             [ EnumMember "Automobile" (Some (IStr "Automobile"));
               EnumMember "Walking" (Some (IStr "Walking")) ]
        ];
    DInterface (Mods true false) "ItemCollection" []
        [ field "data" TObjectKw;
          field "getFlattenedItemList" (TArray (TUnion [ref "Annotation"; ref "Overlay"]));
          field "items" (TArray (TUnion [ref "Annotation"; ref "Overlay"; ref "ItemCollection"])) ];
    DInterface (Mods true false) "GeoJSONDelegate" []
        [ field_opt "itemForFeature" (TFun [req "item" (TUnion [ref "Annotation"; ref "Overlay"; TNull]); req "geoJSON" TObjectKw] (TUnion [ref "Annotation"; ref "Overlay"; TArray (ref "Annotation"); TArray (ref "Overlay")]));
          field_opt "itemForFeatureCollection" (TFun [req "itemCollection" (ref "ItemCollection"); req "geoJSON" TObjectKw] (TUnion [ref "Annotation"; ref "Overlay"; TArray (ref "Annotation"); TArray (ref "Overlay")]));
          field_opt "itemForLineString" (TFun [req "overlay" (ref "PolylineOverlay"); req "geoJSON" TObjectKw] (TUnion [ref "Annotation"; ref "Overlay"; TArray (ref "Annotation"); TArray (ref "Overlay")]));
          field_opt "itemForMultiLineString" (TFun [req "itemCollection" (ref "ItemCollection"); req "geoJSON" TObjectKw] (TUnion [ref "Annotation"; ref "Overlay"; TArray (ref "Annotation"); TArray (ref "Overlay")]));
          field_opt "itemForPoint" (TFun [req "overlay" (ref "Coordinate"); req "geoJSON" TObjectKw] (TUnion [ref "Annotation"; ref "Overlay"; TArray (ref "Annotation"); TArray (ref "Overlay")]));
          field_opt "itemForMultiPoint" (TFun [req "itemCollection" (ref "ItemCollection"); req "geoJSON" TObjectKw] (TUnion [ref "Annotation"; ref "Overlay"; TArray (ref "Annotation"); TArray (ref "Overlay")]));
          field_opt "itemForPolygon" (TFun [req "overlay" (ref "PolygonOverlay"); req "geoJSON" TObjectKw] (TUnion [ref "Annotation"; ref "Overlay"; TArray (ref "Annotation"); TArray (ref "Overlay")]));
          field_opt "itemForMultiPolygon" (TFun [req "itemCollection" (ref "ItemCollection"); req "geoJSON" TObjectKw] (TUnion [ref "Annotation"; ref "Overlay"; TArray (ref "Annotation"); TArray (ref "Overlay")]));
          field_opt "styleForOverlay" (TFun [req "overlay" (ref "Overlay"); req "geoJSON" TObjectKw] (ref "Style"));
          field_opt "geoJSONDidComplete" (TFun [req "result" (ref "ItemCollection"); req "geoJSON" TObjectKw] TVoid);
          field_opt "geoJSONDidError" (TFun [req "error" (ref "Error"); req "geoJSON" TObjectKw] TVoid) ];
    DFunction (Mods true false) "importGeoJSON"
      (Sig [] [req "data" (TUnion [TString; TObjectKw]); req "callback" (TUnion [ref "GeoJSONDelegate"; TFun [req "error" (ref "MapKitError"); req "result" (ref "ItemCollection")] TVoid])] (Some (TUnion [ref "Error"; ref "ItemCollection"])) None);
    DClass (Mods true false) false "DOMPoint" [] None []
        [ ctor [req "x" TNumber; req "y" TNumber];
          field "w" TNumber;
          field "x" TNumber;
          field "y" TNumber;
          field "z" TNumber ]
  ].


(** The repository: every declaration file, under its path. *)

Definition repository : list (string * list decl) :=
  [ ("src/mapkit.d.ts", mapkit_d_ts);
    ("src/unnamed/part_000", part_000);
    ("src/unnamed/part_001", part_001) ].

Definition files : list (list decl) := map snd repository.

(** ** Looking declarations up

    A name is resolved to the first declaration of that name and kind in the
    file; none of the three files declares a class, interface, enum or
    function twice ([declared_once] below). *)

Fixpoint find_class (f : list decl) (n : string) : option (list member) :=
  match f with
  | [] => None
  | DClass _ _ n' _ _ _ ms :: f' => if n' =? n then Some ms else find_class f' n
  | _ :: f' => find_class f' n
  end.

Fixpoint find_interface (f : list decl) (n : string) : option (list member) :=
  match f with
  | [] => None
  | DInterface _ n' _ ms :: f' =>
      if n' =? n then Some ms else find_interface f' n
  | _ :: f' => find_interface f' n
  end.

Fixpoint find_function (f : list decl) (n : string) : option signature :=
  match f with
  | [] => None
  | DFunction _ n' s :: f' => if n' =? n then Some s else find_function f' n
  | _ :: f' => find_function f' n
  end.

Fixpoint find_enum (f : list decl) (n : string) : option (list enum_member) :=
  match f with
  | [] => None
  | DEnum _ n' ms :: f' => if n' =? n then Some ms else find_enum f' n
  | _ :: f' => find_enum f' n
  end.

Fixpoint find_namespace (f : list decl) (n : string) : option (list decl) :=
  match f with
  | [] => None
  | DNamespace _ n' ds :: f' =>
      if n' =? n then Some ds else find_namespace f' n
  | _ :: f' => find_namespace f' n
  end.

(** [Annotation.DisplayPriority]: the enum [e] of the namespace [ns]. *)
Definition find_enum_in (f : list decl) (ns e : string)
  : option (list enum_member) :=
  match find_namespace f ns with
  | Some ds => find_enum ds e
  | None => None
  end.

(** Every signature declared under the method name [n], in order. *)
Fixpoint methods_named (ms : list member) (n : string) : list signature :=
  match ms with
  | [] => []
  | MMethod n' _ s :: ms' =>
      if n' =? n then s :: methods_named ms' n else methods_named ms' n
  | _ :: ms' => methods_named ms' n
  end.

Definition find_method (ms : list member) (n : string) : option signature :=
  hd_error (methods_named ms n).

(** The parameter lists of the constructors of a class body. *)
Fixpoint constructors (ms : list member) : list (list param) :=
  match ms with
  | [] => []
  | MConstructor ps _ :: ms' => ps :: constructors ms'
  | _ :: ms' => constructors ms'
  end.

(** The constructors of class [c], and its signatures under the name [m]. *)
Definition class_constructors (f : list decl) (c : string)
  : option (list (list param)) :=
  option_map constructors (find_class f c).

Definition class_methods (f : list decl) (c m : string)
  : option (list signature) :=
  option_map (fun ms => methods_named ms m) (find_class f c).

(** A declaration together with everything declared inside it, and a file
    with its namespaces opened: every declaration at any depth. *)
Fixpoint decl_closure (d : decl) : list decl :=
  d :: match d with
       | DNamespace _ _ ds => flat_map decl_closure ds
       | _ => []
       end.

Definition all_decls (f : list decl) : list decl := flat_map decl_closure f.

(** ** Comparing types

    [ty_cmp true] is syntactic equality of types.  [ty_cmp false a b] also
    lets a binder that [a] leaves without annotation stand against any
    annotation in [b]: [b] repeats every annotation [a] writes. *)

Section Forall2b.
Context {A B : Type}.
Variable p : A -> B -> bool.

Fixpoint forall2b (xs : list A) (ys : list B) : bool :=
  match xs, ys with
  | [], [] => true
  | x :: xs', y :: ys' => p x y && forall2b xs' ys'
  | _, _ => false
  end.

End Forall2b.

Definition opt_cmp {A : Type} (strict : bool) (cmp : A -> A -> bool)
  (a b : option A) : bool :=
  match a, b with
  | Some x, Some y => cmp x y
  | None, None => true
  | None, Some _ => negb strict
  | Some _, None => false
  end.

Definition binder_cmp (strict : bool) (cmp : ty -> ty -> bool)
  (a b : binder ty) : bool :=
  (b_name a =? b_name b) && Bool.eqb (b_optional a) (b_optional b)
  && opt_cmp strict cmp (b_type a) (b_type b).

Fixpoint ty_cmp (strict : bool) (a b : ty) {struct a} : bool :=
  match a, b with
  | TNumber, TNumber => true
  | TString, TString => true
  | TBoolean, TBoolean => true
  | TVoid, TVoid => true
  | TAny, TAny => true
  | TNull, TNull => true
  | TObjectKw, TObjectKw => true
  | TRef n xs, TRef m ys => (n =? m) && forall2b (ty_cmp strict) xs ys
  | TArray x, TArray y => ty_cmp strict x y
  | TTuple xs, TTuple ys => forall2b (ty_cmp strict) xs ys
  | TUnion xs, TUnion ys => forall2b (ty_cmp strict) xs ys
  | TFun ps r, TFun qs s =>
      forall2b (binder_cmp strict (ty_cmp strict)) ps qs && ty_cmp strict r s
  | TLit fs, TLit gs => forall2b (binder_cmp strict (ty_cmp strict)) fs gs
  | TKeyof x, TKeyof y => ty_cmp strict x y
  | TIndex x i, TIndex y j => ty_cmp strict x y && ty_cmp strict i j
  | _, _ => false
  end.

Definition ty_eqb : ty -> ty -> bool := ty_cmp true.
Definition ty_le : ty -> ty -> bool := ty_cmp false.

(** Every binder inside the type carries an annotation. *)
Fixpoint annotated (t : ty) : bool :=
  match t with
  | TRef _ xs | TTuple xs | TUnion xs => forallb annotated xs
  | TArray x | TKeyof x => annotated x
  | TIndex x i => annotated x && annotated i
  | TFun ps r =>
      forallb (fun b => match b_type b with
                        | Some u => annotated u
                        | None => false
                        end) ps && annotated r
  | TLit fs =>
      forallb (fun b => match b_type b with
                        | Some u => annotated u
                        | None => false
                        end) fs
  | _ => true
  end.

(** A comparison is decisive on [t] when it is strict or [t] has every
    annotation: then it only holds between equal types. *)
Definition decisive (strict : bool) (t : ty) : bool := strict || annotated t.

Definition tparam_eqb (a b : tparam) : bool :=
  match a, b with
  | TParam n c, TParam m d => (n =? m) && opt_cmp true ty_eqb c d
  end.

(** [sig_le old new]: same type parameters, the same parameters by name,
    order and [?] mark, and each annotation of [old] kept by [new]. *)
Definition sig_le (a b : signature) : bool :=
  forall2b tparam_eqb (s_tparams a) (s_tparams b)
  && forall2b (binder_cmp false ty_le) (s_params a) (s_params b)
  && opt_cmp false ty_le (s_ret a) (s_ret b)
  && opt_cmp true String.eqb (s_body a) (s_body b).

Definition member_le (a b : member) : bool :=
  match a, b with
  | MProperty x i, MProperty y j =>
      binder_cmp false ty_le x y && opt_cmp true String.eqb i j
  | MMethod n o s, MMethod m q t => (n =? m) && Bool.eqb o q && sig_le s t
  | MConstructor ps x, MConstructor qs y =>
      forall2b (binder_cmp false ty_le) ps qs && opt_cmp true String.eqb x y
  | _, _ => false
  end.

(** Every member of [old] has a counterpart in [new]. *)
Definition members_le (old new : list member) : bool :=
  forallb (fun m => existsb (member_le m) new) old.

(** A binder kept by a later revision: same name, same [?] mark, and the
    annotation, when there is a complete one, unchanged. *)
Definition binder_kept (a b : binder ty) : Prop :=
  b_name a = b_name b /\ b_optional a = b_optional b
  /\ forall t, b_type a = Some t -> annotated t = true -> b_type b = Some t.

(** ** What a declaration accepts

    The fragment of TypeScript's assignability used here: a type is
    assignable to itself, anything is assignable to [any], a type is
    assignable to a union when it is assignable to one alternative, and an
    object literal type is assignable to an interface without [extends]
    when it supplies every required member and each of its fields is a
    property of the interface at the declared type. *)

Fixpoint interface_extends (f : list decl) (n : string) : list ty :=
  match f with
  | [] => []
  | DInterface _ n' es _ :: f' =>
      if n' =? n then es else interface_extends f' n
  | _ :: f' => interface_extends f' n
  end.

Definition required_member_supplied (fields : list (binder ty)) (m : member)
  : bool :=
  match m with
  | MProperty b _ =>
      b_optional b || existsb (fun x => b_name x =? b_name b) fields
  | MMethod _ o _ => o
  | MConstructor _ _ => true
  end.

Definition field_declared (ms : list member) (x : binder ty) : bool :=
  existsb (fun m => match m with
                    | MProperty b _ =>
                        (b_name b =? b_name x)
                        && match b_type b, b_type x with
                           | Some u, Some t => ty_eqb t u
                           | None, _ => true
                           | Some _, None => false
                           end
                    | _ => false
                    end) ms.

Definition fits_interface (f : list decl) (fields : list (binder ty))
  (iface : string) : bool :=
  match find_interface f iface, interface_extends f iface with
  | Some ms, [] =>
      forallb (required_member_supplied fields) ms
      && forallb (field_declared ms) fields
  | _, _ => false
  end.

Fixpoint assignable (f : list decl) (s t : ty) {struct t} : bool :=
  ty_eqb s t ||
  match t with
  | TAny => true
  | TUnion alts => existsb (assignable f s) alts
  | TRef n [] =>
      match s with
      | TLit fields => fits_interface f fields n
      | _ => false
      end
  | _ => false
  end.

(** A call supplies a prefix of the parameters: each argument is assignable
    to its parameter and every parameter left out is marked [?]. *)
Fixpoint args_ok (f : list decl) (ps : list param) (args : list ty) : bool :=
  match ps, args with
  | _, [] => forallb (fun p => b_optional p) ps
  | [], _ :: _ => false
  | p :: ps', a :: args' =>
      match b_type p with
      | Some t => assignable f a t
      | None => true
      end && args_ok f ps' args'
  end.

(** [new c(args)] type-checks against some constructor of class [c]. *)
Definition ctor_accepts (f : list decl) (c : string) (args : list ty) : bool :=
  match class_constructors f c with
  | Some cs => existsb (fun ps => args_ok f ps args) cs
  | None => false
  end.

Definition member_optional_property (m : member) : bool :=
  match m with
  | MProperty b _ => b_optional b
  | _ => false
  end.

(** ** Request operations (Geocoder, Search, Directions) *)

(** The asynchronous request operations, as (class, method). *)
Definition request_ops : list (string * string) :=
  [ ("Geocoder", "lookup"); ("Geocoder", "reverseLookup");
    ("Search", "search"); ("Search", "autocomplete");
    ("Directions", "route") ].

Definition op_declared (f : list decl) (op : string * string) : bool :=
  match find_class f (fst op) with
  | Some ms => match find_method ms (snd op) with
               | Some _ => true
               | None => false
               end
  | None => false
  end.

Definition returns_number (s : signature) : bool :=
  match s_ret s with
  | Some TNumber => true
  | _ => false
  end.

(** [cancel(id: number)], whatever it returns. *)
Definition is_cancel (m : member) : bool :=
  match m with
  | MMethod n false s =>
      (n =? "cancel")
      && match s_params s with
         | [Binder _ false (Some TNumber)] => true
         | _ => false
         end
  | _ => false
  end.

Definition has_cancel (ms : list member) : bool := existsb is_cancel ms.

(** The operation returns a [number] and its class has [cancel(id: number)]. *)
Definition request_op_ok (f : list decl) (op : string * string) : bool :=
  match find_class f (fst op) with
  | Some ms => match find_method ms (snd op) with
               | Some s => returns_number s && has_cancel ms
               | None => false
               end
  | None => false
  end.

(** ** Constructors of the per-instance classes *)

Definition per_instance_classes : list string :=
  [ "Map"; "Annotation"; "Geocoder"; "Search"; "Directions" ].

Definition is_string (t : ty) : bool :=
  match t with
  | TString => true
  | _ => false
  end.

Definition is_dom_element (t : ty) : bool :=
  match t with
  | TRef n [] => (n =? "Element") || (n =? "HTMLElement")
  | _ => false
  end.

(** A host element or a selector: [string | Element], [string | HTMLElement]. *)
Definition is_host_param (p : param) : bool :=
  match b_type p with
  | Some (TUnion alts) => existsb is_string alts && existsb is_dom_element alts
  | _ => false
  end.

(** An options object: the parameter's type names an interface of the file. *)
Definition is_options_param (f : list decl) (p : param) : bool :=
  match b_type p with
  | Some (TRef n []) => match find_interface f n with
                        | Some _ => true
                        | None => false
                        end
  | _ => false
  end.

Definition takes_host_and_options (f : list decl) (ps : list param) : bool :=
  existsb is_host_param ps && existsb (is_options_param f) ps.

(** The last parameter is [options?: I] for an interface [I] of the file. *)
Definition ends_with_options (f : list decl) (ps : list param) : bool :=
  match rev ps with
  | p :: _ => (b_name p =? "options") && b_optional p && is_options_param f p
  | [] => false
  end.

(** ** Error shape and failure codes *)

Fixpoint contains (sub s : string) : bool :=
  String.prefix sub s
  || match s with
     | EmptyString => false
     | String _ s' => contains sub s'
     end.

(** Every enum of the file, at any depth, with its members. *)
Definition enums_of (f : list decl) : list (string * list enum_member) :=
  flat_map (fun d => match d with
                     | DEnum _ n ms => [(n, ms)]
                     | _ => []
                     end) (all_decls f).

(** The enums that list failures are the ones named after an error or a
    failure ([LocationError], [MapKitInitFailureStatus]). *)
Definition is_failure_enum (e : string * list enum_member) : bool :=
  contains "Error" (fst e) || contains "Failure" (fst e).

Definition failure_enums (f : list decl) : list (string * list enum_member) :=
  filter is_failure_enum (enums_of f).

(** ** GeoJSON import *)

Inductive geojson_kind : Type :=
| Point | MultiPoint | LineString | MultiLineString
| Polygon | MultiPolygon | Feature | FeatureCollection.

Definition geojson_kinds : list geojson_kind :=
  [ Point; MultiPoint; LineString; MultiLineString;
    Polygon; MultiPolygon; Feature; FeatureCollection ].

Definition kind_name (k : geojson_kind) : string :=
  match k with
  | Point => "Point"
  | MultiPoint => "MultiPoint"
  | LineString => "LineString"
  | MultiLineString => "MultiLineString"
  | Polygon => "Polygon"
  | MultiPolygon => "MultiPolygon"
  | Feature => "Feature"
  | FeatureCollection => "FeatureCollection"
  end.

(** The override hook of a geometry type: [itemForPoint], ... *)
Definition hook_name (k : geojson_kind) : string := "itemFor" ++ kind_name k.

(** An optional member [n?: (...) => ...] or [n?(...)]. *)
Definition is_optional_hook (n : string) (m : member) : bool :=
  match m with
  | MProperty (Binder n' true (Some (TFun _ _))) None => n' =? n
  | MMethod n' true _ => n' =? n
  | _ => false
  end.

Definition alternatives (t : ty) : list ty :=
  match t with
  | TUnion alts => alts
  | _ => [t]
  end.

Fixpoint first_interface (f : list decl) (ts : list ty)
  : option (list member) :=
  match ts with
  | [] => None
  | TRef n [] :: ts' =>
      match find_interface f n with
      | Some ms => Some ms
      | None => first_interface f ts'
      end
  | _ :: ts' => first_interface f ts'
  end.

(** The delegate interface taken by the second parameter of a signature
    [(data, callback)]. *)
Definition delegate_of (f : list decl) (s : signature)
  : option (list member) :=
  match s_params s with
  | [_; cb] => match b_type cb with
               | Some t => first_interface f (alternatives t)
               | None => None
               end
  | _ => None
  end.

Definition geojson_import_ok (f : list decl) : bool :=
  match find_function f "importGeoJSON" with
  | Some s =>
      match delegate_of f s with
      | Some ms =>
          forallb (fun k => existsb (is_optional_hook (hook_name k)) ms)
                  geojson_kinds
      | None => false
      end
  | None => false
  end.

(** ** Conversions between the geometric primitives *)

(** (class, method, result class). *)
Definition conversions : list (string * string * string) :=
  [ ("Coordinate", "toMapPoint", "MapPoint");
    ("MapPoint", "toCoordinate", "Coordinate");
    ("MapRect", "toCoordinateRegion", "CoordinateRegion");
    ("CoordinateRegion", "toMapRect", "MapRect");
    ("CoordinateRegion", "toBoundingRegion", "BoundingRegion");
    ("BoundingRegion", "toCoordinateRegion", "CoordinateRegion") ].

(** ** Declarations without definitions *)

(** The definition carried by a top-level declaration: a function body or a
    variable initialiser. *)
Definition decl_body (d : decl) : option string :=
  match d with
  | DFunction _ _ s => s_body s
  | DVariable _ _ _ _ i => i
  | _ => None
  end.

Definition decl_members (d : decl) : list member :=
  match d with
  | DInterface _ _ _ ms => ms
  | DClass _ _ _ _ _ _ ms => ms
  | _ => []
  end.

Definition decl_enum_members (d : decl) : list enum_member :=
  match d with
  | DEnum _ _ es => es
  | _ => []
  end.

(** The definition carried by a member: a method or constructor body, or a
    property initialiser. *)
Definition member_body (m : member) : option string :=
  match m with
  | MProperty _ i => i
  | MMethod _ _ s => s_body s
  | MConstructor _ b => b
  end.

Definition enum_member_constant (e : enum_member) : bool :=
  match e with
  | EnumMember _ (Some (IComputed _)) => false
  | _ => true
  end.

Definition is_none {A : Type} (o : option A) : bool :=
  match o with
  | None => true
  | Some _ => false
  end.

Definition decl_is_shape (d : decl) : bool :=
  is_none (decl_body d)
  && forallb (fun m => is_none (member_body m)) (decl_members d)
  && forallb enum_member_constant (decl_enum_members d).

Definition file_is_shape (f : list decl) : bool :=
  forallb decl_is_shape (all_decls f).

(** Names declared more than once as the same kind of thing. *)
Definition class_names (f : list decl) : list string :=
  flat_map (fun d => match d with
                     | DClass _ _ n _ _ _ _ => [n]
                     | _ => []
                     end) f.

Definition interface_names (f : list decl) : list string :=
  flat_map (fun d => match d with
                     | DInterface _ n _ _ => [n]
                     | _ => []
                     end) f.

Definition function_names (f : list decl) : list string :=
  flat_map (fun d => match d with
                     | DFunction _ n _ => [n]
                     | _ => []
                     end) f.

From Stdlib Require Import Ascii.

(** * The rest of the declared surface

    The definitions below read further properties off the same three lists:
    which names the declarations use, how classes and interfaces inherit,
    how the methods of a class pair up, and what one revision keeps of the
    previous one. *)

(** ** Names and references *)

Definition mem (n : string) (l : list string) : bool :=
  existsb (String.eqb n) l.

(** Every type name written inside a type. *)
Fixpoint refs_of (t : ty) : list string :=
  match t with
  | TRef n args => n :: flat_map refs_of args
  | TArray x | TKeyof x => refs_of x
  | TTuple xs | TUnion xs => flat_map refs_of xs
  | TFun ps r =>
      (flat_map (fun b => match b_type b with
                          | Some u => refs_of u
                          | None => []
                          end) ps ++ refs_of r)%list
  | TLit fs =>
      flat_map (fun b => match b_type b with
                         | Some u => refs_of u
                         | None => []
                         end) fs
  | TIndex x i => (refs_of x ++ refs_of i)%list
  | _ => []
  end.

Definition opt_refs (o : option ty) : list string :=
  match o with
  | Some t => refs_of t
  | None => []
  end.

Definition binder_refs (b : binder ty) : list string := opt_refs (b_type b).

Definition tparam_name (p : tparam) : string :=
  match p with
  | TParam n _ => n
  end.

Definition tparam_refs (p : tparam) : list string :=
  match p with
  | TParam _ c => opt_refs c
  end.

(** The names of [names] that [bound] does not bind. *)
Definition remove_all (bound names : list string) : list string :=
  filter (fun n => negb (mem n bound)) names.

(** The names a signature uses, its own type parameters aside. *)
Definition sig_refs (s : signature) : list string :=
  remove_all (map tparam_name (s_tparams s))
    (flat_map tparam_refs (s_tparams s)
     ++ flat_map binder_refs (s_params s) ++ opt_refs (s_ret s))%list.

Definition member_refs (m : member) : list string :=
  match m with
  | MProperty b _ => binder_refs b
  | MMethod _ _ s => sig_refs s
  | MConstructor ps _ => flat_map binder_refs ps
  end.

(** The names a declaration uses, its own type parameters aside. *)
Definition decl_refs (d : decl) : list string :=
  match d with
  | DFunction _ _ s => sig_refs s
  | DVariable _ _ _ t _ => opt_refs t
  | DTypeAlias _ _ t => refs_of t
  | DInterface _ _ es ms =>
      (flat_map refs_of es ++ flat_map member_refs ms)%list
  | DClass _ _ _ tps e im ms =>
      remove_all (map tparam_name tps)
        (flat_map tparam_refs tps ++ opt_refs e ++ flat_map refs_of im
         ++ flat_map member_refs ms)%list
  | _ => []
  end.

Definition type_name (d : decl) : list string :=
  match d with
  | DTypeAlias _ n _ | DInterface _ n _ _ | DClass _ _ n _ _ _ _
  | DEnum _ n _ => [n]
  | _ => []
  end.

(** The type names a file declares: at top level, and as [NS.Name] inside
    the namespace [NS]. *)
Definition declared_types (f : list decl) : list string :=
  (flat_map type_name f
   ++ flat_map (fun d => match d with
                         | DNamespace _ ns ds =>
                             map (fun n => (ns ++ "." ++ n)%string)
                                 (flat_map type_name ds)
                         | _ => []
                         end) f)%list.

(** The types of the DOM and of the language that the files rely on. *)
Definition ambient_types : list string :=
  [ "Element"; "HTMLElement"; "Event"; "Error"; "Date"; "Function" ].

Definition resolves (f : list decl) (n : string) : bool :=
  mem n (declared_types f) || mem n ambient_types.

Definition file_resolves (f : list decl) : bool :=
  forallb (fun d => forallb (resolves f) (decl_refs d)) (all_decls f).

(** ** Parameter lists *)

(** No required parameter after an optional one. *)
Fixpoint required_first (ps : list param) : bool :=
  match ps with
  | [] => true
  | p :: ps' =>
      if b_optional p then forallb (fun q => b_optional q) ps'
      else required_first ps'
  end.

(** The parameter list of every function type inside a type. *)
Fixpoint fun_params (t : ty) : list (list param) :=
  match t with
  | TRef _ args => flat_map fun_params args
  | TArray x | TKeyof x => fun_params x
  | TTuple xs | TUnion xs => flat_map fun_params xs
  | TFun ps r =>
      ps :: (flat_map (fun b => match b_type b with
                                | Some u => fun_params u
                                | None => []
                                end) ps ++ fun_params r)%list
  | TLit fs =>
      flat_map (fun b => match b_type b with
                         | Some u => fun_params u
                         | None => []
                         end) fs
  | TIndex x i => (fun_params x ++ fun_params i)%list
  | _ => []
  end.

Definition opt_fun_params (o : option ty) : list (list param) :=
  match o with
  | Some t => fun_params t
  | None => []
  end.

Definition params_lists (ps : list param) : list (list param) :=
  ps :: flat_map (fun b => opt_fun_params (b_type b)) ps.

Definition sig_param_lists (s : signature) : list (list param) :=
  (params_lists (s_params s) ++ opt_fun_params (s_ret s))%list.

Definition member_param_lists (m : member) : list (list param) :=
  match m with
  | MProperty b _ => opt_fun_params (b_type b)
  | MMethod _ _ s => sig_param_lists s
  | MConstructor ps _ => params_lists ps
  end.

(** Every parameter list a declaration writes, at any depth. *)
Definition decl_param_lists (d : decl) : list (list param) :=
  match d with
  | DFunction _ _ s => sig_param_lists s
  | DVariable _ _ _ t _ => opt_fun_params t
  | DTypeAlias _ _ t => fun_params t
  | _ => flat_map member_param_lists (decl_members d)
  end.

(** ** Member names and enum values *)

(** The name a member is reached by; constructors have none. *)
Definition member_name (m : member) : list string :=
  match m with
  | MProperty b _ => [b_name b]
  | MMethod n _ _ => [n]
  | MConstructor _ _ => []
  end.

Definition member_names (ms : list member) : list string :=
  flat_map member_name ms.

Section Distinct.
Context {A : Type}.
Variable eqb : A -> A -> bool.

Fixpoint distinctb (l : list A) : bool :=
  match l with
  | [] => true
  | x :: l' => negb (existsb (eqb x) l') && distinctb l'
  end.

End Distinct.

Definition enum_name (e : enum_member) : string :=
  match e with
  | EnumMember n _ => n
  end.

Definition enum_value (e : enum_member) : option enum_init :=
  match e with
  | EnumMember _ i => i
  end.

Definition init_eqb (a b : enum_init) : bool :=
  match a, b with
  | INum x, INum y => Z.eqb x y
  | IStr x, IStr y => String.eqb x y
  | IComputed x, IComputed y => String.eqb x y
  | _, _ => false
  end.

Definition is_num_member (e : enum_member) : bool :=
  match enum_value e with
  | Some (INum _) => true
  | _ => false
  end.

Definition is_str_member (e : enum_member) : bool :=
  match enum_value e with
  | Some (IStr _) => true
  | _ => false
  end.

(** Members named apart, valued apart, and all numbers or all strings. *)
Definition enum_ok (es : list enum_member) : bool :=
  distinctb String.eqb (map enum_name es)
  && distinctb (opt_cmp true init_eqb) (map enum_value es)
  && (forallb is_num_member es || forallb is_str_member es).

(** The enums written without [declare], at any depth. *)
Definition plain_enums (f : list decl) : list (string * list enum_member) :=
  flat_map (fun d => match d with
                     | DEnum (Mods _ false) n es => [(n, es)]
                     | _ => []
                     end) (all_decls f).

Definition value_is_name (e : enum_member) : bool :=
  match e with
  | EnumMember n (Some (IStr s)) => s =? n
  | _ => true
  end.

(** ** Inheritance *)

Definition ref_name (t : ty) : option string :=
  match t with
  | TRef n _ => Some n
  | _ => None
  end.

(** The [extends] clause of class [c]. *)
Fixpoint class_parent (f : list decl) (c : string) : option ty :=
  match f with
  | [] => None
  | DClass _ _ n _ e _ _ :: f' => if n =? c then e else class_parent f' c
  | _ :: f' => class_parent f' c
  end.

(** The chain of classes above [c], nearest first; [None] when the chain
    is longer than [fuel] or a class extends something that is no name. *)
Fixpoint ancestors (fuel : nat) (f : list decl) (c : string)
  : option (list string) :=
  match class_parent f c with
  | None => Some []
  | Some t =>
      match ref_name t, fuel with
      | Some p, S k => option_map (cons p) (ancestors k f p)
      | _, _ => None
      end
  end.

Definition own_names (f : list decl) (c : string) : list string :=
  match find_class f c with
  | Some ms => member_names ms
  | None => []
  end.

Definition is_constructor (m : member) : bool :=
  match m with
  | MConstructor _ _ => true
  | _ => false
  end.

(** The members of class [c], its own first, then those it inherits
    (constructors are not inherited as members). *)
Fixpoint class_surface (fuel : nat) (f : list decl) (c : string)
  : list member :=
  match find_class f c with
  | None => []
  | Some ms =>
      (ms ++ match fuel, class_parent f c with
             | S k, Some (TRef p _) =>
                 filter (fun m => negb (is_constructor m))
                        (class_surface k f p)
             | _, _ => []
             end)%list
  end.

Definition parent_interface_members (f : list decl) (e : ty) : list member :=
  match e with
  | TRef p _ => match find_interface f p with
                | Some ms => ms
                | None => []
                end
  | _ => []
  end.

(** The members of interface [i], its own first, then those of the
    interfaces it extends. *)
Definition iface_surface (f : list decl) (i : string) : list member :=
  match find_interface f i with
  | None => []
  | Some ms =>
      (ms ++ flat_map (parent_interface_members f) (interface_extends f i))%list
  end.

Definition props_of (ms : list member) : list (string * option ty) :=
  flat_map (fun m => match m with
                     | MProperty b _ => [(b_name b, b_type b)]
                     | _ => []
                     end) ms.

Fixpoint lookup_first {V : Type} (n : string) (l : list (string * V))
  : option V :=
  match l with
  | [] => None
  | (k, v) :: l' => if k =? n then Some v else lookup_first n l'
  end.

(** The annotation of the property [n], first declaration first. *)
Definition prop_type (ms : list member) (n : string) : option (option ty) :=
  lookup_first n (props_of ms).

(** A class redeclares nothing an ancestor declares. *)
Definition shadows (f : list decl) (c : string) : list string :=
  match ancestors 3 f c with
  | Some anc =>
      filter (fun n => existsb (fun a => mem n (own_names f a)) anc)
             (own_names f c)
  | None => []
  end.

(** A property redeclared by an extending interface is assignable to the
    one it replaces. *)
Definition override_ok (f : list decl) (pms : list member) (m : member)
  : bool :=
  match m with
  | MProperty b _ =>
      match prop_type pms (b_name b) with
      | Some (Some pt) => match b_type b with
                          | Some t => assignable f t pt
                          | None => false
                          end
      | _ => true
      end
  | _ => true
  end.

Definition extends_ok (f : list decl) (ms : list member) (e : ty) : bool :=
  match e with
  | TRef p _ => match find_interface f p with
                | Some pms => forallb (override_ok f pms) ms
                | None => false
                end
  | _ => false
  end.

Definition interfaces_of (f : list decl)
  : list (string * list ty * list member) :=
  flat_map (fun d => match d with
                     | DInterface _ n es ms => [(n, es, ms)]
                     | _ => []
                     end) f.

(** ** Methods that go together *)

(** [strip_prefix p s] is what follows [p] in [s]. *)
Fixpoint strip_prefix (p s : string) : option string :=
  match p, s with
  | EmptyString, _ => Some s
  | String a p', String b s' =>
      if Ascii.eqb a b then strip_prefix p' s' else None
  | _, _ => None
  end.

(** [strip_suffix suf s] is what precedes [suf] in [s]. *)
Fixpoint strip_suffix (suf s : string) : option string :=
  if s =? suf then Some EmptyString
  else match s with
       | String a r => option_map (String a) (strip_suffix suf r)
       | EmptyString => None
       end.

(** [Center] to [center]. *)
Definition lower_first (s : string) : string :=
  match s with
  | String a r =>
      let n := Ascii.nat_of_ascii a in
      String (if Nat.leb 65 n && Nat.leb n 90
              then Ascii.ascii_of_nat (n + 32) else a) r
  | EmptyString => EmptyString
  end.

Definition methods_of (ms : list member) : list (string * signature) :=
  flat_map (fun m => match m with
                     | MMethod n _ s => [(n, s)]
                     | _ => []
                     end) ms.

Definition top_functions (f : list decl) : list (string * signature) :=
  flat_map (fun d => match d with
                     | DFunction _ n s => [(n, s)]
                     | _ => []
                     end) f.

(** The groups of operations of a file: its top-level functions, and the
    methods of each class and interface. *)
Definition operation_groups (f : list decl)
  : list (list (string * signature)) :=
  top_functions f :: map (fun d => methods_of (decl_members d)) (all_decls f).

(** The same signature, whatever the parameters are called. *)
Definition param_same (a b : param) : bool :=
  Bool.eqb (b_optional a) (b_optional b)
  && opt_cmp true ty_eqb (b_type a) (b_type b).

Definition sig_same (a b : signature) : bool :=
  forall2b tparam_eqb (s_tparams a) (s_tparams b)
  && forall2b param_same (s_params a) (s_params b)
  && opt_cmp true ty_eqb (s_ret a) (s_ret b).

Definition has_twin (ms : list (string * signature)) (n : string)
  (s : signature) : bool :=
  existsb (fun x => (fst x =? n) && sig_same s (snd x)) ms.

(** Each [addX] has a [removeX] of the same signature, and conversely. *)
Definition add_remove_ok (ms : list (string * signature))
  (x : string * signature) : bool :=
  match strip_prefix "add" (fst x) with
  | Some r => has_twin ms ("remove" ++ r) (snd x)
  | None => true
  end
  && match strip_prefix "remove" (fst x) with
     | Some r => has_twin ms ("add" ++ r) (snd x)
     | None => true
     end.

(** [b] takes an array of what [a] takes. *)
Definition array_of (a b : param) : bool :=
  match b_type a, b_type b with
  | Some t, Some u => ty_eqb (TArray t) u
  | _, _ => false
  end.

(** [many] is [one] over arrays: parameters and result. *)
Definition plural_of (one many : signature) : bool :=
  forall2b array_of (s_params one) (s_params many)
  && opt_cmp true ty_eqb (option_map TArray (s_ret one)) (s_ret many).

Definition plural_ok (ms : list (string * signature))
  (x : string * signature) : bool :=
  forallb (fun y => if fst y =? fst x ++ "s"
                    then plural_of (snd x) (snd y) else true) ms.

(** [setCenterAnimated] sets [center]. *)
Definition setter_target (n : string) : option string :=
  match strip_prefix "set" n with
  | Some r => option_map lower_first (strip_suffix "Animated" r)
  | None => None
  end.

(** [setXAnimated(x: T, animate?: boolean): C] in class [C] with
    property [x: T]. *)
Definition setter_ok (c : string) (ms : list member)
  (x : string * signature) : bool :=
  match setter_target (fst x) with
  | Some p =>
      match s_params (snd x), prop_type ms p, s_ret (snd x) with
      | [Binder _ false (Some t); Binder a true (Some TBoolean)],
        Some (Some u), Some r =>
          ty_eqb t u && (a =? "animate") && ty_eqb r (ref c)
      | _, _, _ => false
      end
  | None => true
  end.

Definition classes_of (f : list decl) : list (string * list member) :=
  flat_map (fun d => match d with
                     | DClass _ _ n _ _ _ ms => [(n, ms)]
                     | _ => []
                     end) f.

(** A member called [copy] yields the class itself; [equals] compares with
    one value of the class and answers a boolean. *)
Definition copy_equals_ok (c : string) (m : member) : bool :=
  match m with
  | MProperty b _ =>
      if b_name b =? "copy" then opt_cmp true ty_eqb (b_type b) (Some (ref c))
      else true
  | MMethod n _ s =>
      if n =? "copy" then
        match s_params s, s_ret s with
        | [], Some t => ty_eqb t (ref c)
        | _, _ => false
        end
      else if n =? "equals" then
        match s_params s, s_ret s with
        | [Binder _ false (Some t)], Some TBoolean => ty_eqb t (ref c)
        | _, _ => false
        end
      else true
  | MConstructor _ _ => true
  end.

(** The conversions a file declares: the methods [toX(): R] without
    parameters, as (class, method, result class). *)
Definition conversions_of (f : list decl) : list (string * string * string) :=
  flat_map (fun cm =>
    flat_map (fun x => match strip_prefix "to" (fst x), s_params (snd x),
                             s_ret (snd x) with
                       | Some _, [], Some (TRef r []) => [(fst cm, fst x, r)]
                       | _, _, _ => []
                       end) (methods_of (snd cm))) (classes_of f).

Definition has_inverse (cs : list (string * string * string))
  (x : string * string * string) : bool :=
  existsb (fun y => (fst (fst y) =? snd x) && (snd y =? fst (fst x))) cs.

(** ** From one revision to the next *)

Definition rename_name (a b n : string) : string := if n =? a then b else n.

(** [t] with the type name [a] written [b]. *)
Fixpoint rename_ty (a b : string) (t : ty) : ty :=
  match t with
  | TRef n args => TRef (rename_name a b n) (map (rename_ty a b) args)
  | TArray x => TArray (rename_ty a b x)
  | TTuple xs => TTuple (map (rename_ty a b) xs)
  | TUnion xs => TUnion (map (rename_ty a b) xs)
  | TFun ps r =>
      TFun (map (fun p => Binder (b_name p) (b_optional p)
                            (option_map (rename_ty a b) (b_type p))) ps)
           (rename_ty a b r)
  | TLit fs =>
      TLit (map (fun p => Binder (b_name p) (b_optional p)
                            (option_map (rename_ty a b) (b_type p))) fs)
  | TKeyof x => TKeyof (rename_ty a b x)
  | TIndex x i => TIndex (rename_ty a b x) (rename_ty a b i)
  | _ => t
  end.

Definition rename_binder (a b : string) (p : binder ty) : binder ty :=
  Binder (b_name p) (b_optional p) (option_map (rename_ty a b) (b_type p)).

Definition rename_tparam (a b : string) (p : tparam) : tparam :=
  match p with
  | TParam n c => TParam n (option_map (rename_ty a b) c)
  end.

Definition rename_sig (a b : string) (s : signature) : signature :=
  Sig (map (rename_tparam a b) (s_tparams s))
      (map (rename_binder a b) (s_params s))
      (option_map (rename_ty a b) (s_ret s)) (s_body s).

Definition rename_member (a b : string) (m : member) : member :=
  match m with
  | MProperty p i => MProperty (rename_binder a b p) i
  | MMethod n o s => MMethod n o (rename_sig a b s)
  | MConstructor ps x => MConstructor (map (rename_binder a b) ps) x
  end.

(** The members of [old] that [new] does not keep, once [a] is written [b]. *)
Definition not_kept (a b : string) (old new : list member) : list member :=
  filter (fun m => negb (existsb (member_le (rename_member a b m)) new)) old.

(** ** Events *)

(** The event map of class [c]: the interface [E] of the nearest
    [MapKitEvented<E>] above it. *)
Fixpoint event_map (fuel : nat) (f : list decl) (c : string) : option string :=
  match class_parent f c with
  | Some (TRef p args) =>
      if p =? "MapKitEvented" then
        match args with
        | [TRef e []] => Some e
        | _ => None
        end
      else match fuel with
           | S k => event_map k f p
           | O => None
           end
  | _ => None
  end.

(** The type of the event that [c] hands to a listener of [k]. *)
Definition event_type (f : list decl) (c k : string) : option (option ty) :=
  match event_map 3 f c with
  | Some e => prop_type (iface_surface f e) k
  | None => None
  end.

(** The classes of the things put on a map: [Annotation], [Overlay] and
    the classes below them. *)
Definition is_item_class (f : list decl) (c : string) : bool :=
  match ancestors 3 f c with
  | Some anc => mem "Annotation" (c :: anc) || mem "Overlay" (c :: anc)
  | None => false
  end.

Definition listenable_on_map (f : list decl) (c k : string) : bool :=
  match event_type f c k, event_type f "Map" k with
  | Some (Some t), Some (Some u) => assignable f t u
  | None, _ => true
  | _, _ => false
  end.

Definition event_keys (f : list decl) (c : string) : list string :=
  match event_map 3 f c with
  | Some e => map fst (props_of (iface_surface f e))
  | None => []
  end.

(** ** Options and properties *)

Fixpoint first_interface_name (f : list decl) (ts : list ty) : option string :=
  match ts with
  | [] => None
  | TRef n [] :: ts' =>
      match find_interface f n with
      | Some _ => Some n
      | None => first_interface_name f ts'
      end
  | _ :: ts' => first_interface_name f ts'
  end.

(** The interface of the trailing [options] parameter of a constructor. *)
Definition options_interface (f : list decl) (ps : list param)
  : option string :=
  match rev ps with
  | p :: _ =>
      if b_name p =? "options" then
        match b_type p with
        | Some t => first_interface_name f (alternatives t)
        | None => None
        end
      else None
  | [] => None
  end.

(** The option fields of class [c] that are not among its properties. *)
Definition unmirrored (f : list decl) (c : string) : list string :=
  match class_constructors f c with
  | Some cs =>
      flat_map (fun ps =>
        match options_interface f ps with
        | Some i =>
            filter (fun n => negb (mem n (map fst (props_of (class_surface 3 f c)))))
                   (map fst (props_of (iface_surface f i)))
        | None => []
        end) cs
  | None => []
  end.

(** ** Picking a declaration *)

(** The declaration at position [i] of a file, counting from 0. *)
Definition decl_at (f : list decl) (i : nat) : decl :=
  nth i f (DExportAsNamespace "").

Definition file_required_first (f : list decl) : bool :=
  forallb required_first (flat_map decl_param_lists (all_decls f)).

Definition file_members_distinct (f : list decl) : bool :=
  forallb (fun d => distinctb String.eqb (member_names (decl_members d)))
          (all_decls f).

(** The chain above [c] ends, repeats no class, and leaves the file only
    for [Event]. *)
Definition hierarchy_ok (f : list decl) (c : string) : bool :=
  match ancestors 3 f c with
  | Some chain =>
      distinctb String.eqb (c :: chain)
      && forallb (fun p => mem p (class_names f) || (p =? "Event")) chain
  | None => false
  end.

(** Two signatures with the same parameter types, [?] marks and result. *)
Definition same_types (a b : signature) : Prop :=
  map b_type (s_params a) = map b_type (s_params b)
  /\ map b_optional (s_params a) = map b_optional (s_params b)
  /\ s_ret a = s_ret b.

(** [b] is declared with the type of arrays of the type of [a]. *)
Definition takes_array_of (a b : param) : Prop :=
  exists t, b_type a = Some t /\ b_type b = Some (TArray t).

(** [m] is a conversion of class [c] to class [r]: a method [toX(): r]
    without parameters. *)
Definition converts (f : list decl) (c m r : string) : Prop :=
  exists ms s,
    In (c, ms) (classes_of f) /\ In (m, s) (methods_of ms)
    /\ strip_prefix "to" m <> None
    /\ s_params s = [] /\ s_ret s = Some (ref r).

(** A declaration that is neither a class nor an interface. *)
Definition is_plain_decl (d : decl) : bool :=
  match d with
  | DClass _ _ _ _ _ _ _ | DInterface _ _ _ _ => false
  | _ => true
  end.

(** The class [c] of [old] is a class of [new] that loses no member name,
    inherited names included. *)
Definition class_names_kept (old new : list decl) (c : string) : bool :=
  mem c (class_names new)
  && forallb (fun n => mem n (member_names (class_surface 3 new c)))
             (member_names (class_surface 3 old c)).

Definition interface_names_kept (old new : list decl) (i : string) : bool :=
  mem i (interface_names new)
  && forallb (fun n => mem n (member_names (iface_surface new i)))
             (member_names (iface_surface old i)).

(** The one type that part_001 writes under another name than part_000. *)
Definition renamed_from : string := "_DisplayAsset".
Definition renamed_to : string := "DisplayAsset".

(** The positions of a file that hold neither a class nor an interface. *)
Definition plain_positions (f : list decl) : list nat :=
  filter (fun i => is_plain_decl (decl_at f i)) (seq 0 (length f)).

(** Every event of an item class can be listened to on the map. *)
Definition item_events_ok (f : list decl) (c : string) : bool :=
  negb (is_item_class f c) || forallb (listenable_on_map f c) (event_keys f c).

(** A class without properties, or whose option fields are all among its
    properties. *)
Definition options_mirrored (f : list decl) (c : string) : bool :=
  is_none (hd_error (props_of (class_surface 3 f c)))
  || is_none (hd_error (unmirrored f c)).

(** * Properties *)

(** ** Induction on types

    [ty] is nested in [list] and [binder]; the induction principle hands the
    hypothesis down to every type inside the lists. *)

Lemma ty_ind_nested (P : ty -> Prop) :
  P TNumber -> P TString -> P TBoolean -> P TVoid -> P TAny -> P TNull ->
  P TObjectKw ->
  (forall n args, Forall P args -> P (TRef n args)) ->
  (forall x, P x -> P (TArray x)) ->
  (forall xs, Forall P xs -> P (TTuple xs)) ->
  (forall xs, Forall P xs -> P (TUnion xs)) ->
  (forall ps r, Forall (binder_all P) ps -> P r -> P (TFun ps r)) ->
  (forall fs, Forall (binder_all P) fs -> P (TLit fs)) ->
  (forall x, P x -> P (TKeyof x)) ->
  (forall x i, P x -> P i -> P (TIndex x i)) ->
  forall t, P t.
Proof.
  intros Hnum Hstr Hbool Hvoid Hany Hnull Hobj Href Harr Htup Huni Hfun Hlit
         Hkey Hidx.
  fix IH 1.
  intros [ | | | | | | | n args | x | xs | xs | ps r | fs | x | x i ].
  1-7: assumption.
  - apply Href. revert args. fix IHl 1.
    intros [|x l]; constructor; [apply IH | apply IHl].
  - apply Harr, IH.
  - apply Htup. revert xs. fix IHl 1.
    intros [|x l]; constructor; [apply IH | apply IHl].
  - apply Huni. revert xs. fix IHl 1.
    intros [|x l]; constructor; [apply IH | apply IHl].
  - apply Hfun; [| apply IH]. revert ps. fix IHl 1.
    intros [|[n o [u|]] l]; constructor; try apply IHl;
      unfold binder_all; simpl; [apply IH | exact I].
  - apply Hlit. revert fs. fix IHl 1.
    intros [|[n o [u|]] l]; constructor; try apply IHl;
      unfold binder_all; simpl; [apply IH | exact I].
  - apply Hkey, IH.
  - apply Hidx; apply IH.
Qed.

(** ** Comparison of types *)

Lemma forall2b_refl {A : Type} (p : A -> A -> bool) (xs : list A) :
  Forall (fun x => p x x = true) xs -> forall2b p xs xs = true.
Proof.
  induction 1 as [|x xs Hx _ IH]; simpl; [reflexivity |].
  now rewrite Hx, IH.
Qed.

Lemma forall2b_eq {A : Type} (p : A -> A -> bool) (xs : list A) :
  Forall (fun x => forall y, p x y = true -> x = y) xs ->
  forall ys, forall2b p xs ys = true -> xs = ys.
Proof.
  induction 1 as [|x xs Hx _ IH]; intros [|y ys] H; simpl in H;
    try discriminate; [reflexivity |].
  apply andb_true_iff in H as [Hxy Hrest].
  f_equal; [apply Hx, Hxy | apply IH, Hrest].
Qed.

Lemma binder_cmp_refl (strict : bool) (cmp : ty -> ty -> bool) (b : binder ty) :
  binder_all (fun t => cmp t t = true) b -> binder_cmp strict cmp b b = true.
Proof.
  destruct b as [n o [u|]]; unfold binder_all, binder_cmp; simpl; intros H;
    rewrite String.eqb_refl, Bool.eqb_reflx; simpl; auto.
Qed.

Lemma ty_cmp_refl (strict : bool) (t : ty) : ty_cmp strict t t = true.
Proof.
  induction t as [ | | | | | | | n args IH | x IH | xs IH | xs IH
                 | ps r IHps IHr | fs IH | x IH | x i IHx IHi ]
    using ty_ind_nested; simpl; try reflexivity.
  - rewrite String.eqb_refl. now apply forall2b_refl.
  - exact IH.
  - now apply forall2b_refl.
  - now apply forall2b_refl.
  - rewrite IHr, andb_true_r. apply forall2b_refl.
    eapply Forall_impl; [| exact IHps]. apply binder_cmp_refl.
  - apply forall2b_refl.
    eapply Forall_impl; [| exact IH]. apply binder_cmp_refl.
  - exact IH.
  - now rewrite IHx, IHi.
Qed.

Lemma binder_cmp_eq (strict : bool) (cmp : ty -> ty -> bool) (b c : binder ty) :
  binder_all (fun t => forall u, cmp t u = true -> t = u) b ->
  (strict = true \/ b_type b <> None) ->
  binder_cmp strict cmp b c = true -> b = c.
Proof.
  destruct b as [n o t], c as [m q u]; unfold binder_all, binder_cmp; simpl.
  intros Ht Hs H.
  apply andb_true_iff in H as [H Hty]. apply andb_true_iff in H as [Hn Ho].
  apply String.eqb_eq in Hn. apply Bool.eqb_prop in Ho. subst m q.
  destruct t as [t|], u as [u|]; simpl in Hty; try discriminate.
  - now rewrite (Ht u Hty).
  - destruct Hs as [-> | Hs]; [discriminate | now elim Hs].
  - reflexivity.
Qed.

Lemma Forall_decisive (strict : bool) (Q : ty -> Prop) (xs : list ty) :
  Forall (fun a => decisive strict a = true -> Q a) xs ->
  strict || forallb annotated xs = true -> Forall Q xs.
Proof.
  unfold decisive.
  induction 1 as [|x xs Hx _ IH]; simpl; intros Hd; constructor.
  - apply Hx. destruct strict; [reflexivity |]. simpl in *.
    now apply andb_true_iff in Hd as [-> _].
  - apply IH. destruct strict; [reflexivity |]. simpl in *.
    now apply andb_true_iff in Hd as [_ ->].
Qed.

Lemma Forall_decisive_binders (strict : bool) (Q : ty -> Prop)
  (ps : list (binder ty)) :
  Forall (binder_all (fun a => decisive strict a = true -> Q a)) ps ->
  strict || forallb (fun b => match b_type b with
                              | Some u => annotated u
                              | None => false
                              end) ps = true ->
  Forall (fun b => binder_all Q b /\ (strict = true \/ b_type b <> None)) ps.
Proof.
  unfold decisive.
  induction 1 as [|[n o t] ps Hp _ IH]; simpl; intros Hd; constructor.
  - unfold binder_all in *; simpl in *.
    destruct strict; simpl in *.
    + split; [| now left]. destruct t; auto.
    + apply andb_true_iff in Hd as [Ht _].
      destruct t as [t|]; [| discriminate]. split; [auto | now right].
  - apply IH. destruct strict; [reflexivity |]. simpl in *.
    now apply andb_true_iff in Hd as [_ ->].
Qed.

Lemma forall2b_binders_eq (strict : bool) (ps qs : list (binder ty)) :
  Forall (fun b => binder_all (fun t => forall u, ty_cmp strict t u = true -> t = u) b
                   /\ (strict = true \/ b_type b <> None)) ps ->
  forall2b (binder_cmp strict (ty_cmp strict)) ps qs = true -> ps = qs.
Proof.
  intros H. apply forall2b_eq.
  eapply Forall_impl; [| exact H].
  intros b [Hb Hs] c. now apply binder_cmp_eq.
Qed.

Lemma ty_cmp_eq (strict : bool) (a : ty) :
  decisive strict a = true -> forall b, ty_cmp strict a b = true -> a = b.
Proof.
  induction a as [ | | | | | | | n args IH | x IH | xs IH | xs IH
                 | ps r IHps IHr | fs IH | x IH | x i IHx IHi ]
    using ty_ind_nested; intros Hd b Hc; destruct b; simpl in Hc;
    try discriminate; try reflexivity; unfold decisive in Hd; simpl in Hd.
  - apply andb_true_iff in Hc as [Hn Hargs]. apply String.eqb_eq in Hn.
    subst. f_equal.
    eapply forall2b_eq; [| exact Hargs]. now apply (Forall_decisive strict).
  - f_equal. now apply IH.
  - f_equal. eapply forall2b_eq; [| exact Hc]. now apply (Forall_decisive strict).
  - f_equal. eapply forall2b_eq; [| exact Hc]. now apply (Forall_decisive strict).
  - apply andb_true_iff in Hc as [Hps Hr].
    assert (Hd' : strict || forallb (fun b => match b_type b with
                                              | Some u => annotated u
                                              | None => false
                                              end) ps = true
                  /\ decisive strict r = true).
    { unfold decisive. destruct strict; [now split |]. simpl in *.
      now apply andb_true_iff in Hd. }
    destruct Hd' as [Hdps Hdr].
    f_equal; [| now apply IHr].
    eapply forall2b_binders_eq; [| exact Hps].
    now apply Forall_decisive_binders.
  - f_equal. eapply forall2b_binders_eq; [| exact Hc].
    now apply Forall_decisive_binders.
  - f_equal. now apply IH.
  - apply andb_true_iff in Hc as [Hx Hi].
    assert (Hd' : decisive strict x = true /\ decisive strict i = true).
    { unfold decisive. destruct strict; [now split |]. simpl in *.
      now apply andb_true_iff in Hd. }
    destruct Hd' as [Hdx Hdi].
    f_equal; [now apply IHx | now apply IHi].
Qed.

Lemma ty_eqb_eq (a b : ty) : ty_eqb a b = true <-> a = b.
Proof.
  split.
  - now apply ty_cmp_eq.
  - intros <-. apply ty_cmp_refl.
Qed.

Lemma ty_le_refl (a : ty) : ty_le a a = true.
Proof. apply ty_cmp_refl. Qed.

(** On a type with every annotation, [ty_le] is equality: the order only
    gives way where the older declaration wrote no annotation. *)
Lemma ty_le_annotated (a b : ty) :
  annotated a = true -> ty_le a b = true -> a = b.
Proof. intros Ha. now apply ty_cmp_eq. Qed.

(** A later revision may add an annotation where the earlier had none. *)
Example ty_le_adds_annotation :
  ty_le (TFun [untyped "error"; req "data" (ref "GeocodeResponse")] TVoid)
        (TFun [req "error" (ref "MapKitError"); req "data" (ref "GeocodeResponse")]
              TVoid) = true
  /\ ty_le (TFun [req "error" (ref "MapKitError")] TVoid)
           (TFun [untyped "error"] TVoid) = false
  /\ ty_le TNumber TBoolean = false.
Proof. repeat split. Qed.

Lemma assignable_refl (f : list decl) (t : ty) : assignable f t t = true.
Proof.
  destruct t; simpl; unfold ty_eqb; rewrite ?ty_cmp_refl; reflexivity.
Qed.

(** ** The files of the repository *)

Lemma files_cases (P : list decl -> Prop) :
  P mapkit_d_ts -> P part_000 -> P part_001 -> forall f, In f files -> P f.
Proof.
  intros H0 H1 H2 f [<- | [<- | [<- | []]]]; assumption.
Qed.

(** Case analysis on a file [f] known by [Hf : In f files]. *)
Ltac by_file f Hf :=
  pattern f; revert f Hf; apply files_cases; cbv beta.

(** A conjunction of closed equations, each settled by evaluation. *)
Ltac evaluate :=
  repeat match goal with
         | |- _ /\ _ => split
         end;
  vm_compute; reflexivity.

(** No file declares a class, an interface or a function twice, so looking
    a name up by its first declaration loses nothing. *)
Lemma declared_once :
  forall f, In f files ->
    NoDup (class_names f) /\ NoDup (interface_names f)
    /\ NoDup (function_names f).
Proof.
  apply files_cases; repeat split;
    apply (NoDup_count_occ' string_dec); intros x Hx;
    vm_compute in Hx;
    repeat (destruct Hx as [<- | Hx]; [vm_compute; reflexivity |]);
    destruct Hx.
Qed.

(** ** Opening namespaces *)

Lemma decl_ind_nested (P : decl -> Prop) :
  (forall d, (forall m n ds, d = DNamespace m n ds -> Forall P ds) -> P d) ->
  forall d, P d.
Proof.
  intros H. fix IH 1.
  intros [ n | m n s | m k n t i | m n t | m n es ms | m a n tps e im ms
         | m n es | m n ds ];
    apply H; intros m' n' ds' Heq; try discriminate.
  injection Heq as <- <- <-.
  revert ds. fix IHl 1.
  intros [|x l]; constructor; [apply IH | apply IHl].
Qed.

Lemma decl_closure_self (d : decl) : In d (decl_closure d).
Proof. destruct d; left; reflexivity. Qed.

Lemma decl_closure_namespace m n ds d :
  In d ds -> In d (decl_closure (DNamespace m n ds)).
Proof.
  intros Hd. simpl. right. apply in_flat_map.
  exists d. split; [assumption | apply decl_closure_self].
Qed.

Lemma decl_closure_trans (d x y : decl) :
  In x (decl_closure d) -> In y (decl_closure x) -> In y (decl_closure d).
Proof.
  revert x y. induction d as [d IH] using decl_ind_nested. intros x y Hx Hy.
  destruct d; simpl in Hx;
    try (destruct Hx as [<- | []]; exact Hy).
  destruct Hx as [<- | Hx]; [exact Hy |].
  apply in_flat_map in Hx as [d' [Hd' Hx]].
  simpl. right. apply in_flat_map. exists d'. split; [assumption |].
  specialize (IH _ _ _ eq_refl). rewrite Forall_forall in IH.
  exact (IH d' Hd' x y Hx Hy).
Qed.

(** [all_decls] reaches every declaration: those of the file, and those of
    every namespace it reaches. *)
Lemma all_decls_top (f : list decl) (d : decl) :
  In d f -> In d (all_decls f).
Proof.
  intros Hd. apply in_flat_map. exists d.
  split; [assumption | apply decl_closure_self].
Qed.

Lemma all_decls_nested (f : list decl) m n ds d :
  In (DNamespace m n ds) (all_decls f) -> In d ds -> In d (all_decls f).
Proof.
  intros Hns Hd. apply in_flat_map in Hns as [top [Htop Hns]].
  apply in_flat_map. exists top. split; [assumption |].
  eapply decl_closure_trans; [exact Hns |].
  now apply decl_closure_namespace.
Qed.

(** ** Declarations without definitions *)

Lemma is_none_true {A : Type} (o : option A) : is_none o = true <-> o = None.
Proof. destruct o; simpl; split; congruence. Qed.

Lemma enum_member_constant_spec (e : enum_member) :
  enum_member_constant e = true <->
  forall n x, e <> EnumMember n (Some (IComputed x)).
Proof.
  destruct e as [n [[z | s | x] |]]; simpl; split; try congruence;
    intros H; try reflexivity.
  now elim (H n x).
Qed.

Lemma decl_is_shape_spec (d : decl) :
  decl_is_shape d = true <->
  decl_body d = None
  /\ (forall m, In m (decl_members d) -> member_body m = None)
  /\ (forall e, In e (decl_enum_members d) ->
      forall n x, e <> EnumMember n (Some (IComputed x))).
Proof.
  unfold decl_is_shape. rewrite !andb_true_iff, !forallb_forall.
  split.
  - intros [[Hb Hm] He]. repeat split.
    + now apply is_none_true.
    + intros m Hin. apply is_none_true, Hm, Hin.
    + intros e Hin. apply enum_member_constant_spec, He, Hin.
  - intros [Hb [Hm He]]. repeat split.
    + now apply is_none_true.
    + intros m Hin. apply is_none_true, Hm, Hin.
    + intros e Hin. apply enum_member_constant_spec, He, Hin.
Qed.

(** The check is not idle: a function with a body, a method with a body
    and a computed enum member are each refused. *)
Example decl_is_shape_refuses :
  decl_is_shape (DFunction (Mods true false) "f"
                   (Sig [] [] (Some TNumber) (Some "return 1"))) = false
  /\ decl_is_shape (DClass (Mods true false) false "C" [] None []
                      [MMethod "m" false (Sig [] [] None (Some "return"))])
     = false
  /\ decl_is_shape (DEnum (Mods true false) "E"
                      [EnumMember "A" (Some (IComputed "1 << 2"))]) = false.
Proof. evaluate. Qed.

(** C10: no declaration of any file carries an executable definition.
    Every function and variable at any depth, namespaces included, is
    declared without body or initialiser; every member of every class and
    interface (property, method, constructor) likewise; and no enum member
    is initialised by a computed expression. *)
Theorem C10_declarations_only :
  forall f, In f files ->
  forall d, In d (all_decls f) ->
    decl_body d = None
    /\ (forall m, In m (decl_members d) -> member_body m = None)
    /\ (forall e, In e (decl_enum_members d) ->
        forall n x, e <> EnumMember n (Some (IComputed x))).
Proof.
  intros f Hf d Hd. apply decl_is_shape_spec.
  revert d Hd. apply forallb_forall. fold (file_is_shape f).
  revert f Hf. apply files_cases; vm_compute; reflexivity.
Qed.

Lemma C10_witness :
  let d := DClass (Mods true false) false "Directions" [] None []
             [ ctor [opt "options" (ref "DirectionsConstructorOptions")];
               method "route"
                 [req "request" (ref "DirectionsRequest");
                  req "callback"
                    (TFun [opt "error" (ref "Error");
                           opt "data" (ref "DirectionsResponse")] TVoid)]
                 TNumber;
               method "cancel" [req "id" TNumber] TBoolean ] in
  In part_001 files /\ In d (all_decls part_001)
  /\ decl_body d = None
  /\ (forall m, In m (decl_members d) -> member_body m = None)
  /\ (forall e, In e (decl_enum_members d) ->
      forall n x, e <> EnumMember n (Some (IComputed x))).
Proof.
  intros d.
  assert (Hf : In part_001 files) by (right; right; left; reflexivity).
  assert (Hd : In d (all_decls part_001)).
  { apply all_decls_top. apply (nth_error_In _ 82). reflexivity. }
  split; [exact Hf |]. split; [exact Hd |].
  exact (C10_declarations_only part_001 Hf d Hd).
Defined.

(** ** Initialisation *)

(** C7: every file declares the top-level function [init] with the single
    required parameter [options: MapKitInitOptions] and return type [void];
    [MapKitInitOptions] has exactly the required field
    [authorizationCallback], a function whose parameter [done] is a function
    of one [string] (the token), both returning [void], and the optional
    field [language: string]. *)
Theorem C7_init_signature :
  forall f, In f files ->
    find_function f "init"
    = Some (Sig [] [req "options" (ref "MapKitInitOptions")] (Some TVoid) None)
    /\ find_interface f "MapKitInitOptions"
       = Some [ field "authorizationCallback"
                  (TFun [req "done" (TFun [req "jwt" TString] TVoid)] TVoid);
                field_opt "language" TString ].
Proof.
  apply files_cases; evaluate.
Qed.

Lemma C7_witness :
  In mapkit_d_ts files
  /\ find_function mapkit_d_ts "init"
     = Some (Sig [] [req "options" (ref "MapKitInitOptions")] (Some TVoid) None)
  /\ find_interface mapkit_d_ts "MapKitInitOptions"
     = Some [ field "authorizationCallback"
                (TFun [req "done" (TFun [req "jwt" TString] TVoid)] TVoid);
              field_opt "language" TString ].
Proof.
  assert (Hf : In mapkit_d_ts files) by (left; reflexivity).
  split; [exact Hf | exact (C7_init_signature mapkit_d_ts Hf)].
Defined.

(** ** Conversions *)

(** C8: in every file each conversion is declared exactly once in its
    class, takes no parameter, is annotated with the result class, and has
    no body: [Coordinate.toMapPoint(): MapPoint],
    [MapPoint.toCoordinate(): Coordinate],
    [MapRect.toCoordinateRegion(): CoordinateRegion],
    [CoordinateRegion.toMapRect(): MapRect],
    [CoordinateRegion.toBoundingRegion(): BoundingRegion],
    [BoundingRegion.toCoordinateRegion(): CoordinateRegion]. *)
Theorem C8_conversions_declared :
  forall f, In f files ->
  forall c m r, In (c, m, r) conversions ->
    class_methods f c m = Some [Sig [] [] (Some (ref r)) None].
Proof.
  intros f Hf. by_file f Hf;
    intros c m r H; unfold conversions in H;
    repeat (destruct H as [H | H];
            [injection H as <- <- <-; vm_compute; reflexivity |]);
    destruct H.
Qed.

Lemma C8_witness :
  In mapkit_d_ts files
  /\ In ("CoordinateRegion", "toBoundingRegion", "BoundingRegion") conversions
  /\ class_methods mapkit_d_ts "CoordinateRegion" "toBoundingRegion"
     = Some [Sig [] [] (Some (ref "BoundingRegion")) None].
Proof.
  assert (Hf : In mapkit_d_ts files) by (left; reflexivity).
  assert (Hc : In ("CoordinateRegion", "toBoundingRegion", "BoundingRegion")
                  conversions).
  { unfold conversions. simpl. tauto. }
  split; [exact Hf |]. split; [exact Hc |].
  exact (C8_conversions_declared mapkit_d_ts Hf _ _ _ Hc).
Defined.

(** ** Annotation enums *)

(** C9: in every file [Annotation.DisplayPriority] has exactly the members
    [Low = 250], [High = 750] and [Required = 1000], and
    [Annotation.CollisionMode] exactly the members [Circle] and
    [Rectangle]. *)
Theorem C9_annotation_enums :
  forall f, In f files ->
    find_enum_in f "Annotation" "DisplayPriority"
    = Some [ EnumMember "Low" (Some (INum 250));
             EnumMember "High" (Some (INum 750));
             EnumMember "Required" (Some (INum 1000)) ]
    /\ find_enum_in f "Annotation" "CollisionMode"
       = Some [ EnumMember "Circle" (Some (IStr "Circle"));
                EnumMember "Rectangle" (Some (IStr "Rectangle")) ].
Proof.
  apply files_cases; evaluate.
Qed.

Lemma C9_witness :
  In part_000 files
  /\ find_enum_in part_000 "Annotation" "DisplayPriority"
     = Some [ EnumMember "Low" (Some (INum 250));
              EnumMember "High" (Some (INum 750));
              EnumMember "Required" (Some (INum 1000)) ]
  /\ find_enum_in part_000 "Annotation" "CollisionMode"
     = Some [ EnumMember "Circle" (Some (IStr "Circle"));
              EnumMember "Rectangle" (Some (IStr "Rectangle")) ].
Proof.
  assert (Hf : In part_000 files) by (right; left; reflexivity).
  split; [exact Hf | exact (C9_annotation_enums part_000 Hf)].
Defined.

(** ** Error shape and failure codes *)

Lemma enum_names :
  map fst (enums_of mapkit_d_ts)
  = [ "MapTypes"; "ColorSchemes"; "Distances"; "DisplayPriority";
      "CollisionMode"; "FeatureVisibility" ]
  /\ map fst (enums_of part_000)
     = [ "MapKitInitSuccessStatus"; "MapKitInitFailureStatus"; "LocationError";
         "MapTypes"; "ColorSchemes"; "Distances"; "DisplayPriority";
         "CollisionMode"; "FeatureVisibility" ]
  /\ map fst (enums_of part_001)
     = [ "MapKitInitSuccessStatus"; "MapKitInitFailureStatus"; "LocationError";
         "MapTypes"; "ColorSchemes"; "Distances"; "DisplayPriority";
         "CollisionMode"; "FeatureVisibility"; "FillOpacityRule";
         "LineCapStyle"; "LineJoinStyle"; "Transport" ].
Proof. evaluate. Qed.

(** C4: the repository declares the error shape [MapKitError] with exactly
    a [code: number] and a [message: string] field (in part_000 and
    part_001), and the failure codes declared by any of its files are
    exactly PERMISSION_DENIED, POSITION_UNAVAILABLE, TIMEOUT and
    MAPKIT_NOT_INITIALIZED of [LocationError] and unauthorized and
    tooManyRequests of [MapKitInitFailureStatus]: each file declares these
    two failure enums with these members, or no failure enum at all. *)
Theorem C4_error_shape_and_failure_codes :
  let shape := [ field "code" TNumber; field "message" TString ] in
  let codes :=
    [ ("MapKitInitFailureStatus",
       [ EnumMember "unauthorized" (Some (IStr "Unauthorized"));
         EnumMember "tooManyRequests" (Some (IStr "Too Many Requests")) ]);
      ("LocationError",
       [ EnumMember "PERMISSION_DENIED" (Some (INum 1));
         EnumMember "POSITION_UNAVAILABLE" (Some (INum 2));
         EnumMember "TIMEOUT" (Some (INum 3));
         EnumMember "MAPKIT_NOT_INITIALIZED" (Some (INum 4)) ]) ] in
  Exists (fun f => find_interface f "MapKitError" = Some shape) files
  /\ Exists (fun f => failure_enums f = codes) files
  /\ Forall (fun f => find_interface f "MapKitError" = None
                      \/ find_interface f "MapKitError" = Some shape) files
  /\ Forall (fun f => failure_enums f = [] \/ failure_enums f = codes) files.
Proof.
  intros shape codes. repeat split.
  - apply Exists_exists. exists part_001.
    split; [right; right; left; reflexivity | vm_compute; reflexivity].
  - apply Exists_exists. exists part_001.
    split; [right; right; left; reflexivity | vm_compute; reflexivity].
  - apply Forall_forall. apply files_cases; vm_compute; auto.
  - apply Forall_forall. apply files_cases; vm_compute; auto.
Qed.

(** ** Request identifiers and cancellation *)

(** What the checks of a request operation mean. *)
Lemma is_cancel_spec (m : member) :
  is_cancel m = true <->
  exists n s, m = MMethod "cancel" false s
              /\ s_params s = [Binder n false (Some TNumber)].
Proof.
  split.
  - destruct m as [| n o s |]; simpl; try discriminate.
    destruct o; try discriminate.
    intros H. apply andb_true_iff in H as [Hn Hp].
    apply String.eqb_eq in Hn. subst n.
    destruct (s_params s) as [| [pn [] [[] |]] [|]] eqn:E; try discriminate.
    exists pn, s. now split.
  - intros [n [s [-> Hp]]]. simpl. now rewrite Hp.
Qed.

Lemma request_op_ok_spec (f : list decl) (c m : string) :
  request_op_ok f (c, m) = true <->
  exists ms s,
    find_class f c = Some ms
    /\ find_method ms m = Some s
    /\ s_ret s = Some TNumber
    /\ exists x, In x ms /\ is_cancel x = true.
Proof.
  unfold request_op_ok, returns_number, has_cancel. simpl. split.
  - destruct (find_class f c) as [ms|]; [| discriminate].
    destruct (find_method ms m) as [s|] eqn:Hm; [| discriminate].
    intros H. apply andb_true_iff in H as [Hr Hc].
    exists ms, s. split; [reflexivity |]. split; [exact Hm |]. split.
    + destruct (s_ret s) as [[] |]; try discriminate. reflexivity.
    + now apply existsb_exists.
  - intros [ms [s [-> [-> [-> Hc]]]]]. simpl. now apply existsb_exists.
Qed.

(** C1: in part_001 each of the five request operations is declared,
    returns [number], and its class declares [cancel(id: number)].  The two
    earlier revisions fall short of this.  In mapkit.d.ts,
    [Geocoder.reverseLookup], [Search.search] and [Search.autocomplete] are
    written without a return annotation, and [Search] has no [cancel]; in
    part_000, [Search] still has no [cancel].  [Directions] is declared by
    part_001 only. *)
Theorem C1_request_id_and_cancel :
  Forall (fun op => request_op_ok part_001 op = true) request_ops
  /\ filter (fun op => op_declared mapkit_d_ts op
                       && negb (request_op_ok mapkit_d_ts op)) request_ops
     = [ ("Geocoder", "reverseLookup"); ("Search", "search");
         ("Search", "autocomplete") ]
  /\ filter (fun op => op_declared part_000 op
                       && negb (request_op_ok part_000 op)) request_ops
     = [ ("Search", "search"); ("Search", "autocomplete") ]
  /\ option_map (map s_ret) (class_methods mapkit_d_ts "Geocoder" "reverseLookup")
     = Some [None]
  /\ option_map (map s_ret) (class_methods mapkit_d_ts "Geocoder" "lookup")
     = Some [Some TNumber]
  /\ option_map (map s_ret) (class_methods mapkit_d_ts "Search" "search")
     = Some [None]
  /\ option_map (map s_ret) (class_methods mapkit_d_ts "Search" "autocomplete")
     = Some [None]
  /\ class_methods mapkit_d_ts "Search" "cancel" = Some []
  /\ class_methods part_000 "Search" "cancel" = Some []
  /\ class_methods part_001 "Search" "cancel"
     = Some [Sig [] [req "id" TNumber] (Some TBoolean) None]
  /\ filter (op_declared mapkit_d_ts) request_ops
     = filter (op_declared part_000) request_ops
  /\ filter (op_declared part_000) request_ops
     = [ ("Geocoder", "lookup"); ("Geocoder", "reverseLookup");
         ("Search", "search"); ("Search", "autocomplete") ].
Proof.
  split; [repeat constructor; vm_compute; reflexivity |].
  evaluate.
Qed.

(** ** GeoJSON import *)

Lemma hook_names_distinct : NoDup (map hook_name geojson_kinds).
Proof.
  apply (NoDup_count_occ' string_dec). intros x Hx. vm_compute in Hx.
  repeat (destruct Hx as [<- | Hx]; [vm_compute; reflexivity |]).
  destruct Hx.
Qed.

Lemma geojson_kinds_complete (k : geojson_kind) : In k geojson_kinds.
Proof. destruct k; simpl; tauto. Qed.

(** The claim of C5 fails on the code: mapkit.d.ts declares no
    [importGeoJSON]. *)
Lemma C5_counterexample :
  ~ (forall f, In f files -> geojson_import_ok f = true).
Proof.
  intros H. specialize (H mapkit_d_ts (or_introl eq_refl)).
  vm_compute in H. discriminate H.
Qed.

(** C5, amended: part_001, and only part_001, declares
    [importGeoJSON(data, callback)]; its second parameter takes the
    [GeoJSONDelegate] interface, which has for each GeoJSON geometry type an
    optional hook of function type, all under distinct names.  mapkit.d.ts
    and part_000 declare neither the function nor the delegate. *)
Theorem C5_geojson_import :
  geojson_import_ok part_001 = true
  /\ option_map s_params (find_function part_001 "importGeoJSON")
     = Some [ req "data" (TUnion [TString; TObjectKw]);
              req "callback"
                (TUnion [ ref "GeoJSONDelegate";
                          TFun [ req "error" (ref "MapKitError");
                                 req "result" (ref "ItemCollection") ] TVoid ]) ]
  /\ Forall (fun k =>
       option_map (fun ms => existsb (is_optional_hook (hook_name k)) ms)
                  (find_interface part_001 "GeoJSONDelegate") = Some true)
       geojson_kinds
  /\ NoDup (map hook_name geojson_kinds)
  /\ find_function mapkit_d_ts "importGeoJSON" = None
  /\ find_function part_000 "importGeoJSON" = None
  /\ find_interface mapkit_d_ts "GeoJSONDelegate" = None
  /\ find_interface part_000 "GeoJSONDelegate" = None.
Proof.
  split; [vm_compute; reflexivity |].
  split; [vm_compute; reflexivity |].
  split; [repeat constructor; vm_compute; reflexivity |].
  split; [exact hook_names_distinct |].
  evaluate.
Qed.

(** ** Constructors *)

(** The claim of C2 fails on the code: the only constructor of [Geocoder]
    takes the options object and nothing else. *)
Lemma C2_counterexample :
  ~ (forall f c cs,
       In f files -> In c per_instance_classes ->
       class_constructors f c = Some cs ->
       existsb (takes_host_and_options f) cs = true).
Proof.
  intros H.
  specialize (H part_001 "Geocoder"
                [[opt "options" (ref "GeocoderConstructorOptions")]]).
  assert (Hf : In part_001 files) by (right; right; left; reflexivity).
  assert (Hc : In "Geocoder" per_instance_classes) by (simpl; tauto).
  specialize (H Hf Hc eq_refl). vm_compute in H. discriminate H.
Qed.

(** C2, amended: each of Map, Annotation, Geocoder, Search and Directions
    that a file declares has exactly one constructor there, and its last
    parameter is an optional options object ([options?: I], [I] an interface
    of the file).  Only the constructor of [Map] also takes a host element
    or selector: its parameters are [parent?: string | Element] (or
    [string | HTMLElement]) and [options?: MapConstructorOptions].  The
    constructor of [Annotation] takes [coordinate: Coordinate] and
    [factory: Function] before [options?: AnnotationConstructorOptions];
    those of [Geocoder], [Search] and [Directions] take the options object
    alone, [options?: GeocoderConstructorOptions] and so on. *)
Theorem C2_constructors_take_options :
  forall f c cs,
    In f files -> In c per_instance_classes ->
    class_constructors f c = Some cs ->
    exists ps,
      cs = [ps]
      /\ ends_with_options f ps = true
      /\ existsb is_host_param ps = (c =? "Map")
      /\ (c = "Map" ->
          exists e,
            (e = "Element" \/ e = "HTMLElement")
            /\ ps = [ opt "parent" (TUnion [TString; ref e]);
                      opt "options" (ref "MapConstructorOptions") ])
      /\ (c = "Annotation" ->
          ps = [ req "coordinate" (ref "Coordinate");
                 req "factory" (ref "Function");
                 opt "options" (ref "AnnotationConstructorOptions") ])
      /\ (c <> "Map" -> c <> "Annotation" ->
          ps = [ opt "options" (ref (c ++ "ConstructorOptions")) ]).
Proof.
  intros f c cs Hf Hc. revert cs.
  unfold per_instance_classes in Hc.
  repeat (destruct Hc as [<- | Hc];
          [by_file f Hf; intros cs H; vm_compute in H;
           try discriminate H; injection H as <-;
           eexists;
           (split; [reflexivity |]);
           (split; [vm_compute; reflexivity |]);
           (split; [vm_compute; reflexivity |]);
           (split; [intros Hm; try discriminate Hm;
                    first [ exists "Element"; split;
                            [left; reflexivity | reflexivity]
                          | exists "HTMLElement"; split;
                            [right; reflexivity | reflexivity] ] |]);
           (split; [intros Ha; try discriminate Ha; reflexivity |]);
           intros Hnm Hna; try (now elim Hnm); try (now elim Hna);
           reflexivity |]).
  destruct Hc.
Qed.

Lemma C2_witness :
  let ps := [ req "coordinate" (ref "Coordinate");
              req "factory" (ref "Function");
              opt "options" (ref "AnnotationConstructorOptions") ] in
  In mapkit_d_ts files /\ In "Annotation" per_instance_classes
  /\ class_constructors mapkit_d_ts "Annotation" = Some [ps]
  /\ exists ps',
       [ps] = [ps']
       /\ ends_with_options mapkit_d_ts ps' = true
       /\ existsb is_host_param ps' = ("Annotation" =? "Map")
       /\ ("Annotation" = "Map" ->
           exists e,
             (e = "Element" \/ e = "HTMLElement")
             /\ ps' = [ opt "parent" (TUnion [TString; ref e]);
                        opt "options" (ref "MapConstructorOptions") ])
       /\ ("Annotation" = "Annotation" ->
           ps' = [ req "coordinate" (ref "Coordinate");
                   req "factory" (ref "Function");
                   opt "options" (ref "AnnotationConstructorOptions") ])
       /\ ("Annotation" <> "Map" -> "Annotation" <> "Annotation" ->
           ps' = [ opt "options" (ref ("Annotation" ++ "ConstructorOptions")) ]).
Proof.
  intros ps.
  assert (Hf : In mapkit_d_ts files) by (left; reflexivity).
  assert (Hc : In "Annotation" per_instance_classes) by (simpl; tauto).
  assert (Hcs : class_constructors mapkit_d_ts "Annotation" = Some [ps])
    by reflexivity.
  split; [exact Hf |]. split; [exact Hc |]. split; [exact Hcs |].
  exact (C2_constructors_take_options _ _ _ Hf Hc Hcs).
Defined.

(** Where each per-instance class is declared. *)
Lemma per_instance_classes_declared :
  map (fun f => filter (fun c => is_none (find_class f c)) per_instance_classes)
      files
  = [ ["Directions"]; ["Directions"]; [] ].
Proof. vm_compute. reflexivity. Qed.

(** ** What [member_le] keeps *)

Lemma forall2b_Forall2 {A B : Type} (p : A -> B -> bool) xs ys :
  forall2b p xs ys = true <-> Forall2 (fun x y => p x y = true) xs ys.
Proof.
  revert ys. induction xs as [|x xs IH]; intros [|y ys]; simpl.
  - split; [constructor | reflexivity].
  - split; [discriminate | inversion 1].
  - split; [discriminate | inversion 1].
  - rewrite andb_true_iff, IH. split.
    + intros [Hxy Hrest]. now constructor.
    + inversion 1; subst. now split.
Qed.

Lemma binder_le_kept (a b : binder ty) :
  binder_cmp false ty_le a b = true -> binder_kept a b.
Proof.
  destruct a as [n o t], b as [m q u]; unfold binder_cmp, binder_kept; simpl.
  intros H. apply andb_true_iff in H as [H Hty].
  apply andb_true_iff in H as [Hn Ho].
  apply String.eqb_eq in Hn. apply Bool.eqb_prop in Ho.
  split; [assumption |]. split; [assumption |].
  intros t' Heq Ht'. subst t. destruct u as [u|]; simpl in Hty; [| discriminate].
  f_equal. symmetry. apply ty_le_annotated; assumption.
Qed.

Lemma member_le_method n o s m' :
  member_le (MMethod n o s) m' = true ->
  exists s',
    m' = MMethod n o s'
    /\ Forall2 binder_kept (s_params s) (s_params s')
    /\ (forall r, s_ret s = Some r -> annotated r = true -> s_ret s' = Some r).
Proof.
  destruct m' as [| n' o' s' |]; simpl; try discriminate. intros H.
  apply andb_true_iff in H as [H Hs]. apply andb_true_iff in H as [Hn Ho].
  apply String.eqb_eq in Hn. apply Bool.eqb_prop in Ho. subst n' o'.
  exists s'. split; [reflexivity |].
  unfold sig_le in Hs.
  apply andb_true_iff in Hs as [Hs _]. apply andb_true_iff in Hs as [Hs Hr].
  apply andb_true_iff in Hs as [_ Hps]. split.
  - apply forall2b_Forall2 in Hps.
    eapply Forall2_impl; [| exact Hps]. apply binder_le_kept.
  - intros r Hsr Hann. rewrite Hsr in Hr.
    destruct (s_ret s') as [r'|]; simpl in Hr; [| discriminate].
    f_equal. symmetry. now apply ty_le_annotated.
Qed.

Lemma member_le_property b i m' :
  member_le (MProperty b i) m' = true ->
  exists b', m' = MProperty b' i /\ binder_kept b b'.
Proof.
  destruct m' as [b' i' | |]; simpl; try discriminate. intros H.
  apply andb_true_iff in H as [Hb Hi].
  exists b'. split; [| now apply binder_le_kept].
  destruct i as [x|], i' as [y|]; simpl in Hi; try discriminate;
    [| reflexivity].
  apply String.eqb_eq in Hi. now subst.
Qed.

Lemma member_le_constructor ps x m' :
  member_le (MConstructor ps x) m' = true ->
  exists qs, m' = MConstructor qs x /\ Forall2 binder_kept ps qs.
Proof.
  destruct m' as [| | qs y]; simpl; try discriminate. intros H.
  apply andb_true_iff in H as [Hps Hx].
  exists qs. split.
  - destruct x as [x|], y as [y|]; simpl in Hx; try discriminate;
      [| reflexivity].
    apply String.eqb_eq in Hx. now subst.
  - apply forall2b_Forall2 in Hps.
    eapply Forall2_impl; [| exact Hps]. apply binder_le_kept.
Qed.

Lemma members_le_spec (old new : list member) :
  members_le old new = true <->
  forall m, In m old -> exists m', In m' new /\ member_le m m' = true.
Proof.
  unfold members_le. rewrite forallb_forall.
  split; intros H m Hm; [apply existsb_exists | apply existsb_exists];
    auto.
Qed.

(** ** Geocoder and Search across revisions *)

(** Where the two revisions part by design: mapkit.d.ts declares no
    [MapKitError] and leaves the [error] parameter of the callbacks without
    annotation; part_001 annotates it. *)
Lemma error_parameter_annotation :
  find_interface mapkit_d_ts "MapKitError" = None
  /\ option_map (map (fun s => nth_error (s_params s) 1))
                (class_methods mapkit_d_ts "Geocoder" "lookup")
     = Some [Some (req "callback"
                     (TFun [untyped "error"; req "data" (ref "GeocodeResponse")]
                           TVoid))]
  /\ option_map (map (fun s => nth_error (s_params s) 1))
                (class_methods part_001 "Geocoder" "lookup")
     = Some [Some (req "callback"
                     (TFun [req "error" (ref "MapKitError");
                            req "data" (ref "GeocodeResponse")] TVoid))].
Proof. evaluate. Qed.

(** The claim of C3 fails on the code: the two declarations of
    [Geocoder.lookup] differ, mapkit.d.ts leaving the callback's [error]
    parameter without annotation where part_001 writes [MapKitError]. *)
Lemma C3_counterexample :
  ~ (find_class mapkit_d_ts "Geocoder" = find_class part_001 "Geocoder"
     /\ find_class mapkit_d_ts "Search" = find_class part_001 "Search").
Proof.
  intros [H _].
  apply (f_equal (option_map (fun ms => methods_named ms "lookup"))) in H.
  vm_compute in H. discriminate H.
Qed.

(** C3, amended: every member of [Geocoder] and of [Search] declared in
    mapkit.d.ts has a counterpart in part_001 of the same kind and name,
    with the same parameters by name, order and [?] mark, and with every
    annotation mapkit.d.ts writes kept; part_001 only says more. *)
Theorem C3_surface_kept :
  forall c, In c ["Geocoder"; "Search"] ->
  exists old new,
    find_class mapkit_d_ts c = Some old
    /\ find_class part_001 c = Some new
    /\ forall m, In m old -> exists m', In m' new /\ member_le m m' = true.
Proof.
  intros c [<- | [<- | []]];
    eexists; eexists;
    (split; [vm_compute; reflexivity |]);
    (split; [vm_compute; reflexivity |]);
    apply members_le_spec; vm_compute; reflexivity.
Qed.

Lemma C3_witness :
  In "Search" ["Geocoder"; "Search"]
  /\ exists old new,
       find_class mapkit_d_ts "Search" = Some old
       /\ find_class part_001 "Search" = Some new
       /\ forall m, In m old -> exists m', In m' new /\ member_le m m' = true.
Proof.
  assert (Hc : In "Search" ["Geocoder"; "Search"]) by (right; left; reflexivity).
  split; [exact Hc | exact (C3_surface_kept "Search" Hc)].
Defined.

(** ** The Map constructor and its options *)

(** An argument list accepted without its last argument stays accepted
    when an argument assignable to the second parameter is added. *)
Lemma args_ok_second (f : list decl) (p q : param) (h v t : ty) :
  b_type q = Some t ->
  args_ok f [p; q] [h] = true ->
  assignable f v t = true ->
  args_ok f [p; q] [h; v] = true.
Proof.
  simpl. intros -> H Hv. rewrite Hv.
  apply andb_true_iff in H as [-> _]. reflexivity.
Qed.

(** An interface without [extends] whose members are all optional
    properties is satisfied by the empty object. *)
Lemma empty_object_fits (f : list decl) (i : string) (ms : list member) :
  find_interface f i = Some ms -> interface_extends f i = [] ->
  forallb member_optional_property ms = true ->
  assignable f (TLit []) (ref i) = true.
Proof.
  intros Hms Hext Hopt. simpl. unfold fits_interface. rewrite Hms, Hext.
  simpl. rewrite andb_true_r.
  apply forallb_forall. intros m Hm.
  rewrite forallb_forall in Hopt. specialize (Hopt m Hm).
  destruct m as [b i' | |]; simpl in *; try discriminate.
  now rewrite Hopt.
Qed.

(** C6: in every file all members of [MapConstructorOptions] are optional
    properties, and the constructor of [Map] accepts as its options
    argument every value assignable to [MapConstructorOptions]: whenever
    [new Map(h)] is accepted, so is [new Map(h, v)].  The options argument
    may be left out, alone ([new Map(selector)]) or with the parent
    ([new Map()]); the empty object is among the accepted values. *)
Theorem C6_map_constructor_accepts_options :
  forall f, In f files ->
    option_map (forallb member_optional_property)
               (find_interface f "MapConstructorOptions") = Some true
    /\ (forall h v,
          ctor_accepts f "Map" [h] = true ->
          assignable f v (ref "MapConstructorOptions") = true ->
          ctor_accepts f "Map" [h; v] = true)
    /\ ctor_accepts f "Map" [TString] = true
    /\ ctor_accepts f "Map" [] = true
    /\ assignable f (TLit []) (ref "MapConstructorOptions") = true.
Proof.
  intros f Hf. by_file f Hf;
    (split; [vm_compute; reflexivity |]);
    (split; [| evaluate]);
    intros h v; unfold ctor_accepts;
    match goal with
    | |- context [class_constructors ?F "Map"] =>
        let cs := eval vm_compute in (class_constructors F "Map") in
        change (class_constructors F "Map") with cs
    end;
    cbn [existsb]; rewrite !orb_false_r;
    intros Hh Hv;
    (eapply args_ok_second; [reflexivity | exact Hh | exact Hv]).
Qed.

Lemma C6_witness :
  let v := TLit [req "rotation" TNumber; req "center" (ref "Coordinate")] in
  In mapkit_d_ts files
  /\ ctor_accepts mapkit_d_ts "Map" [TString] = true
  /\ assignable mapkit_d_ts v (ref "MapConstructorOptions") = true
  /\ ctor_accepts mapkit_d_ts "Map" [TString; v] = true.
Proof.
  intros v.
  assert (Hf : In mapkit_d_ts files) by (left; reflexivity).
  assert (Hh : ctor_accepts mapkit_d_ts "Map" [TString] = true)
    by (vm_compute; reflexivity).
  assert (Hv : assignable mapkit_d_ts v (ref "MapConstructorOptions") = true)
    by (vm_compute; reflexivity).
  split; [exact Hf |]. split; [exact Hh |]. split; [exact Hv |].
  exact (proj1 (proj2 (C6_map_constructor_accepts_options mapkit_d_ts Hf))
           TString v Hh Hv).
Defined.

(** * Further properties of the declared surface *)

(** ** Tools *)

Lemma mem_In (n : string) (l : list string) : mem n l = true <-> In n l.
Proof.
  unfold mem. rewrite existsb_exists. split.
  - intros [x [Hx Heq]]. apply String.eqb_eq in Heq. now subst.
  - intros H. exists n. split; [assumption | apply String.eqb_refl].
Qed.

Lemma distinctb_NoDup {A : Type} (eqb : A -> A -> bool) (l : list A) :
  (forall x, eqb x x = true) -> distinctb eqb l = true -> NoDup l.
Proof.
  intros Hrefl. induction l as [|x l IH]; simpl; intros H; constructor.
  - apply andb_true_iff in H as [Hx _]. intros Hin.
    apply negb_true_iff in Hx.
    assert (Hex : existsb (eqb x) l = true)
      by (apply existsb_exists; exists x; split; [assumption | apply Hrefl]).
    congruence.
  - apply IH. now apply andb_true_iff in H as [_ H].
Qed.

Lemma filter_nil {A : Type} (p : A -> bool) (l : list A) :
  filter p l = [] -> forall x, In x l -> p x = false.
Proof.
  induction l as [|y l IH]; simpl; intros H x Hx; [destruct Hx |].
  destruct (p y) eqn:Hy; [discriminate |].
  destruct Hx as [<- | Hx]; [assumption | now apply IH].
Qed.

Lemma flat_map_nil {A B : Type} (g : A -> list B) (l : list A) :
  flat_map g l = [] -> forall x, In x l -> g x = [].
Proof.
  induction l as [|y l IH]; simpl; intros H x Hx; [destruct Hx |].
  apply app_eq_nil in H as [Hy Hl].
  destruct Hx as [<- | Hx]; [assumption | now apply IH].
Qed.

Lemma opt_ty_eqb_eq (a b : option ty) : opt_cmp true ty_eqb a b = true -> a = b.
Proof.
  destruct a, b; simpl; try discriminate; try reflexivity.
  intros H. f_equal. now apply ty_eqb_eq.
Qed.

Lemma decl_at_in (f : list decl) (i : nat) :
  i < length f -> In (decl_at f i) (all_decls f).
Proof. intros H. apply all_decls_top. now apply nth_In. Qed.

(** A check that evaluates to [true] on each file holds of every element
    it ranges over. *)
Lemma checked_in_files {A : Type} (L : list decl -> list A)
  (p : list decl -> A -> bool) :
  forallb (p mapkit_d_ts) (L mapkit_d_ts) = true ->
  forallb (p part_000) (L part_000) = true ->
  forallb (p part_001) (L part_001) = true ->
  forall f, In f files -> forall x, In x (L f) -> p f x = true.
Proof.
  intros H0 H1 H2 f Hf. apply forallb_forall.
  revert f Hf. apply files_cases; assumption.
Qed.

(** ** Names resolve *)

(** X1: every type name that a declaration of any file uses, its type
    parameters aside, is declared by that file or is one of the ambient
    types Element, HTMLElement, Event, Error, Date and Function. *)
Theorem X1_references_resolve :
  forall f, In f files ->
  forall d, In d (all_decls f) ->
  forall n, In n (decl_refs d) ->
    In n (declared_types f) \/ In n ambient_types.
Proof.
  intros f Hf d Hd.
  assert (H : forallb (resolves f) (decl_refs d) = true).
  { revert d Hd. apply forallb_forall. fold (file_resolves f).
    by_file f Hf; vm_compute; reflexivity. }
  intros n Hn. rewrite forallb_forall in H. specialize (H n Hn).
  unfold resolves in H. apply orb_true_iff in H.
  destruct H as [H | H]; [left | right]; now apply mem_In.
Qed.

Lemma X1_witness :
  In part_001 files
  /\ In (decl_at part_001 76) (all_decls part_001)
  /\ In "SearchAutocompleteResult" (decl_refs (decl_at part_001 76))
  /\ (In "SearchAutocompleteResult" (declared_types part_001)
      \/ In "SearchAutocompleteResult" ambient_types).
Proof.
  assert (Hf : In part_001 files) by (right; right; left; reflexivity).
  assert (Hd : In (decl_at part_001 76) (all_decls part_001))
    by (apply decl_at_in; vm_compute; lia).
  assert (Hn : In "SearchAutocompleteResult" (decl_refs (decl_at part_001 76)))
    by (vm_compute; tauto).
  split; [exact Hf |]. split; [exact Hd |]. split; [exact Hn |].
  exact (X1_references_resolve part_001 Hf _ Hd _ Hn).
Defined.

(** ** Parameter lists *)

Lemma required_first_spec (ps : list param) :
  required_first ps = true ->
  forall pre p post, ps = (pre ++ p :: post)%list -> b_optional p = true ->
    Forall (fun q => b_optional q = true) post.
Proof.
  induction ps as [|x ps IH]; simpl; intros H pre p post Heq Hp.
  - destruct pre; discriminate.
  - destruct pre as [|y pre]; simpl in Heq; injection Heq as Hxy Hps; subst.
    + rewrite Hp in H. now apply Forall_forall, forallb_forall.
    + destruct (b_optional y).
      * rewrite forallb_app in H. apply andb_true_iff in H as [_ H].
        simpl in H. apply andb_true_iff in H as [_ H].
        now apply Forall_forall, forallb_forall.
      * now apply (IH H pre p post).
Qed.

(** X2: in every parameter list of every file (of a function, a method,
    a constructor, or a function type at any depth inside a type) no
    required parameter follows an optional one. *)
Theorem X2_required_parameters_first :
  forall f, In f files ->
  forall d, In d (all_decls f) ->
  forall ps, In ps (decl_param_lists d) ->
  forall pre p post, ps = (pre ++ p :: post)%list -> b_optional p = true ->
    Forall (fun q => b_optional q = true) post.
Proof.
  intros f Hf.
  assert (H : file_required_first f = true)
    by (by_file f Hf; vm_compute; reflexivity).
  intros d Hd ps Hps. apply required_first_spec.
  unfold file_required_first in H. rewrite forallb_forall in H.
  apply H. apply in_flat_map. now exists d.
Qed.

Lemma X2_witness :
  let p := opt "parent" (TUnion [TString; ref "Element"]) in
  let post := [opt "options" (ref "MapConstructorOptions")] in
  In mapkit_d_ts files
  /\ In (decl_at mapkit_d_ts 8) (all_decls mapkit_d_ts)
  /\ In (p :: post) (decl_param_lists (decl_at mapkit_d_ts 8))
  /\ p :: post = ([] ++ p :: post)%list
  /\ b_optional p = true
  /\ Forall (fun q : param => b_optional q = true) post.
Proof.
  intros p post.
  assert (Hf : In mapkit_d_ts files) by (left; reflexivity).
  assert (Hd : In (decl_at mapkit_d_ts 8) (all_decls mapkit_d_ts))
    by (apply decl_at_in; vm_compute; lia).
  assert (Hps : In (p :: post) (decl_param_lists (decl_at mapkit_d_ts 8)))
    by (vm_compute; tauto).
  split; [exact Hf |]. split; [exact Hd |]. split; [exact Hps |].
  split; [reflexivity |]. split; [reflexivity |].
  exact (X2_required_parameters_first mapkit_d_ts Hf _ Hd _ Hps [] p post
           eq_refl eq_refl).
Defined.

(** ** Member names and enum values *)

(** X3: inside every class and interface of every file, the names of the
    properties and methods are pairwise distinct. *)
Theorem X3_member_names_distinct :
  forall f, In f files ->
  forall d, In d (all_decls f) ->
    NoDup (member_names (decl_members d)).
Proof.
  intros f Hf.
  assert (H : file_members_distinct f = true)
    by (by_file f Hf; vm_compute; reflexivity).
  intros d Hd. apply (distinctb_NoDup String.eqb); [apply String.eqb_refl |].
  unfold file_members_distinct in H. rewrite forallb_forall in H.
  now apply H.
Qed.

Lemma X3_witness :
  In part_001 files
  /\ In (decl_at part_001 24) (all_decls part_001)
  /\ NoDup (member_names (decl_members (decl_at part_001 24))).
Proof.
  assert (Hf : In part_001 files) by (right; right; left; reflexivity).
  assert (Hd : In (decl_at part_001 24) (all_decls part_001))
    by (apply decl_at_in; vm_compute; lia).
  split; [exact Hf |]. split; [exact Hd |].
  exact (X3_member_names_distinct part_001 Hf _ Hd).
Defined.

Lemma init_eqb_refl (o : option enum_init) : opt_cmp true init_eqb o o = true.
Proof.
  destruct o as [[z | s | s] |]; simpl;
    auto using Z.eqb_refl, String.eqb_refl.
Qed.

Lemma is_num_member_spec (e : enum_member) :
  is_num_member e = true -> exists z, enum_value e = Some (INum z).
Proof.
  unfold is_num_member. destruct (enum_value e) as [[z | s | s] |];
    try discriminate. intros _. now exists z.
Qed.

Lemma is_str_member_spec (e : enum_member) :
  is_str_member e = true -> exists s, enum_value e = Some (IStr s).
Proof.
  unfold is_str_member. destruct (enum_value e) as [[z | s | s] |];
    try discriminate. intros _. now exists s.
Qed.

(** X4: in every enum of every file the members have pairwise distinct
    names and pairwise distinct values, and the values are all numbers or
    all strings (so every member is initialised). *)
Theorem X4_enum_values_distinct :
  forall f, In f files ->
  forall n es, In (n, es) (enums_of f) ->
    NoDup (map enum_name es)
    /\ NoDup (map enum_value es)
    /\ ((forall e, In e es -> exists z, enum_value e = Some (INum z))
        \/ (forall e, In e es -> exists s, enum_value e = Some (IStr s))).
Proof.
  intros f Hf n es Hin.
  assert (H := checked_in_files enums_of (fun _ e => enum_ok (snd e))
                 ltac:(vm_compute; reflexivity) ltac:(vm_compute; reflexivity)
                 ltac:(vm_compute; reflexivity) f Hf _ Hin).
  simpl in H. unfold enum_ok in H.
  apply andb_true_iff in H as [H Hkind]. apply andb_true_iff in H as [Hn Hv].
  split; [| split].
  - now apply (distinctb_NoDup String.eqb); [apply String.eqb_refl |].
  - now apply (distinctb_NoDup (opt_cmp true init_eqb)); [apply init_eqb_refl |].
  - apply orb_true_iff in Hkind as [Hk | Hk]; [left | right];
      rewrite forallb_forall in Hk; intros e He.
    + now apply is_num_member_spec, Hk.
    + now apply is_str_member_spec, Hk.
Qed.

Lemma X4_witness :
  let es := [ EnumMember "PERMISSION_DENIED" (Some (INum 1));
              EnumMember "POSITION_UNAVAILABLE" (Some (INum 2));
              EnumMember "TIMEOUT" (Some (INum 3));
              EnumMember "MAPKIT_NOT_INITIALIZED" (Some (INum 4)) ] in
  In part_001 files
  /\ In ("LocationError", es) (enums_of part_001)
  /\ NoDup (map enum_name es)
  /\ NoDup (map enum_value es)
  /\ ((forall e, In e es -> exists z, enum_value e = Some (INum z))
      \/ (forall e, In e es -> exists s, enum_value e = Some (IStr s))).
Proof.
  intros es.
  assert (Hf : In part_001 files) by (right; right; left; reflexivity).
  assert (Hin : In ("LocationError", es) (enums_of part_001))
    by (vm_compute; tauto).
  split; [exact Hf |]. split; [exact Hin |].
  exact (X4_enum_values_distinct part_001 Hf _ _ Hin).
Defined.

(** X5: in every enum written without [declare] (the enums a page reaches
    through the library), a member initialised by a string has its own
    name as value. *)
Theorem X5_plain_enum_values_are_names :
  forall f, In f files ->
  forall n es, In (n, es) (plain_enums f) ->
  forall m s, In (EnumMember m (Some (IStr s))) es -> s = m.
Proof.
  intros f Hf n es Hin m s Hm.
  assert (H := checked_in_files plain_enums
                 (fun _ e => forallb value_is_name (snd e))
                 ltac:(vm_compute; reflexivity) ltac:(vm_compute; reflexivity)
                 ltac:(vm_compute; reflexivity) f Hf _ Hin).
  simpl in H. rewrite forallb_forall in H. specialize (H _ Hm).
  now apply String.eqb_eq in H.
Qed.

Lemma X5_witness :
  let es := [ EnumMember "Automobile" (Some (IStr "Automobile"));
              EnumMember "Walking" (Some (IStr "Walking")) ] in
  In part_001 files
  /\ In ("Transport", es) (plain_enums part_001)
  /\ In (EnumMember "Walking" (Some (IStr "Walking"))) es
  /\ "Walking" = "Walking".
Proof.
  intros es.
  assert (Hf : In part_001 files) by (right; right; left; reflexivity).
  assert (Hin : In ("Transport", es) (plain_enums part_001))
    by (vm_compute; tauto).
  assert (Hm : In (EnumMember "Walking" (Some (IStr "Walking"))) es)
    by (right; left; reflexivity).
  split; [exact Hf |]. split; [exact Hin |]. split; [exact Hm |].
  exact (X5_plain_enum_values_are_names part_001 Hf _ _ Hin _ _ Hm).
Defined.

(** ** Inheritance *)

(** X6: in every file the chain of classes above a class is found within
    three steps, repeats no class, and every class on it is declared in
    the file or is the ambient [Event]. *)
Theorem X6_class_hierarchy_well_founded :
  forall f, In f files ->
  forall c, In c (class_names f) ->
  exists chain,
    ancestors 3 f c = Some chain
    /\ NoDup (c :: chain)
    /\ forall p, In p chain -> In p (class_names f) \/ p = "Event".
Proof.
  intros f Hf c Hc.
  assert (H := checked_in_files class_names hierarchy_ok
                 ltac:(vm_compute; reflexivity) ltac:(vm_compute; reflexivity)
                 ltac:(vm_compute; reflexivity) f Hf c Hc).
  unfold hierarchy_ok in H.
  destruct (ancestors 3 f c) as [chain|]; [| discriminate].
  apply andb_true_iff in H as [Hd Hp].
  exists chain. split; [reflexivity |]. split.
  - now apply (distinctb_NoDup String.eqb); [apply String.eqb_refl |].
  - intros p Hin. rewrite forallb_forall in Hp. specialize (Hp p Hin).
    apply orb_true_iff in Hp as [Hp | Hp].
    + left. now apply mem_In.
    + right. now apply String.eqb_eq.
Qed.

Lemma X6_witness :
  In part_001 files /\ In "MarkerAnnotation" (class_names part_001)
  /\ exists chain,
       ancestors 3 part_001 "MarkerAnnotation" = Some chain
       /\ NoDup ("MarkerAnnotation" :: chain)
       /\ forall p, In p chain -> In p (class_names part_001) \/ p = "Event".
Proof.
  assert (Hf : In part_001 files) by (right; right; left; reflexivity).
  assert (Hc : In "MarkerAnnotation" (class_names part_001))
    by (apply mem_In; vm_compute; reflexivity).
  split; [exact Hf |]. split; [exact Hc |].
  exact (X6_class_hierarchy_well_founded part_001 Hf _ Hc).
Defined.

(** X7: no class of any file declares a property or method under a name
    that a class above it declares, for every class above it that the file
    declares.  The ambient [Event], above the event classes, is declared by
    none of the files: its members are not given here and nothing is said
    about them. *)
Theorem X7_no_inherited_member_redeclared :
  forall f, In f files ->
  forall c, In c (class_names f) ->
  forall chain, ancestors 3 f c = Some chain ->
  forall a ms, In a chain -> find_class f a = Some ms ->
  forall n, In n (own_names f c) -> ~ In n (member_names ms).
Proof.
  intros f Hf c Hc.
  assert (H := checked_in_files class_names
                 (fun f c => is_none (hd_error (shadows f c)))
                 ltac:(vm_compute; reflexivity) ltac:(vm_compute; reflexivity)
                 ltac:(vm_compute; reflexivity) f Hf c Hc).
  cbv beta in H. intros chain Hchain a ms Ha Hms n Hn Hin.
  unfold shadows in H. rewrite Hchain in H.
  destruct (filter _ _) as [|x l] eqn:Hfilter; [| discriminate].
  apply (filter_nil _ _ Hfilter) in Hn.
  assert (Hex : existsb (fun a => mem n (own_names f a)) chain = true).
  { apply existsb_exists. exists a. split; [assumption |].
    apply mem_In. unfold own_names. now rewrite Hms. }
  congruence.
Qed.

Lemma X7_witness :
  let ms := [ field "data" TAny; field "visible" TBoolean;
              field "enabled" TBoolean; field "selected" TBoolean;
              field "style" (ref "Style"); field "map" (ref "Map") ] in
  In part_001 files /\ In "CircleOverlay" (class_names part_001)
  /\ ancestors 3 part_001 "CircleOverlay" = Some ["Overlay"; "MapKitEvented"]
  /\ In "Overlay" ["Overlay"; "MapKitEvented"]
  /\ find_class part_001 "Overlay" = Some ms
  /\ In "radius" (own_names part_001 "CircleOverlay")
  /\ ~ In "radius" (member_names ms).
Proof.
  intros ms.
  assert (Hf : In part_001 files) by (right; right; left; reflexivity).
  assert (Hc : In "CircleOverlay" (class_names part_001))
    by (apply mem_In; vm_compute; reflexivity).
  assert (Hch : ancestors 3 part_001 "CircleOverlay"
                = Some ["Overlay"; "MapKitEvented"])
    by (vm_compute; reflexivity).
  assert (Ha : In "Overlay" ["Overlay"; "MapKitEvented"])
    by (left; reflexivity).
  assert (Hms : find_class part_001 "Overlay" = Some ms)
    by (vm_compute; reflexivity).
  assert (Hn : In "radius" (own_names part_001 "CircleOverlay"))
    by (apply mem_In; vm_compute; reflexivity).
  split; [exact Hf |]. split; [exact Hc |]. split; [exact Hch |].
  split; [exact Ha |]. split; [exact Hms |]. split; [exact Hn |].
  exact (X7_no_inherited_member_redeclared part_001 Hf _ Hc _ Hch _ _ Ha Hms
           _ Hn).
Defined.

(** The classes directly below the ambient [Event], with the names they
    declare: what a reader sets against the members of the DOM's [Event]. *)
Example members_below_event :
  map (fun f =>
         flat_map (fun c => match class_parent f c with
                            | Some (TRef "Event" []) => [(c, own_names f c)]
                            | _ => []
                            end) (class_names f))
      [part_000; part_001]
  = let below :=
      [ ("MapKitInitSuccessEvent", ["status"]);
        ("MapKitInitFailureEvent", ["status"]);
        ("MapEvent", []);
        ("OverlayEvent", ["overlay"]);
        ("UserLocationChangeEvent", ["coordinate"; "timestamp"]);
        ("AnnotationEvent", ["annotation"]) ] in
    [below; below].
Proof. vm_compute. reflexivity. Qed.

(** X8: every interface named in the [extends] clause of an interface is
    declared in the same file, and a property that the extending interface
    declares again has a type assignable to the type it replaces. *)
Theorem X8_interface_overrides_assignable :
  forall f, In f files ->
  forall i es ms, In (i, es, ms) (interfaces_of f) ->
  forall e, In e es ->
  exists p args pms,
    e = TRef p args
    /\ find_interface f p = Some pms
    /\ forall b init pt,
         In (MProperty b init) ms ->
         prop_type pms (b_name b) = Some (Some pt) ->
         exists t, b_type b = Some t /\ assignable f t pt = true.
Proof.
  intros f Hf i es ms Hin e He.
  assert (H := checked_in_files interfaces_of
                 (fun f x => forallb (extends_ok f (snd x)) (snd (fst x)))
                 ltac:(vm_compute; reflexivity) ltac:(vm_compute; reflexivity)
                 ltac:(vm_compute; reflexivity) f Hf _ Hin).
  simpl in H. rewrite forallb_forall in H. specialize (H e He).
  unfold extends_ok in H. destruct e as [ | | | | | | | p args | | | | | | | ];
    try discriminate.
  destruct (find_interface f p) as [pms|] eqn:Hp; [| discriminate].
  exists p, args, pms. split; [reflexivity |]. split; [exact Hp |].
  intros b init pt Hb Hpt. rewrite forallb_forall in H.
  specialize (H _ Hb). simpl in H. rewrite Hpt in H.
  destruct (b_type b) as [t|]; [| discriminate]. now exists t.
Qed.

Lemma X8_witness :
  let es := [ref "SelectEventTypes"; ref "AnnotationEventWithoutSelectTypes"] in
  let ms := [ field "select" (ref "AnnotationEvent");
              field "deselect" (ref "AnnotationEvent") ] in
  In part_000 files
  /\ In ("AnnotationEventTypes", es, ms) (interfaces_of part_000)
  /\ In (ref "SelectEventTypes") es
  /\ exists p args pms,
       ref "SelectEventTypes" = TRef p args
       /\ find_interface part_000 p = Some pms
       /\ forall b init pt,
            In (MProperty b init) ms ->
            prop_type pms (b_name b) = Some (Some pt) ->
            exists t, b_type b = Some t /\ assignable part_000 t pt = true.
Proof.
  intros es ms.
  assert (Hf : In part_000 files) by (right; left; reflexivity).
  assert (Hin : In ("AnnotationEventTypes", es, ms) (interfaces_of part_000)).
  { apply (nth_error_In _ 10). vm_compute. reflexivity. }
  assert (He : In (ref "SelectEventTypes") es) by (left; reflexivity).
  split; [exact Hf |]. split; [exact Hin |]. split; [exact He |].
  exact (X8_interface_overrides_assignable part_000 Hf _ _ _ Hin _ He).
Defined.

(** ** Operations that go together *)

Lemma param_same_spec (ps qs : list param) :
  forall2b param_same ps qs = true ->
  map b_type ps = map b_type qs /\ map b_optional ps = map b_optional qs.
Proof.
  revert qs. induction ps as [|p ps IH]; intros [|q qs]; simpl;
    try discriminate; [now split |].
  intros H. apply andb_true_iff in H as [Hpq Hrest].
  destruct (IH _ Hrest) as [Ht Ho].
  unfold param_same in Hpq. apply andb_true_iff in Hpq as [Hopt Hty].
  apply Bool.eqb_prop in Hopt. apply opt_ty_eqb_eq in Hty.
  split; f_equal; assumption.
Qed.

Lemma sig_same_spec (a b : signature) :
  sig_same a b = true -> same_types a b.
Proof.
  unfold sig_same, same_types. intros H.
  apply andb_true_iff in H as [H Hret]. apply andb_true_iff in H as [_ Hps].
  destruct (param_same_spec _ _ Hps) as [Ht Ho].
  split; [assumption |]. split; [assumption | now apply opt_ty_eqb_eq].
Qed.

Lemma has_twin_spec (ms : list (string * signature)) n s :
  has_twin ms n s = true -> exists s', In (n, s') ms /\ same_types s s'.
Proof.
  unfold has_twin. rewrite existsb_exists. intros [[n' s'] [Hin H]].
  simpl in H. apply andb_true_iff in H as [Hn Hs].
  apply String.eqb_eq in Hn. subst n'.
  exists s'. split; [assumption | now apply sig_same_spec].
Qed.

(** X9: among the top-level functions of a file, and among the methods of
    each class and interface, every [addX] comes with a [removeX] taking
    the same parameter types and returning the same type, and every
    [removeX] with such an [addX]. *)
Theorem X9_add_remove_symmetric :
  forall f, In f files ->
  forall g, In g (operation_groups f) ->
  forall n s, In (n, s) g ->
    (forall r, strip_prefix "add" n = Some r ->
       exists s', In ("remove" ++ r, s') g /\ same_types s s')
    /\ (forall r, strip_prefix "remove" n = Some r ->
          exists s', In ("add" ++ r, s') g /\ same_types s s').
Proof.
  intros f Hf g Hg n s Hin.
  assert (H := checked_in_files operation_groups
                 (fun _ g => forallb (add_remove_ok g) g)
                 ltac:(vm_compute; reflexivity) ltac:(vm_compute; reflexivity)
                 ltac:(vm_compute; reflexivity) f Hf g Hg).
  cbv beta in H. rewrite forallb_forall in H. specialize (H _ Hin).
  unfold add_remove_ok in H. cbn [fst snd] in H.
  apply andb_true_iff in H as [Ha Hr].
  split; intros r Hpre.
  - rewrite Hpre in Ha. now apply has_twin_spec.
  - rewrite Hpre in Hr. now apply has_twin_spec.
Qed.

Lemma X9_witness :
  let s := Sig [] [req "overlay" (ref "TileOverlay")]
               (Some (ref "TileOverlay")) None in
  let g := methods_of (decl_members (decl_at part_001 24)) in
  In part_001 files
  /\ In g (operation_groups part_001)
  /\ In ("addTileOverlay", s) g
  /\ (forall r, strip_prefix "add" "addTileOverlay" = Some r ->
        exists s', In ("remove" ++ r, s') g /\ same_types s s')
  /\ (forall r, strip_prefix "remove" "addTileOverlay" = Some r ->
        exists s', In ("add" ++ r, s') g /\ same_types s s').
Proof.
  intros s g.
  assert (Hf : In part_001 files) by (right; right; left; reflexivity).
  assert (Hg : In g (operation_groups part_001)).
  { right.
    apply (in_map (fun d => methods_of (decl_members d))).
    apply decl_at_in. vm_compute. lia. }
  assert (Hin : In ("addTileOverlay", s) g) by (vm_compute; tauto).
  split; [exact Hf |]. split; [exact Hg |]. split; [exact Hin |].
  exact (X9_add_remove_symmetric part_001 Hf g Hg _ _ Hin).
Defined.

Lemma array_of_spec (ps qs : list param) :
  forall2b array_of ps qs = true -> Forall2 takes_array_of ps qs.
Proof.
  intros H. apply forall2b_Forall2 in H.
  eapply Forall2_impl; [| exact H]. intros a b Hab.
  unfold array_of in Hab. unfold takes_array_of.
  destruct (b_type a) as [t|], (b_type b) as [u|]; try discriminate.
  apply ty_eqb_eq in Hab. subst u. now exists t.
Qed.

(** X10: when a class declares a method [n] and a method [n ++ "s"], the
    second is the first over arrays: each of its parameters takes an array
    of what the corresponding parameter of [n] takes, and it returns an
    array of what [n] returns (or, like [n], is left without annotation). *)
Theorem X10_plural_takes_arrays :
  forall f, In f files ->
  forall g, In g (operation_groups f) ->
  forall n one many, In (n, one) g -> In (n ++ "s", many) g ->
    Forall2 takes_array_of (s_params one) (s_params many)
    /\ s_ret many = option_map TArray (s_ret one).
Proof.
  intros f Hf g Hg n one many Hone Hmany.
  assert (H := checked_in_files operation_groups
                 (fun _ g => forallb (plural_ok g) g)
                 ltac:(vm_compute; reflexivity) ltac:(vm_compute; reflexivity)
                 ltac:(vm_compute; reflexivity) f Hf g Hg).
  cbv beta in H. rewrite forallb_forall in H. specialize (H _ Hone).
  unfold plural_ok in H. rewrite forallb_forall in H. specialize (H _ Hmany).
  cbn [fst snd] in H. rewrite String.eqb_refl in H. unfold plural_of in H.
  apply andb_true_iff in H as [Hps Hret]. split.
  - now apply array_of_spec.
  - symmetry. now apply opt_ty_eqb_eq.
Qed.

Lemma X10_witness :
  let one := Sig [] [req "annotation" (ref "Annotation")]
                 (Some (ref "Annotation")) None in
  let many := Sig [] [req "annotations" (TArray (ref "Annotation"))]
                  (Some (TArray (ref "Annotation"))) None in
  let g := methods_of (decl_members (decl_at part_001 24)) in
  In part_001 files
  /\ In g (operation_groups part_001)
  /\ In ("removeAnnotation", one) g
  /\ In ("removeAnnotation" ++ "s", many) g
  /\ Forall2 takes_array_of (s_params one) (s_params many)
  /\ s_ret many = option_map TArray (s_ret one).
Proof.
  intros one many g.
  assert (Hf : In part_001 files) by (right; right; left; reflexivity).
  assert (Hg : In g (operation_groups part_001)).
  { right.
    apply (in_map (fun d => methods_of (decl_members d))).
    apply decl_at_in. vm_compute. lia. }
  assert (H1 : In ("removeAnnotation", one) g) by (vm_compute; tauto).
  assert (H2 : In ("removeAnnotation" ++ "s", many) g) by (vm_compute; tauto).
  split; [exact Hf |]. split; [exact Hg |]. split; [exact H1 |].
  split; [exact H2 |].
  exact (X10_plural_takes_arrays part_001 Hf g Hg _ _ _ H1 H2).
Defined.

(** X11: every method [setXAnimated] of a class takes a required first
    parameter of the type of the class's property [x] and an optional
    second parameter [animate: boolean], and returns the class itself. *)
Theorem X11_animated_setters_match_properties :
  forall f, In f files ->
  forall c ms, In (c, ms) (classes_of f) ->
  forall n s p, In (n, s) (methods_of ms) -> setter_target n = Some p ->
  exists x t,
    s_params s = [req x t; opt "animate" TBoolean]
    /\ prop_type ms p = Some (Some t)
    /\ s_ret s = Some (ref c).
Proof.
  intros f Hf c ms Hin n s p Hm Hp.
  assert (H := checked_in_files classes_of
                 (fun _ x => forallb (setter_ok (fst x) (snd x))
                                     (methods_of (snd x)))
                 ltac:(vm_compute; reflexivity) ltac:(vm_compute; reflexivity)
                 ltac:(vm_compute; reflexivity) f Hf _ Hin).
  cbn [fst snd] in H. rewrite forallb_forall in H. specialize (H _ Hm).
  unfold setter_ok in H. cbn [fst snd] in H. rewrite Hp in H.
  destruct (s_params s) as [|[x [] [t|]] [|[a [] [[]|]] [|]]];
    try discriminate.
  destruct (prop_type ms p) as [[u|]|]; try discriminate.
  destruct (s_ret s) as [r|]; try discriminate.
  apply andb_true_iff in H as [H Hr]. apply andb_true_iff in H as [Ht Ha].
  apply ty_eqb_eq in Ht, Hr. apply String.eqb_eq in Ha. subst.
  now exists x, u.
Qed.

Lemma X11_witness :
  let s := Sig [] [req "egion" (ref "CoordinateRegion"); opt "animate" TBoolean]
               (Some (ref "Map")) None in
  let ms := decl_members (decl_at mapkit_d_ts 8) in
  In mapkit_d_ts files
  /\ In ("Map", ms) (classes_of mapkit_d_ts)
  /\ In ("setRegionAnimated", s) (methods_of ms)
  /\ setter_target "setRegionAnimated" = Some "region"
  /\ exists x t,
       s_params s = [req x t; opt "animate" TBoolean]
       /\ prop_type ms "region" = Some (Some t)
       /\ s_ret s = Some (ref "Map").
Proof.
  intros s ms.
  assert (Hf : In mapkit_d_ts files) by (left; reflexivity).
  assert (Hin : In ("Map", ms) (classes_of mapkit_d_ts)).
  { apply (nth_error_In _ 1). vm_compute. reflexivity. }
  assert (Hm : In ("setRegionAnimated", s) (methods_of ms))
    by (vm_compute; tauto).
  assert (Hp : setter_target "setRegionAnimated" = Some "region")
    by (vm_compute; reflexivity).
  split; [exact Hf |]. split; [exact Hin |]. split; [exact Hm |].
  split; [exact Hp |].
  exact (X11_animated_setters_match_properties mapkit_d_ts Hf _ _ Hin _ _ _
           Hm Hp).
Defined.

(** X12: in every class of every file, a method [copy] takes nothing and
    returns the class, a property [copy] has the class as type, and a
    method [equals] takes one required value of the class and returns a
    boolean. *)
Theorem X12_copy_equals_own_class :
  forall f, In f files ->
  forall c ms, In (c, ms) (classes_of f) ->
  forall m, In m ms ->
    (forall o s, m = MMethod "copy" o s ->
       s_params s = [] /\ s_ret s = Some (ref c))
    /\ (forall b i, m = MProperty b i -> b_name b = "copy" ->
          b_type b = Some (ref c))
    /\ (forall o s, m = MMethod "equals" o s ->
          exists x, s_params s = [req x (ref c)] /\ s_ret s = Some TBoolean).
Proof.
  intros f Hf c ms Hin m Hm.
  assert (H := checked_in_files classes_of
                 (fun _ x => forallb (copy_equals_ok (fst x)) (snd x))
                 ltac:(vm_compute; reflexivity) ltac:(vm_compute; reflexivity)
                 ltac:(vm_compute; reflexivity) f Hf _ Hin).
  cbn [fst snd] in H. rewrite forallb_forall in H. specialize (H _ Hm).
  split; [| split].
  - intros o s ->. simpl in H.
    destruct (s_params s); [| discriminate].
    destruct (s_ret s) as [t|]; [| discriminate].
    apply ty_eqb_eq in H. now subst.
  - intros b i -> Hb. simpl in H. rewrite Hb in H. simpl in H.
    now apply opt_ty_eqb_eq in H.
  - intros o s ->. simpl in H.
    destruct (s_params s) as [|[x [] [t|]] [|]]; try discriminate.
    destruct (s_ret s) as [[] |]; try discriminate.
    apply ty_eqb_eq in H. subst. now exists x.
Qed.

Lemma X12_witness :
  let ms := decl_members (decl_at mapkit_d_ts 11) in
  In mapkit_d_ts files
  /\ In ("MapPoint", ms) (classes_of mapkit_d_ts)
  /\ In (field "copy" (ref "MapPoint")) ms
  /\ b_name (req "copy" (ref "MapPoint")) = "copy"
  /\ b_type (req "copy" (ref "MapPoint")) = Some (ref "MapPoint").
Proof.
  intros ms.
  assert (Hf : In mapkit_d_ts files) by (left; reflexivity).
  assert (Hin : In ("MapPoint", ms) (classes_of mapkit_d_ts)).
  { apply (nth_error_In _ 2). vm_compute. reflexivity. }
  assert (Hm : In (field "copy" (ref "MapPoint")) ms) by (vm_compute; tauto).
  split; [exact Hf |]. split; [exact Hin |]. split; [exact Hm |].
  split; [reflexivity |].
  exact (proj1 (proj2 (X12_copy_equals_own_class mapkit_d_ts Hf _ _ Hin _ Hm))
           _ _ eq_refl eq_refl).
Defined.

Lemma conversions_of_iff (f : list decl) (c m r : string) :
  In (c, m, r) (conversions_of f) <-> converts f c m r.
Proof.
  unfold conversions_of, converts. rewrite in_flat_map. split.
  - intros [[c' ms] [Hc Hin]]. apply in_flat_map in Hin as [[m' s] [Hm Hin]].
    cbn [fst snd] in Hin.
    destruct (strip_prefix "to" m') eqn:Hpre; [| now destruct Hin].
    destruct (s_params s) eqn:Hps; [| now destruct Hin].
    destruct (s_ret s) as [t|] eqn:Hr; [| now destruct Hin].
    destruct t as [ | | | | | | | r' args | | | | | | | ];
      try (now destruct Hin).
    destruct args; [| now destruct Hin].
    destruct Hin as [Hin | []]. injection Hin as <- <- <-.
    exists ms, s. split; [assumption |]. split; [assumption |].
    split; [congruence |]. split; [assumption | exact Hr].
  - intros [ms [s [Hc [Hm [Hpre [Hps Hr]]]]]].
    exists (c, ms). split; [assumption |]. apply in_flat_map.
    exists (m, s). split; [assumption |]. cbn [fst snd].
    rewrite Hps, Hr. destruct (strip_prefix "to" m); [| congruence].
    left. reflexivity.
Qed.

(** X13: every conversion has one back: when a class [c] declares a
    method [toX()] without parameters that returns class [r], class [r]
    declares such a method returning [c]. *)
Theorem X13_conversions_have_inverses :
  forall f, In f files ->
  forall c m r, converts f c m r -> exists m', converts f r m' c.
Proof.
  intros f Hf c m r Hconv. apply conversions_of_iff in Hconv.
  assert (H := checked_in_files conversions_of
                 (fun f x => has_inverse (conversions_of f) x)
                 ltac:(vm_compute; reflexivity) ltac:(vm_compute; reflexivity)
                 ltac:(vm_compute; reflexivity) f Hf _ Hconv).
  cbv beta in H. unfold has_inverse in H.
  apply existsb_exists in H as [[[c' m'] r'] [Hin H]]. cbn [fst snd] in H.
  apply andb_true_iff in H as [Hc Hr].
  apply String.eqb_eq in Hc, Hr. subst.
  exists m'. now apply conversions_of_iff.
Qed.

Lemma X13_witness :
  In part_001 files
  /\ converts part_001 "Coordinate" "toUnwrappedMapPoint" "MapPoint"
  /\ exists m', converts part_001 "MapPoint" m' "Coordinate".
Proof.
  assert (Hf : In part_001 files) by (right; right; left; reflexivity).
  assert (Hc : converts part_001 "Coordinate" "toUnwrappedMapPoint" "MapPoint").
  { apply conversions_of_iff. vm_compute. tauto. }
  split; [exact Hf |]. split; [exact Hc |].
  exact (X13_conversions_have_inverses part_001 Hf _ _ _ Hc).
Defined.

(** ** From one revision to the next *)

(** X14: every class of mapkit.d.ts is a class of part_000, and every
    property or method name it offers, its own or inherited, is still
    offered there (the event listener methods of [Map] and [Annotation],
    declared in the class by mapkit.d.ts, come from the base class
    [MapKitEvented] in part_000). *)
Theorem X14_class_member_names_kept :
  forall c, In c (class_names mapkit_d_ts) ->
    In c (class_names part_000)
    /\ forall n, In n (member_names (class_surface 3 mapkit_d_ts c)) ->
                 In n (member_names (class_surface 3 part_000 c)).
Proof.
  intros c Hc.
  assert (H : class_names_kept mapkit_d_ts part_000 c = true).
  { revert c Hc. apply forallb_forall. vm_compute. reflexivity. }
  unfold class_names_kept in H. apply andb_true_iff in H as [Hin Hn].
  split; [now apply mem_In |].
  intros n Hmem. rewrite forallb_forall in Hn. now apply mem_In, Hn.
Qed.

Lemma X14_witness :
  In "Map" (class_names mapkit_d_ts)
  /\ In "Map" (class_names part_000)
  /\ forall n, In n (member_names (class_surface 3 mapkit_d_ts "Map")) ->
               In n (member_names (class_surface 3 part_000 "Map")).
Proof.
  assert (Hc : In "Map" (class_names mapkit_d_ts))
    by (apply mem_In; vm_compute; reflexivity).
  split; [exact Hc | exact (X14_class_member_names_kept "Map" Hc)].
Defined.

(** The listener methods that mapkit.d.ts declares in [Map] are inherited
    in part_000. *)
Example listener_moved_to_base :
  In "addEventListener" (own_names mapkit_d_ts "Map")
  /\ ~ In "addEventListener" (own_names part_000 "Map")
  /\ In "addEventListener" (own_names part_000 "MapKitEvented")
  /\ ancestors 3 part_000 "Map" = Some ["MapKitEvented"].
Proof.
  split; [apply mem_In; vm_compute; reflexivity |].
  split; [| split; [apply mem_In |]; vm_compute; reflexivity].
  intros H. apply mem_In in H. vm_compute in H. discriminate H.
Qed.

(** X15: every interface of mapkit.d.ts is an interface of part_000, and
    every member name it offers, its own or inherited, is still offered
    there. *)
Theorem X15_interface_member_names_kept :
  forall i, In i (interface_names mapkit_d_ts) ->
    In i (interface_names part_000)
    /\ forall n, In n (member_names (iface_surface mapkit_d_ts i)) ->
                 In n (member_names (iface_surface part_000 i)).
Proof.
  intros i Hi.
  assert (H : interface_names_kept mapkit_d_ts part_000 i = true).
  { revert i Hi. apply forallb_forall. vm_compute. reflexivity. }
  unfold interface_names_kept in H. apply andb_true_iff in H as [Hin Hn].
  split; [now apply mem_In |].
  intros n Hmem. rewrite forallb_forall in Hn. now apply mem_In, Hn.
Qed.

Lemma X15_witness :
  In "MarkerAnnotationConstructorOptions" (interface_names mapkit_d_ts)
  /\ In "MarkerAnnotationConstructorOptions" (interface_names part_000)
  /\ forall n,
       In n (member_names
               (iface_surface mapkit_d_ts "MarkerAnnotationConstructorOptions")) ->
       In n (member_names
               (iface_surface part_000 "MarkerAnnotationConstructorOptions")).
Proof.
  assert (Hi : In "MarkerAnnotationConstructorOptions"
                  (interface_names mapkit_d_ts))
    by (apply mem_In; vm_compute; reflexivity).
  split; [exact Hi | exact (X15_interface_member_names_kept _ Hi)].
Defined.

Lemma not_kept_nil (a b : string) (old new : list member) :
  not_kept a b old new = [] ->
  forall m, In m old ->
  exists m', In m' new /\ member_le (rename_member a b m) m' = true.
Proof.
  intros H m Hm. apply (filter_nil _ _ H) in Hm.
  apply negb_false_iff in Hm. apply existsb_exists in Hm as [m' [Hin Hle]].
  now exists m'.
Qed.

(** X16: every class of part_000 is a class of part_001 that keeps each of
    its members: once [_DisplayAsset] is written [DisplayAsset], every
    member has a counterpart of the same kind and name, with the same
    parameters by name, order and [?] mark and every annotation kept. *)
Theorem X16_classes_kept_by_part_001 :
  forall c ms, In (c, ms) (classes_of part_000) ->
  exists ms',
    find_class part_001 c = Some ms'
    /\ forall m, In m ms ->
       exists m', In m' ms'
                  /\ member_le (rename_member renamed_from renamed_to m) m'
                     = true.
Proof.
  intros c ms Hin.
  assert (H : match find_class part_001 c with
              | Some ms' =>
                  is_none (hd_error (not_kept renamed_from renamed_to ms ms'))
              | None => false
              end = true).
  { change (let x := (c, ms) in
            match find_class part_001 (fst x) with
            | Some ms' =>
                is_none (hd_error (not_kept renamed_from renamed_to (snd x) ms'))
            | None => false
            end = true).
    revert Hin. generalize (c, ms). apply forallb_forall.
    vm_compute. reflexivity. }
  destruct (find_class part_001 c) as [ms'|]; [| discriminate].
  exists ms'. split; [reflexivity |].
  apply not_kept_nil.
  destruct (not_kept renamed_from renamed_to ms ms'); [reflexivity | discriminate].
Qed.

Lemma X16_witness :
  let ms := [ ctor [req "coordinate" (ref "Coordinate");
                    opt "options" (ref "ImageAnnotationConstructorOptions")];
              field "url" (ref "_DisplayAsset") ] in
  In ("ImageAnnotation", ms) (classes_of part_000)
  /\ exists ms',
       find_class part_001 "ImageAnnotation" = Some ms'
       /\ forall m, In m ms ->
          exists m', In m' ms'
                     /\ member_le (rename_member renamed_from renamed_to m) m'
                        = true.
Proof.
  intros ms.
  assert (Hin : In ("ImageAnnotation", ms) (classes_of part_000)).
  { apply (nth_error_In _ 19). vm_compute. reflexivity. }
  split; [exact Hin | exact (X16_classes_kept_by_part_001 _ _ Hin)].
Defined.

(** X17: every interface of part_000 is an interface of part_001, under
    the same name ([_DisplayAsset] under the name [DisplayAsset]), that
    keeps each of its members in the same sense. *)
Theorem X17_interfaces_kept_by_part_001 :
  forall i es ms, In (i, es, ms) (interfaces_of part_000) ->
  exists ms',
    find_interface part_001 (rename_name renamed_from renamed_to i) = Some ms'
    /\ interface_extends part_001 (rename_name renamed_from renamed_to i)
       = map (rename_ty renamed_from renamed_to) es
    /\ forall m, In m ms ->
       exists m', In m' ms'
                  /\ member_le (rename_member renamed_from renamed_to m) m'
                     = true.
Proof.
  intros i es ms Hin.
  pose (chk := fun x : string * list ty * list member =>
     let i' := rename_name renamed_from renamed_to (fst (fst x)) in
     match find_interface part_001 i' with
     | Some ms' =>
         is_none (hd_error (not_kept renamed_from renamed_to (snd x) ms'))
         && forall2b ty_eqb (interface_extends part_001 i')
                     (map (rename_ty renamed_from renamed_to) (snd (fst x)))
     | None => false
     end).
  assert (H : chk (i, es, ms) = true).
  { revert Hin. generalize (i, es, ms). apply forallb_forall.
    vm_compute. reflexivity. }
  unfold chk in H. cbn [fst snd] in H.
  destruct (find_interface part_001 _) as [ms'|]; [| discriminate].
  apply andb_true_iff in H as [Hk He].
  exists ms'. split; [reflexivity |]. split.
  - apply (forall2b_eq ty_eqb); [| exact He].
    apply Forall_forall. intros t _ u. apply ty_eqb_eq.
  - apply not_kept_nil.
    destruct (not_kept renamed_from renamed_to ms ms');
      [reflexivity | discriminate].
Qed.

Lemma X17_witness :
  let ms := [ field "1" TString; field_opt "2" TString; field_opt "3" TString ] in
  In ("_DisplayAsset", [], ms) (interfaces_of part_000)
  /\ exists ms',
       find_interface part_001 (rename_name renamed_from renamed_to "_DisplayAsset")
       = Some ms'
       /\ interface_extends part_001
            (rename_name renamed_from renamed_to "_DisplayAsset")
          = map (rename_ty renamed_from renamed_to) []
       /\ forall m, In m ms ->
          exists m', In m' ms'
                     /\ member_le (rename_member renamed_from renamed_to m) m'
                        = true.
Proof.
  intros ms.
  assert (Hin : In ("_DisplayAsset", [], ms) (interfaces_of part_000)).
  { apply (nth_error_In _ 11). vm_compute. reflexivity. }
  split; [exact Hin | exact (X17_interfaces_kept_by_part_001 _ _ _ Hin)].
Defined.

(** X18: every declaration of part_000 that is neither a class nor an
    interface (the functions, variables, enums and namespaces, and the
    [export as namespace] line) stands unchanged in part_001. *)
Theorem X18_plain_declarations_unchanged :
  forall d, In d part_000 -> is_plain_decl d = true -> In d part_001.
Proof.
  intros d Hd Hp.
  destruct (In_nth _ _ (DExportAsNamespace "") Hd) as [i [Hi Hnth]].
  fold (decl_at part_000 i) in Hnth. subst d.
  assert (Hpos : In i (plain_positions part_000)).
  { apply filter_In. split; [| exact Hp]. apply in_seq. lia. }
  assert (Hsame : map (decl_at part_000) (plain_positions part_000)
                  = map (decl_at part_001) (plain_positions part_000))
    by (vm_compute; reflexivity).
  rewrite (proj1 (@map_ext_in_iff _ _ _ _ _) Hsame i Hpos).
  apply nth_In.
  assert (Hlen : length part_000 <= length part_001) by (vm_compute; lia).
  lia.
Qed.

Lemma X18_witness :
  let d := DVariable (Mods true false) VConst "build" (Some TString) None in
  In d part_000 /\ is_plain_decl d = true /\ In d part_001.
Proof.
  intros d.
  assert (Hd : In d part_000) by (apply (nth_error_In _ 14); reflexivity).
  split; [exact Hd |]. split; [reflexivity |].
  exact (X18_plain_declarations_unchanged d Hd eq_refl).
Defined.

(** ** Events *)

Lemma lookup_first_In {V : Type} (k : string) (l : list (string * V)) (v : V) :
  lookup_first k l = Some v -> In k (map fst l).
Proof.
  induction l as [|[k' v'] l IH]; simpl; [discriminate |].
  destruct (k' =? k) eqn:Hk.
  - intros _. left. now apply String.eqb_eq.
  - intros H. right. now apply IH.
Qed.

(** X19: whatever event an annotation or an overlay class (or a class
    below one) hands to its listeners, the map hands an event under the
    same name, of a type that admits the item's. *)
Theorem X19_item_events_listenable_on_map :
  forall f, In f files ->
  forall c, In c (class_names f) -> is_item_class f c = true ->
  forall k t, event_type f c k = Some (Some t) ->
  exists u, event_type f "Map" k = Some (Some u) /\ assignable f t u = true.
Proof.
  intros f Hf c Hc Hitem k t Hk.
  assert (H := checked_in_files class_names item_events_ok
                 ltac:(vm_compute; reflexivity) ltac:(vm_compute; reflexivity)
                 ltac:(vm_compute; reflexivity) f Hf c Hc).
  unfold item_events_ok in H. rewrite Hitem in H. simpl in H.
  rewrite forallb_forall in H.
  assert (Hkey : In k (event_keys f c)).
  { unfold event_keys. unfold event_type in Hk.
    destruct (event_map 3 f c) as [e|]; [| discriminate].
    now apply lookup_first_In in Hk. }
  specialize (H k Hkey). unfold listenable_on_map in H. rewrite Hk in H.
  destruct (event_type f "Map" k) as [[u|]|]; try discriminate.
  now exists u.
Qed.

Lemma X19_witness :
  In part_001 files /\ In "MarkerAnnotation" (class_names part_001)
  /\ is_item_class part_001 "MarkerAnnotation" = true
  /\ event_type part_001 "MarkerAnnotation" "select"
     = Some (Some (ref "AnnotationEvent"))
  /\ exists u, event_type part_001 "Map" "select" = Some (Some u)
               /\ assignable part_001 (ref "AnnotationEvent") u = true.
Proof.
  assert (Hf : In part_001 files) by (right; right; left; reflexivity).
  assert (Hc : In "MarkerAnnotation" (class_names part_001))
    by (apply mem_In; vm_compute; reflexivity).
  assert (Hi : is_item_class part_001 "MarkerAnnotation" = true)
    by (vm_compute; reflexivity).
  assert (Hk : event_type part_001 "MarkerAnnotation" "select"
               = Some (Some (ref "AnnotationEvent")))
    by (vm_compute; reflexivity).
  split; [exact Hf |]. split; [exact Hc |]. split; [exact Hi |].
  split; [exact Hk |].
  exact (X19_item_events_listenable_on_map part_001 Hf _ Hc Hi _ _ Hk).
Defined.

(** The events of a tile overlay are its own: the map has no [tile-error]. *)
Example tile_error_not_on_map :
  event_type part_001 "TileOverlay" "tile-error"
  = Some (Some (ref "TileOverlayErrorEvent"))
  /\ event_type part_001 "Map" "tile-error" = None
  /\ is_item_class part_001 "TileOverlay" = false.
Proof. evaluate. Qed.

(** ** Options and properties *)

(** X20: in every class that has properties at all, each field of the
    options interface of a constructor (the interface's own fields and
    those it inherits) is the name of a property of the class, its own or
    inherited: what can be set at construction can be read afterwards. *)
Theorem X20_options_are_properties :
  forall f, In f files ->
  forall c, In c (class_names f) ->
  props_of (class_surface 3 f c) <> [] ->
  forall cs ps i n,
    class_constructors f c = Some cs -> In ps cs ->
    options_interface f ps = Some i ->
    In n (map fst (props_of (iface_surface f i))) ->
    In n (map fst (props_of (class_surface 3 f c))).
Proof.
  intros f Hf c Hc Hprops cs ps i n Hcs Hps Hi Hn.
  assert (H := checked_in_files class_names options_mirrored
                 ltac:(vm_compute; reflexivity) ltac:(vm_compute; reflexivity)
                 ltac:(vm_compute; reflexivity) f Hf c Hc).
  unfold options_mirrored in H. apply orb_true_iff in H as [H | H].
  - destruct (props_of (class_surface 3 f c)); [now elim Hprops | discriminate].
  - assert (Hnil : unmirrored f c = [])
      by (destruct (unmirrored f c); [reflexivity | discriminate]).
    unfold unmirrored in Hnil. rewrite Hcs in Hnil.
    apply (flat_map_nil _ _ Hnil) in Hps. rewrite Hi in Hps.
    apply (filter_nil _ _ Hps) in Hn. apply negb_false_iff in Hn.
    now apply mem_In.
Qed.

Lemma X20_witness :
  let ps := [ req "coordinate" (ref "Coordinate");
              opt "options" (ref "MarkerAnnotationConstructorOptions") ] in
  In part_001 files /\ In "MarkerAnnotation" (class_names part_001)
  /\ props_of (class_surface 3 part_001 "MarkerAnnotation") <> []
  /\ class_constructors part_001 "MarkerAnnotation" = Some [ps]
  /\ In ps [ps]
  /\ options_interface part_001 ps = Some "MarkerAnnotationConstructorOptions"
  /\ In "calloutOffset"
        (map fst (props_of (iface_surface part_001
                              "MarkerAnnotationConstructorOptions")))
  /\ In "calloutOffset"
        (map fst (props_of (class_surface 3 part_001 "MarkerAnnotation"))).
Proof.
  intros ps.
  assert (Hf : In part_001 files) by (right; right; left; reflexivity).
  assert (Hc : In "MarkerAnnotation" (class_names part_001))
    by (apply mem_In; vm_compute; reflexivity).
  assert (Hp : props_of (class_surface 3 part_001 "MarkerAnnotation") <> [])
    by (vm_compute; discriminate).
  assert (Hcs : class_constructors part_001 "MarkerAnnotation" = Some [ps])
    by (vm_compute; reflexivity).
  assert (Hps : In ps [ps]) by (left; reflexivity).
  assert (Hi : options_interface part_001 ps
               = Some "MarkerAnnotationConstructorOptions")
    by (vm_compute; reflexivity).
  assert (Hn : In "calloutOffset"
                  (map fst (props_of (iface_surface part_001
                                        "MarkerAnnotationConstructorOptions"))))
    by (apply mem_In; vm_compute; reflexivity).
  split; [exact Hf |]. split; [exact Hc |]. split; [exact Hp |].
  split; [exact Hcs |]. split; [exact Hps |]. split; [exact Hi |].
  split; [exact Hn |].
  exact (X20_options_are_properties part_001 Hf _ Hc Hp _ _ _ _ Hcs Hps Hi Hn).
Defined.
